(* ===== verification/_CoqProject ===== *)
-Q . S2P
Prelude.v
PyStr.v
Vocab.v
Data.v
Predict.v
Layers.v
Prepare.v
Rnn.v
Train.v
Script2Run.v
