(* ===== verification/Prelude.v ===== *)
(** * A verification development for davidbarnes94/math-questions-with-deep-learning

    The repository holds two Python scripts that train toy recurrent
    networks on a dozen hard-coded arithmetic word problems:

    - [src/algebraicReasoning_oneHot.py] ("script 1"): builds a word
      vocabulary with [createWordDictionary], turns a question into word
      indices with [prepare_question], runs an LSTM ([LSTMmath]) over the
      indices and classifies the last output into one of 101 answers;
      one epoch of training, then two evaluation loops.
    - [src/mathQA_multiRNN.py] ("script 2"): a multiple-choice model.  A
      question vocabulary ([createQuestionDictionary]) and an answer
      vocabulary ([createAnswerDictionary], which also recognises numbers
      with [is_number]) feed [prepare_data]; a question GRU
      ([process_question]) hands its last hidden state to one answer GRU
      per choice ([process_answer]); [is_accurate] turns the per-choice
      log-softmax rows into a predicted choice; [create_models], [train]
      and [test] drive the models.

    The numeric core (embeddings, GRU/LSTM cells, log-softmax, autograd,
    SGD) lives in PyTorch.  This development models everything the
    scripts themselves compute, and the layers whose semantics the
    scripts fix exactly (script 1's [torch.eye] embedding, [nn.Linear],
    [log_softmax] up to its log-sum-exp, [torch.max], script 2's
    [initHidden], [F.relu], [output2tag] and [nn.LogSoftmax]).  The rest
    of PyTorch is taken as parameters: Section [Context]s (the LSTM cell,
    the weights, the optimizer step, the model constructors), the class
    [Layers.LogSumExp], and the GRU step and weights held in the records
    [Rnn.Script2Rnn.QuestionRNN] and [Rnn.Script2Rnn.AnswerRNN].

    ** Files, in dependency order
    - [Prelude.v] (this file): Python exceptions as the error type
      [pyres] with its bind notation (scope [py_scope]), the container
      primitives the scripts use ([py_getitem] on a dict, [py_index],
      [py_index_z] and [py_setitem] on a list, the list comprehension
      [py_mapM], a for loop that can raise [py_foldM]), the hint
      databases [pyds] and [pyrw], the tactic [vm_decide] and the shared
      lemmas on these primitives.
    - [PyStr.v]: the Python string builtins the scripts call, on ASCII
      strings: [str.split()] and [re.findall(r"[\w']+", s)] as maximal
      runs ([runs]), [re.sub(r'[^\w\s]', '', w)] ([strip_punct]),
      [str.lower()] ([py_lower]), and [float()] on strings
      ([parse_float]); the Python values of the data ([pyval]) and
      [is_number].  Theorems: [findall] runs are the runs of the
      [split] tokens, split/join round trip, [lower] idempotent.
    - [Vocab.v]: the step [dict_add test ins] shared by the three
      vocabulary builders (Section [DictAdd]); [Module Script1]:
      [createWordDictionary]; [Module Script2]: [createQuestionDictionary]
      and [createAnswerDictionary] (keys [akey]: a float value or a
      string).  Theorems: the keys of each vocabulary; script 1's numbers
      the distinct tokens in the order of their first occurrence (hence a
      bijection onto [0 .. len-1]); script 2's indices are at most [len],
      equal to it after a capitalised word whose lowercase form is a key,
      and a bijection when the data is lowercase.
      The class [Vocabulary] states what a vocabulary promises to
      [prepare_question] and to the embedding (its tokens are keys, its
      indices a bijection onto the rows); script 1's vocabulary is an
      instance ([script1_vocabulary]), script 2's are not.
    - [Data.v]: the hard-coded data of both scripts and the dictionaries
      they build, evaluated: the index collisions and shifted test
      vocabularies the findings quote, on the script's own data.
    - [Prepare.v]: [prepare_question] (script 1) and [prepare_data]
      with [process_answer]'s choice of dictionary (script 2), with their
      KeyError paths: KeyError exactly when a cleaned token is not a key,
      always for a token with no word character, and for a numeric
      string choice.  Against the [Vocabulary] interface: every token is
      found at an index inside the embedding, and the inverse dictionary
      decodes the indices back into the tokens (round trip).
    - [Predict.v]: [is_accurate] and its reference specification: the
      first row of maximal candidate score ([first_argmax] of
      [map cand_score]).
    - [Layers.v]: the one-hot embedding [eye_embedding], [nn_linear],
      [log_softmax] over the class [LogSumExp] (its law: log-sum-exp
      bounds every entry), and [argmax] ([torch.max]); [torch.max]
      answers the same before and after [log_softmax].  Script 2's
      [F.relu], [torch.zeros], the two-way [output2tag] ([linear2]) and
      [nn.LogSoftmax] ([log_softmax2]).
    - [Rnn.v]: [nn.Embedding] as a range-checked table ([embed]), the
      [n_layers] loop ([layers]), [process_question] and
      [process_answer] refined to plain recurrences ([run_question],
      [run_answer]), with the model records and their [initHidden];
      script 1's [LSTMmath.__init__] ([LSTMmath_init]) and
      [LSTMmath.forward] with the state
      [self.hidden] ([Script1Rnn.state]): the one-hot rows, the LSTM
      cell run word by word ([run_lstm]), the last output scored by
      [nn_linear] and [log_softmax].
    - [Train.v]: script 2's [train] (the [n_epochs] loop inside the
      answer-model loop) and [test] with its shared [predicted_tags] matrix
      ([Module Script2Train]); script 1's training and evaluation loops
      ([script1_main], lines 135-187) and the whole script from line 124
      ([script1], with [model2]) ([Module Script1Train]).
    - [Script2Run.v]: script 2's main program (lines 377-381), the
      proof that it terminates normally on its data, and what it reports
      for a model that never prefers any answer.

    ** What the theorems show
    - [is_accurate] picks the first row of maximal tag-1 score among the
      rows that prefer tag 1, and row 0 when none does (it never reports
      "no answer").  [test] keeps rows of earlier problems in the shared
      matrix: with full problems every report names a choice; a stale
      confident row that beats the fresh rows makes [test] predict a
      nonexistent choice and print the [except] message.
    - Script 2 runs to the end on its data (any number of epochs) for
      any layers whose embeddings have the sizes [create_models] asks
      for; with answer models that never prefer tag 1 it credits exactly
      the problems whose correct index is 0 (3 of 9 and 3 of 6).
    - Script 2's vocabularies test [word] but store [word.lower()]: keys
      are the lowercased words, indices are at most [len] and reach it.
      Script 1's vocabulary numbers words by first occurrence, so the
      test vocabularies give words other indices than training did.
    - [process_question] / [process_answer] compute the GRU recurrences
      and raise exactly on an index outside the embedding, a question of
      more than [MAX_LENGTH] words, or an empty answer; [question_outputs]
      always has [MAX_LENGTH] rows.  [train] changes one answer model per
      phase and completes only when every problem has [NUM_ANSWERS]
      choices.
    - Script 1 from [model1] on runs to the end on its data for any LSTM
      cell and any [hidden2tag] layer with 101 rows; training is
      independent of the previous hidden state, while evaluation runs the
      LSTM over all the questions as one sequence.
    - The KeyError paths of [prepare_data]: tokens without a word
      character ("5 + 4 + 25"), apostrophes, numeric string choices.

    ** Bounds and fuel
    No definition uses fuel: every loop is a structural fold over a
    finite list ([py_foldM], [foldl], [py_mapM]), so every function is
    total and the theorems about results are stated unconditionally or
    with the hypotheses under which the code does not raise.  The
    constants are those of the code: [MAX_LENGTH = 25] rows of
    [question_outputs], [NUM_ANSWERS = 4] (the number of choices of the
    first training problem), 101 classes of script 1's [tag_to_ix].
    Theorems about the data are checked by evaluation ([vm_compute]).

    ** Modelling choices
    - Strings are [String.string] over ASCII.  Python's [\w], [\s] and
      [isspace] are Unicode classes; only their ASCII members are
      modelled (all the data is ASCII).
    - A Python dict is a [gmap]; [len(d)] is [size d]; a missing key
      raises KeyError.
    - Floats of the data are decimal literals, modelled exactly as
      rationals; scores are rationals.  Python's [8 == 8.0] key equality
      is modelled by keying numbers by their value.  NaN dictionary keys
      are distinct objects.
    - Python exceptions are the constructors of [py_error]; a function
      that can raise returns [pyres].  [try]/[except] is a match on the
      result.
    - [torch.LongTensor], [autograd.Variable], [.view] and [.cuda()] only
      wrap or reshape values and are the identity here.

    ** Not modelled
    The arithmetic of the GRU and LSTM cells, the [nn.Embedding] and
    [output2tag] weights of script 2 (random), the losses and optimizers (library code, taken as
    parameters: their results are floating-point computations with
    [exp], [tanh] and sigmoids that the scripts do not constrain), the
    value of log-sum-exp (irrational; only its law is used),
    [plot_gradient] and the gradient-norm lists (plotting only, and
    commented out), the console output other than the lines [test]
    prints, the unused [questionTrainingData], and the import of the
    module [generateQuestionsInt] at line 6 of script 1: the module is
    not in the repository, so as the repository stands script 1 stops
    there with ModuleNotFoundError; the model starts at the data (line
    17).  Script 1's [model2] (line 125) is modelled: [LSTMmath_init]
    raises TypeError on its [None] size, so [script1] raises before
    training; the theorems about script 1 are stated for the code from
    [model1] on ([script1_main]). *)


From stdpp Require Export base list gmap strings.
From Stdlib Require Export ZArith Lia.

(** ** Python exceptions *)

Inductive py_error :=
| KeyError
| IndexError
| TypeError
| ValueError
| AttributeError
| UnboundLocalError
| RuntimeError.

#[export] Instance py_error_eq_dec : EqDecision py_error.
Proof. solve_decision. Defined.

(** A computation that returns an [A] or raises. *)
Inductive pyres (A : Type) :=
| Ok (a : A)
| Exc (e : py_error).
Arguments Ok {A} a.
Arguments Exc {A} e.

Definition py_bind {A B} (m : pyres A) (k : A -> pyres B) : pyres B :=
  match m with
  | Ok a => k a
  | Exc e => Exc e
  end.

Declare Scope py_scope.
Delimit Scope py_scope with py.
Notation "x <- m ;; k" := (py_bind m (fun x => k))
  (at level 60, m at next level, right associativity) : py_scope.
Open Scope py_scope.

Definition is_ok {A} (m : pyres A) : bool :=
  match m with Ok _ => true | Exc _ => false end.

(** ** Containers *)

(** [d[k]] on a dict: KeyError when the key is absent. *)
Definition py_getitem `{Countable K} {V} (d : gmap K V) (k : K) : pyres V :=
  match d !! k with
  | Some v => Ok v
  | None => Exc KeyError
  end.

(** [l[i]] on a list with a non-negative index. *)
Definition py_index {A} (l : list A) (i : nat) : pyres A :=
  match l !! i with
  | Some a => Ok a
  | None => Exc IndexError
  end.

(** [l[i] = x] on a list or a tensor row: IndexError out of range
    (stdpp's [<[i:=x]>] alone would silently do nothing there). *)
Definition py_setitem {A} (l : list A) (i : nat) (x : A) : pyres (list A) :=
  if decide (i < length l) then Ok (<[i:=x]> l) else Exc IndexError.

(** [[f(x) for x in l]]: the first element that raises aborts. *)
Fixpoint py_mapM {A B} (f : A -> pyres B) (l : list A) : pyres (list B) :=
  match l with
  | [] => Ok []
  | x :: l' => y <- f x ;; ys <- py_mapM f l' ;; Ok (y :: ys)
  end.

(** [for x in l: s = f(s, x)] where an iteration may raise. *)
Fixpoint py_foldM {S A} (f : S -> A -> pyres S) (s : S) (l : list A) : pyres S :=
  match l with
  | [] => Ok s
  | x :: l' => s' <- f s x ;; py_foldM f s' l'
  end.

(** [l[z]] with a Python integer index: a negative index counts from the
    end. *)
Definition py_index_z {A} (l : list A) (z : Z) : pyres A :=
  if (0 <=? z)%Z then py_index l (Z.to_nat z)
  else if (- Z.of_nat (length l) <=? z)%Z then py_index l (Z.to_nat (Z.of_nat (length l) + z))
  else Exc IndexError.

(** ** Shared lemmas *)

Create HintDb pyds discriminated.
Create Rewrite HintDb pyrw.

Lemma py_bind_Ok {A B} (a : A) (k : A -> pyres B) : py_bind (Ok a) k = k a.
Proof. reflexivity. Qed.

Lemma py_bind_Exc {A B} e (k : A -> pyres B) : py_bind (Exc e) k = Exc e.
Proof. reflexivity. Qed.

Lemma py_bind_Ok_inv {A B} (m : pyres A) (k : A -> pyres B) b :
  py_bind m k = Ok b -> exists a, m = Ok a /\ k a = Ok b.
Proof. destruct m; simpl; [eauto | discriminate]. Qed.

Lemma is_ok_Ok {A} (m : pyres A) : is_ok m = true <-> exists a, m = Ok a.
Proof. destruct m; simpl; split; [eauto | done | discriminate | intros [? ?]; discriminate]. Qed.

Lemma is_ok_bind {A B} (m : pyres A) (k : A -> pyres B) :
  is_ok (py_bind m k) = true <-> exists a, m = Ok a /\ is_ok (k a) = true.
Proof. destruct m; simpl; split; [eauto | intros (? & [= ->] & ?); done | discriminate | intros (? & ? & ?); discriminate]. Qed.

Lemma py_getitem_Ok `{Countable K} {V} (d : gmap K V) k v :
  py_getitem d k = Ok v <-> d !! k = Some v.
Proof. unfold py_getitem. destruct (d !! k); split; congruence. Qed.

Lemma py_index_Ok {A} (l : list A) i a :
  py_index l i = Ok a <-> l !! i = Some a.
Proof. unfold py_index. destruct (l !! i); split; congruence. Qed.

Lemma py_index_Exc {A} (l : list A) i :
  py_index l i = Exc IndexError <-> length l <= i.
Proof.
  unfold py_index. rewrite <- lookup_ge_None.
  destruct (l !! i); split; congruence.
Qed.

(** [l[z]] succeeds only below [len(l)] (a negative [z] is below it). *)
Lemma py_index_z_Ok_lt {A} (l : list A) z a :
  py_index_z l z = Ok a -> (z < Z.of_nat (length l))%Z.
Proof.
  unfold py_index_z, py_index. destruct (0 <=? z)%Z eqn:Hz.
  - destruct (l !! Z.to_nat z) eqn:E; [|discriminate]. intros _.
    apply lookup_lt_Some in E. apply Z.leb_le in Hz. lia.
  - intros _. apply Z.leb_gt in Hz. lia.
Qed.

Lemma py_setitem_Ok {A} (l : list A) i x :
  i < length l -> py_setitem l i x = Ok (<[i:=x]> l).
Proof. intros Hi. unfold py_setitem. by rewrite decide_True. Qed.

Lemma py_setitem_Ok_inv {A} (l : list A) i x l' :
  py_setitem l i x = Ok l' -> i < length l /\ l' = <[i:=x]> l.
Proof. unfold py_setitem. case_decide; [by intros [= <-] | discriminate]. Qed.

Lemma py_setitem_Exc {A} (l : list A) i x :
  length l <= i -> py_setitem l i x = Exc IndexError.
Proof. intros Hi. unfold py_setitem. rewrite decide_False; [done | lia]. Qed.

Lemma py_mapM_Ok {A B} (f : A -> pyres B) l ys :
  py_mapM f l = Ok ys <-> Forall2 (fun x y => f x = Ok y) l ys.
Proof.
  revert ys; induction l as [|x l IH]; intros ys; simpl.
  - split; [intros [= <-]; constructor | intros H; inversion H; done].
  - split.
    + intros (y & Hy & (ys' & Hys & [= <-])%py_bind_Ok_inv)%py_bind_Ok_inv.
      constructor; [done | by apply IH].
    + intros H; inversion H as [|? y ? ys' Hy Hys]; subst.
      rewrite Hy; simpl. apply IH in Hys. by rewrite Hys.
Qed.

Lemma py_mapM_length {A B} (f : A -> pyres B) l ys :
  py_mapM f l = Ok ys -> length ys = length l.
Proof. intros H%py_mapM_Ok. symmetry. by eapply Forall2_length. Qed.

(** The comprehension raises exactly when some element raises, and the
    error it raises is the error of one of the elements. *)
Lemma py_mapM_not_ok {A B} (f : A -> pyres B) l :
  is_ok (py_mapM f l) = false <-> exists x, x ∈ l /\ is_ok (f x) = false.
Proof.
  induction l as [|x l IH]; simpl.
  - split; [discriminate | intros (? & Hx%elem_of_nil & _); done].
  - destruct (f x) eqn:Hfx; simpl.
    + destruct (py_mapM f l) eqn:Hl; simpl in *.
      * split; [discriminate|]. intros (y & [->|Hy]%elem_of_cons & Hfy).
        -- by rewrite Hfx in Hfy.
        -- discriminate (proj2 IH (ex_intro _ y (conj Hy Hfy))).
      * split; [|done]. intros _. destruct (proj1 IH eq_refl) as (y & ? & ?).
        exists y. split; [by apply elem_of_cons; right|done].
    + split; [|done]. intros _. exists x. rewrite Hfx. split; [apply elem_of_cons|]; auto.
Qed.

Lemma py_mapM_Exc_elem {A B} (f : A -> pyres B) l e :
  py_mapM f l = Exc e -> exists x, x ∈ l /\ f x = Exc e.
Proof.
  induction l as [|x l IH]; simpl; [discriminate|].
  destruct (f x) eqn:Hfx; simpl.
  - destruct (py_mapM f l); simpl; [discriminate|].
    intros [= ->]. destruct IH as (y & ? & ?); [done|].
    exists y. split; [by apply elem_of_cons; right|done].
  - intros [= ->]. exists x. split; [apply elem_of_cons; auto|done].
Qed.

(** The comprehension succeeds when every element does. *)
Lemma py_mapM_all_ok {A B} (f : A -> pyres B) l :
  (forall x, x ∈ l -> is_ok (f x) = true) -> exists ys, py_mapM f l = Ok ys.
Proof.
  induction l as [|x l IH]; intros Hall; simpl; [eauto|].
  destruct (f x) as [y|] eqn:Hfx; [|specialize (Hall x ltac:(left)); by rewrite Hfx in Hall].
  destruct IH as [ys ->]; [intros; apply Hall; by right|]. simpl. eauto.
Qed.

(** An invariant of every successful iteration holds after the loop. *)
Lemma py_foldM_invariant {S A} (P : S -> Prop) (f : S -> A -> pyres S) s l s' :
  (forall s x s', x ∈ l -> P s -> f s x = Ok s' -> P s') ->
  P s -> py_foldM f s l = Ok s' -> P s'.
Proof.
  revert s. induction l as [|x l IH]; intros s Hf Hs; simpl; [congruence|].
  destruct (f s x) as [s1|] eqn:Hx; simpl; [|discriminate].
  apply IH; [intros; eapply Hf; eauto; by right | eapply Hf; eauto; by left].
Qed.

(** Totality of a loop: when every step succeeds from a state
    satisfying [P] and re-establishes it, the loop succeeds. *)
Lemma py_foldM_ok {S A} (P : S -> Prop) (f : S -> A -> pyres S) s l :
  (forall s x, x ∈ l -> P s -> exists s', f s x = Ok s' /\ P s') ->
  P s -> exists s', py_foldM f s l = Ok s' /\ P s'.
Proof.
  revert s. induction l as [|x l IH]; intros s Hf Hs; simpl; [eauto|].
  destruct (Hf s x) as (s1 & -> & Hs1); [by left|done|]. simpl.
  apply IH; [intros; apply Hf; [by right|done] | done].
Qed.

(** Every element of the list is visited by a step that succeeds. *)
Lemma py_foldM_Ok_visit {S A} (f : S -> A -> pyres S) s l s' x :
  py_foldM f s l = Ok s' -> x ∈ l -> exists s1 s2, f s1 x = Ok s2.
Proof.
  revert s. induction l as [|y l IH]; intros s; simpl; [by intros _ ?%elem_of_nil|].
  destruct (f s y) as [s1|] eqn:Hy; simpl; [|discriminate].
  intros Hf [->|Hx]%elem_of_cons; eauto.
Qed.

Lemma py_foldM_app {S A} (f : S -> A -> pyres S) s l1 l2 :
  py_foldM f s (l1 ++ l2) = (s' <- py_foldM f s l1 ;; py_foldM f s' l2).
Proof.
  revert s. induction l1 as [|x l1 IH]; intros s; simpl; [done|].
  destruct (f s x); simpl; [apply IH|done].
Qed.

Lemma py_foldM_ext {S A} (f g : S -> A -> pyres S) s l :
  (forall s x, x ∈ l -> f s x = g s x) -> py_foldM f s l = py_foldM g s l.
Proof.
  revert s. induction l as [|x l IH]; intros s Hfg; simpl; [done|].
  rewrite Hfg by (by left). destruct (g s x); simpl; [|done].
  apply IH. intros; apply Hfg; by right.
Qed.

(** Nested loops are one loop over the flattened sequence. *)
Lemma py_foldM_flat_map {S A B} (f : S -> B -> pyres S) (g : A -> list B) s l :
  py_foldM f s (flat_map g l) = py_foldM (fun s x => py_foldM f s (g x)) s l.
Proof.
  revert s. induction l as [|x l IH]; intros s; simpl; [done|].
  rewrite py_foldM_app. destruct (py_foldM f s (g x)); simpl; [apply IH|done].
Qed.

Lemma py_foldM_map {S A B} (f : S -> B -> pyres S) (h : A -> B) s l :
  py_foldM f s (map h l) = py_foldM (fun s x => f s (h x)) s l.
Proof.
  revert s. induction l as [|x l IH]; intros s; simpl; [done|].
  destruct (f s (h x)); simpl; [apply IH|done].
Qed.

Lemma length_flat_map_const {A B} (g : A -> list B) c l :
  (forall x, length (g x) = c) -> length (flat_map g l) = length l * c.
Proof. intros Hg. induction l as [|x l IH]; simpl; [done|]. rewrite length_app, Hg, IH. lia. Qed.

(** The loop [for x in l: acc = f(acc, x)], one iteration at a time. *)
Lemma foldl_cons {A B} (f : A -> B -> A) a x l : foldl f a (x :: l) = foldl f (f a x) l.
Proof. reflexivity. Qed.

Lemma foldl_nil {A B} (f : A -> B -> A) a : foldl f a [] = a.
Proof. reflexivity. Qed.

#[export] Hint Rewrite @py_bind_Ok @py_bind_Exc : pyrw.
#[export] Hint Resolve py_setitem_Ok py_setitem_Exc : pyds.

(** Prove a decidable proposition about closed data by evaluation. *)
Ltac vm_decide :=
  match goal with |- ?P => apply (bool_decide_eq_true_1 P); vm_compute; reflexivity end.

(** Unfold a chain of binds whose heads are known. *)
Ltac py_simp := repeat (autorewrite with pyrw in *; simpl in *).
