(* ===== verification/PyStr.v ===== *)
(** * Python string builtins used by the two scripts

    ASCII models of [str.isspace], the regex classes [\w] and [\s],
    [str.lower()], [str.split()] (no argument), [re.findall(r"[\w']+", s)],
    [re.sub(r'[^\w\s]', '', w)] and [float()] on a string; the Python
    values appearing in the data ([pyval]) and [is_number] of
    [src/mathQA_multiRNN.py]. *)

From S2P Require Import Prelude.
From Stdlib Require Import Ascii String QArith.

Local Open Scope nat_scope.

(** ** Character classes (ASCII members of the Unicode classes) *)

Definition code (c : ascii) : nat := nat_of_ascii c.

(** [str.isspace] and the regex class [\s]: tab to carriage return, the
    four separators 0x1c..0x1f, and space. *)
Definition is_space (c : ascii) : bool :=
  ((9 <=? code c) && (code c <=? 13)) || ((28 <=? code c) && (code c <=? 32)).

Definition is_digit (c : ascii) : bool := (48 <=? code c) && (code c <=? 57).
Definition is_upper (c : ascii) : bool := (65 <=? code c) && (code c <=? 90).
Definition is_lower (c : ascii) : bool := (97 <=? code c) && (code c <=? 122).

(** The regex class [\w]: letters, digits and underscore. *)
Definition is_word (c : ascii) : bool :=
  is_digit c || is_upper c || is_lower c || Ascii.eqb c "_"%char.

(** The class [[\w']] of the pattern [r"[\w']+"]. *)
Definition is_word_or_apos (c : ascii) : bool := is_word c || Ascii.eqb c "'"%char.

Definition lower_char (c : ascii) : ascii :=
  if is_upper c then ascii_of_nat (code c + 32) else c.

(** ** String maps and filters *)

Fixpoint smap (f : ascii -> ascii) (s : string) : string :=
  match s with
  | EmptyString => EmptyString
  | String c s' => String (f c) (smap f s')
  end.

Fixpoint sfilter (p : ascii -> bool) (s : string) : string :=
  match s with
  | EmptyString => EmptyString
  | String c s' => if p c then String c (sfilter p s') else sfilter p s'
  end.

Fixpoint sall (p : ascii -> bool) (s : string) : bool :=
  match s with
  | EmptyString => true
  | String c s' => p c && sall p s'
  end.

(** [s.lower()] *)
Definition py_lower (s : string) : string := smap lower_char s.

(** [re.sub(r'[^\w\s]', '', w)]: keep the word and space characters. *)
Definition strip_punct (w : string) : string :=
  sfilter (fun c => is_word c || is_space c) w.

(** [sep.join(ts)] *)
Fixpoint join (sep : ascii) (ts : list string) : string :=
  match ts with
  | [] => EmptyString
  | [t] => t
  | t :: ts' => (t ++ String sep (join sep ts'))%string
  end.

(** ** Maximal runs

    [runs keep s] is the list of the maximal non-empty runs of characters
    of [s] that satisfy [keep], left to right.  [str.split()] is the runs
    of non-space characters, and [re.findall(r"[\w']+", s)] (a greedy
    character-class repetition, matched left to right without overlap)
    is the runs of [[\w']] characters. *)

Definition flush (cur : string) (l : list string) : list string :=
  match cur with
  | EmptyString => l
  | _ => cur :: l
  end.

Fixpoint runs_aux (keep : ascii -> bool) (cur : string) (s : string) : list string :=
  match s with
  | EmptyString => flush cur []
  | String c s' =>
      if keep c then runs_aux keep (cur ++ String c EmptyString) s'
      else flush cur (runs_aux keep EmptyString s')
  end.

Definition runs (keep : ascii -> bool) (s : string) : list string :=
  runs_aux keep EmptyString s.

(** [s.split()] *)
Definition py_split (s : string) : list string := runs (fun c => negb (is_space c)) s.

(** [re.findall(r"[\w']+", s)] *)
Definition findall_words (s : string) : list string := runs is_word_or_apos s.

(** A token of [runs keep]: non-empty, every character kept. *)
Definition token_ok (keep : ascii -> bool) (t : string) : bool :=
  match t with
  | EmptyString => false
  | _ => sall keep t
  end.

(** stdpp declares [String.append] [simpl never]; its two equations. *)
Lemma string_app_nil_l (s : string) : (EmptyString ++ s)%string = s.
Proof. reflexivity. Qed.

Lemma string_app_cons c (s1 s2 : string) : (String c s1 ++ s2)%string = String c (s1 ++ s2).
Proof. reflexivity. Qed.

Lemma string_app_nil_r (s : string) : (s ++ EmptyString)%string = s.
Proof. induction s as [|c s IH]; [done|]. by rewrite string_app_cons, IH. Qed.

Lemma string_app_assoc (s1 s2 s3 : string) : (s1 ++ (s2 ++ s3))%string = ((s1 ++ s2) ++ s3)%string.
Proof. induction s1 as [|c s1 IH]; [done|]. by rewrite !string_app_cons, IH. Qed.

Section Runs.
Context (keep : ascii -> bool).

Lemma sall_app s1 s2 : sall keep (s1 ++ s2) = sall keep s1 && sall keep s2.
Proof. induction s1; simpl; [done|]. rewrite IHs1. apply andb_assoc. Qed.

Lemma flush_tokens cur l :
  sall keep cur = true -> Forall (fun t => token_ok keep t = true) l ->
  Forall (fun t => token_ok keep t = true) (flush cur l).
Proof. destruct cur; simpl; [done|]. intros Hc Hl. constructor; [done|done]. Qed.

Lemma runs_aux_tokens cur s :
  sall keep cur = true ->
  Forall (fun t => token_ok keep t = true) (runs_aux keep cur s).
Proof.
  revert cur; induction s as [|c s IH]; intros cur Hcur; simpl.
  - by apply flush_tokens.
  - destruct (keep c) eqn:Hk.
    + apply IH. rewrite sall_app. simpl. by rewrite Hcur, Hk.
    + apply flush_tokens; [done|]. by apply IH.
Qed.

(** Every token is non-empty and made of kept characters. *)
Lemma runs_tokens s : Forall (fun t => token_ok keep t = true) (runs keep s).
Proof. by apply runs_aux_tokens. Qed.

(** Reading a run of kept characters extends the current token. *)
Lemma runs_aux_app_kept cur t s :
  sall keep t = true -> runs_aux keep cur (t ++ s) = runs_aux keep (cur ++ t) s.
Proof.
  revert cur; induction t as [|c t IH]; intros cur Ht; simpl.
  - by rewrite string_app_nil_r.
  - simpl in Ht. apply andb_prop in Ht as [Hc Ht]. rewrite Hc, IH by done.
    by rewrite <- string_app_assoc.
Qed.

Lemma flush_app cur l1 l2 : flush cur (l1 ++ l2) = flush cur l1 ++ l2.
Proof. by destruct cur. Qed.

(** A character that is not kept ends the current run. *)
Lemma runs_aux_break cur t c s :
  keep c = false ->
  runs_aux keep cur (t ++ String c s) = runs_aux keep cur t ++ runs_aux keep EmptyString s.
Proof.
  intros Hc. revert cur; induction t as [|d t IH]; intros cur.
  - rewrite string_app_nil_l. cbn [runs_aux]. rewrite Hc. by rewrite <- flush_app.
  - rewrite string_app_cons. cbn [runs_aux]. destruct (keep d); [apply IH|].
    by rewrite IH, flush_app.
Qed.

Lemma runs_all_kept t : sall keep t = true -> runs keep t = flush t [].
Proof.
  intros Ht. unfold runs. rewrite <- (string_app_nil_r t) at 1.
  rewrite runs_aux_app_kept by done. cbn [runs_aux]. by rewrite string_app_nil_l.
Qed.

Context (sep : ascii) (Hsep : keep sep = false).

(** Round trip: splitting a separator-joined list of tokens gives the
    tokens back. *)
Lemma runs_join ts :
  Forall (fun t => token_ok keep t = true) ts -> runs keep (join sep ts) = ts.
Proof.
  unfold runs. induction ts as [|t ts IH]; intros Hts; [done|].
  inversion Hts as [|? ? Ht Hts']; subst.
  assert (Hall : sall keep t = true) by (destruct t; done).
  destruct ts as [|t' ts].
  - cbn [join]. rewrite <- (string_app_nil_r t) at 1.
    rewrite runs_aux_app_kept by done. cbn [runs_aux].
    rewrite string_app_nil_l. by destruct t.
  - change (join sep (t :: t' :: ts)) with (t ++ String sep (join sep (t' :: ts)))%string.
    rewrite runs_aux_app_kept by done. cbn [runs_aux].
    rewrite Hsep, string_app_nil_l, IH by done.
    by destruct t.
Qed.
End Runs.

(** A string is all [p], or splits at its first character that is not. *)
Lemma first_break (p : ascii -> bool) s :
  sall p s = true \/ exists t c s', s = (t ++ String c s')%string /\ sall p t = true /\ p c = false.
Proof.
  induction s as [|c s IH]; [by left|]. simpl.
  destruct (p c) eqn:Hc; simpl.
  - destruct IH as [|(t & c' & s' & -> & Ht & Hc')]; [by left|].
    right. exists (String c t), c', s'. simpl. by rewrite Hc, Ht.
  - right. by exists EmptyString, c, s.
Qed.

Lemma string_length_app (s1 s2 : string) : String.length (s1 ++ s2) = String.length s1 + String.length s2.
Proof. induction s1 as [|c s1 IH]; [done|]. rewrite string_app_cons. simpl. by rewrite IH. Qed.

(** Proof of [runs_concat_split], used by the lemmas that follow. *)
Lemma runs_split_concat (keep : ascii -> bool) :
  (forall c, keep c = true -> is_space c = false) ->
  forall s, runs keep s = List.concat (map (runs keep) (py_split s)).
Proof.
  intros Hkeep s. remember (String.length s) as n eqn:Hn.
  revert s Hn. induction n as [n IH] using lt_wf_ind. intros s Hn.
  unfold py_split.
  destruct (first_break (fun c => negb (is_space c)) s) as [Hall|(t & c & s' & -> & Ht & Hc)].
  - rewrite (runs_all_kept (fun c => negb (is_space c)) s Hall).
    destruct s; simpl; [done|]. by rewrite app_nil_r.
  - assert (Hkc : keep c = false).
    { destruct (keep c) eqn:E; [|done]. apply Hkeep in E. simpl in Hc. by rewrite E in Hc. }
    unfold runs. rewrite !runs_aux_break by done. fold (runs keep t) (runs keep s').
    fold (runs (fun c => negb (is_space c)) t) (runs (fun c => negb (is_space c)) s').
    rewrite (runs_all_kept (fun c => negb (is_space c)) t Ht).
    rewrite (IH (String.length s') ltac:(subst n; rewrite string_length_app; simpl; lia) s' eq_refl).
    fold (py_split s'). rewrite map_app, concat_app. f_equal.
    destruct t; simpl; [done|]. by rewrite app_nil_r.
Qed.

(** Refinement: when every kept character is a non-space, the runs of a
    string are the runs of its whitespace-separated tokens, concatenated.
    In particular [re.findall(r"[\w']+", q)] is the concatenation of
    [re.findall] over [q.split()]. *)
Theorem runs_concat_split (keep : ascii -> bool) :
  (forall c, keep c = true -> is_space c = false) ->
  forall s, runs keep s = List.concat (map (runs keep) (py_split s)).
Proof. apply runs_split_concat. Qed.

Lemma sall_smap p f s : sall p (smap f s) = sall (fun c => p (f c)) s.
Proof. induction s as [|c s IH]; simpl; [done|]. by rewrite IH. Qed.

Lemma sall_sfilter p s : sall p (sfilter p s) = true.
Proof. induction s as [|c s IH]; simpl; [done|]. destruct (p c) eqn:E; simpl; rewrite ?E; auto. Qed.

Lemma sall_impl (p q : ascii -> bool) s :
  (forall c, p c = true -> q c = true) -> sall p s = true -> sall q s = true.
Proof.
  intros Hpq. induction s as [|c s IH]; simpl; [done|].
  intros [Hc Hs]%andb_prop. by rewrite Hpq, IH.
Qed.

Lemma sfilter_id p s : sall p s = true -> sfilter p s = s.
Proof.
  induction s as [|c s IH]; simpl; [done|].
  intros [-> Hs]%andb_prop. by rewrite IH.
Qed.

(** ** [float()] on a string

    The grammar of Python's [float(s)] for a string [s]: surrounding
    whitespace is stripped, then
<<
    floatvalue    ::= [sign] (floatnumber | "inf" | "infinity" | "nan")
    floatnumber   ::= number [exponent]
    number        ::= [digitpart] "." digitpart | digitpart ["."]
    exponent      ::= ("e" | "E") [sign] digitpart
    digitpart     ::= digit (["_"] digit)*
>>
    with "inf", "infinity" and "nan" matched case-insensitively.  A
    finite value is kept exactly as a rational (the rounding to binary64
    and the overflow of exponents beyond the float range to [inf] are
    not modelled). *)

Inductive fval :=
| FFin (q : Q)
| FInf (neg : bool)
| FNaN.

Definition dval (c : ascii) : Z := Z.of_nat (code c - 48).

(** The digits after a first one: a digit, or an underscore followed by
    a digit; returns the value, the number of digits and the rest. *)
Fixpoint digits_go (acc : Z) (n : nat) (l : list ascii) : Z * nat * list ascii :=
  match l with
  | c :: r =>
      if is_digit c then digits_go (10 * acc + dval c)%Z (S n) r
      else if Ascii.eqb c "_"%char then
        match r with
        | d :: r' => if is_digit d then digits_go (10 * acc + dval d)%Z (S n) r' else (acc, n, l)
        | [] => (acc, n, l)
        end
      else (acc, n, l)
  | [] => (acc, n, l)
  end.

Definition digitpart (l : list ascii) : option (Z * nat * list ascii) :=
  match l with
  | c :: r => if is_digit c then Some (digits_go (dval c) 1 r) else None
  | [] => None
  end.

(** [number]: the mantissa as an integer, the number of fraction digits
    and the rest. *)
Definition number (l : list ascii) : option (Z * nat * list ascii) :=
  match digitpart l with
  | Some (m, _, c :: r) =>
      if Ascii.eqb c "."%char then
        match digitpart r with
        | Some (f, k, r') => Some ((m * 10 ^ Z.of_nat k + f)%Z, k, r')
        | None => Some (m, 0%nat, r)
        end
      else Some (m, 0%nat, c :: r)
  | Some (m, _, []) => Some (m, 0%nat, [])
  | None =>
      match l with
      | c :: r =>
          if Ascii.eqb c "."%char then
            match digitpart r with
            | Some (f, k, r') => Some (f, k, r')
            | None => None
            end
          else None
      | [] => None
      end
  end.

Definition sign (l : list ascii) : bool * list ascii :=
  match l with
  | c :: r =>
      if Ascii.eqb c "-"%char then (true, r)
      else if Ascii.eqb c "+"%char then (false, r) else (false, l)
  | [] => (false, [])
  end.

(** The optional exponent, which must end the string. *)
Definition exponent (l : list ascii) : option Z :=
  match l with
  | [] => Some 0%Z
  | c :: r =>
      if Ascii.eqb c "e"%char || Ascii.eqb c "E"%char then
        let '(neg, r') := sign r in
        match digitpart r' with
        | Some (e, _, []) => Some (if neg then (- e)%Z else e)
        | _ => None
        end
      else None
  end.

Definition lstrip (l : list ascii) : list ascii :=
  (fix go l := match l with c :: r => if is_space c then go r else l | [] => [] end) l.

(** [s.strip()] on the characters of [s]. *)
Definition strip (l : list ascii) : list ascii := reverse (lstrip (reverse (lstrip l))).

(** [m * 10 ^ x] as a rational. *)
Definition scale (m : Z) (x : Z) : Q :=
  if (0 <=? x)%Z then inject_Z (m * 10 ^ x) else (m # Z.to_pos (10 ^ (- x)))%Q.

Definition parse_float (s : string) : option fval :=
  let '(neg, l) := sign (strip (list_ascii_of_string s)) in
  let low := map lower_char l in
  if bool_decide (low = list_ascii_of_string "inf") || bool_decide (low = list_ascii_of_string "infinity")
  then Some (FInf neg)
  else if bool_decide (low = list_ascii_of_string "nan") then Some FNaN
  else
    match number l with
    | Some (m, k, r) =>
        match exponent r with
        | Some e => Some (FFin (scale (if neg then (- m)%Z else m) (e - Z.of_nat k)))
        | None => None
        end
    | None => None
    end.

(** ** Python values of the data *)

#[local] Set Warnings "-register-all".

(** An [int], a float literal [m * 10^-e], a [str], or a list. *)
Inductive pyval :=
| PyInt (z : Z)
| PyFloat (m : Z) (e : nat)
| PyStr (s : string)
| PyList (l : list pyval).

(** [float(v)]: TypeError on a list, ValueError on a string that is not
    a float literal. *)
Definition py_float (v : pyval) : pyres fval :=
  match v with
  | PyInt z => Ok (FFin (inject_Z z))
  | PyFloat m e => Ok (FFin (m # Z.to_pos (10 ^ Z.of_nat e)))
  | PyStr s => match parse_float s with Some f => Ok f | None => Exc ValueError end
  | PyList _ => Exc TypeError
  end.

(** [is_number(s)]: [try: float(s); return True except: return False]. *)
Definition is_number (v : pyval) : bool := is_ok (py_float v).

Lemma lower_char_idem c : lower_char (lower_char c) = lower_char c.
Proof. destruct c as [[] [] [] [] [] [] [] []]; reflexivity. Qed.

Lemma py_lower_idem s : py_lower (py_lower s) = py_lower s.
Proof. unfold py_lower. induction s as [|c s IH]; cbn [smap]; [done|]. by rewrite lower_char_idem, IH. Qed.

(** Splitting, joining with single spaces and splitting again gives the
    same words: [" ".join(s.split()).split() == s.split()]. *)
Theorem py_split_join s : py_split (join " "%char (py_split s)) = py_split s.
Proof. unfold py_split. apply runs_join; [reflexivity | apply runs_tokens]. Qed.

(** No character of a [[\w']] run is a space. *)
Lemma word_or_apos_not_space c : is_word_or_apos c = true -> is_space c = false.
Proof. destruct c as [[] [] [] [] [] [] [] []]; vm_compute; congruence. Qed.

(** [re.findall(r"[\w']+", q)] is the concatenation of the findall of the
    whitespace-separated tokens of [q]. *)
Corollary findall_words_split q : findall_words q = List.concat (map findall_words (py_split q)).
Proof. apply runs_split_concat, word_or_apos_not_space. Qed.

(** [float()] of a list raises TypeError, so a list is not a number. *)
Lemma is_number_list l : is_number (PyList l) = false.
Proof. reflexivity. Qed.

(** ** Witness *)

Lemma runs_concat_split_witness :
  (forall c, is_word_or_apos c = true -> is_space c = false) /\
  runs is_word_or_apos "How's it, 2?"%string =
    List.concat (map (runs is_word_or_apos) (py_split "How's it, 2?"%string)).
Proof.
  split; [exact word_or_apos_not_space|].
  exact (runs_concat_split is_word_or_apos word_or_apos_not_space "How's it, 2?"%string).
Defined.
