(* ===== verification/Vocab.v ===== *)
(** * The vocabulary builders

    [createWordDictionary] (script 1, lines 40-52),
    [createQuestionDictionary] and [createAnswerDictionary] (script 2,
    lines 48-80).  Each walks the words of the data and, for a word not
    yet in the dictionary, stores [len(dict)] under a key.  All three are
    [dict_add test ins]: look [test] up, and when it is absent store
    [len(d)] under [ins].  Script 1 tests and stores the same key; script
    2 tests the word and stores its lowercase form. *)

From S2P Require Import Prelude PyStr.
From Stdlib Require Import Ascii String QArith.

Local Open Scope nat_scope.
#[local] Set Warnings "-clear-no-such-hyp".

(** ** The shared step *)

Section DictAdd.
Context `{Countable K}.

(** [if test not in d: d[ins] = len(d)] *)
Definition dict_add (test ins : K) (d : gmap K nat) : gmap K nat :=
  match d !! test with
  | Some _ => d
  | None => <[ins := size d]> d
  end.

(** Every stored index is at most [len(d)]. *)
Definition bounded (d : gmap K nat) : Prop := map_Forall (fun _ v => v <= size d) d.

(** The indices are exactly [0 .. len(d)-1], each under one key. *)
Definition dict_bij (d : gmap K nat) : Prop :=
  (forall i, i < size d <-> exists k, d !! k = Some i) /\
  (forall k1 k2 i, d !! k1 = Some i -> d !! k2 = Some i -> k1 = k2).

Lemma size_insert_le (d : gmap K nat) k v : size d <= size (<[k:=v]> d).
Proof. rewrite map_size_insert. destruct (d !! k); simpl; lia. Qed.

Lemma size_not_index (d : gmap K nat) k :
  (forall i, i < size d <-> exists k, d !! k = Some i) -> d !! k = Some (size d) -> False.
Proof. intros Hrange Hk. apply (Nat.lt_irrefl (size d)), Hrange. eauto. Qed.

Lemma dict_add_same_bij k d : dict_bij d -> dict_bij (dict_add k k d).
Proof.
  unfold dict_add. intros [Hrange Hinj]. destruct (d !! k) eqn:Hk; [by split|].
  unfold dict_bij. rewrite map_size_insert_None by done. split.
  - intros i. split.
    + intros Hi. destruct (decide (i = size d)) as [->|Hne].
      * exists k. by rewrite lookup_insert_eq.
      * destruct (proj1 (Hrange i) ltac:(lia)) as [k' Hk'].
        exists k'. rewrite lookup_insert_ne; [done|congruence].
    + intros [k' Hk']. destruct (decide (k = k')) as [<-|Hne].
      * rewrite lookup_insert_eq in Hk'. injection Hk' as <-. lia.
      * rewrite lookup_insert_ne in Hk' by done.
        assert (i < size d) by (apply Hrange; eauto). lia.
  - intros k1 k2 i H1 H2. rewrite lookup_insert in H1. rewrite lookup_insert in H2.
    case_decide; case_decide; simplify_eq; [done|..].
    all: first [by eapply Hinj | exfalso; by eapply size_not_index].
Qed.

Lemma dict_add_lookup_new test ins d :
  d !! test = None -> dict_add test ins d !! ins = Some (size d).
Proof. unfold dict_add. intros ->. apply lookup_insert_eq. Qed.

Lemma dict_add_lookup_ne test ins d k :
  k <> ins -> dict_add test ins d !! k = d !! k.
Proof. unfold dict_add. intros Hne. destruct (d !! test); [done|]. by apply lookup_insert_ne. Qed.

Lemma dict_bij_empty : dict_bij (∅ : gmap K nat).
Proof.
  split.
  - intros i. rewrite map_size_empty. split; [lia|]. intros [k Hk]. by rewrite lookup_empty in Hk.
  - intros k1 k2 i Hk. by rewrite lookup_empty in Hk.
Qed.

Lemma bounded_empty : bounded (∅ : gmap K nat).
Proof. apply map_Forall_empty. Qed.

Lemma dict_add_dom test ins d k :
  is_Some (dict_add test ins d !! k) <-> (d !! test = None /\ k = ins) \/ is_Some (d !! k).
Proof.
  unfold dict_add. destruct (d !! test) eqn:Ht.
  - split; [auto|]. intros [[? _]|?]; [congruence|done].
  - rewrite lookup_insert. case_decide; subst; split; try tauto.
    + intros _. by eexists.
    + intros [[_ ?]|?]; [congruence|done].
Qed.

(** Adding the words of [ws] with [dict_add w w]: the keys are those of
    [d] and the words. *)
Lemma foldl_add_same_dom (ws : list K) d k :
  is_Some (foldl (fun d w => dict_add w w d) d ws !! k) <-> k ∈ ws \/ is_Some (d !! k).
Proof.
  revert d; induction ws as [|w ws IH]; intros d.
  - rewrite foldl_nil, elem_of_nil. tauto.
  - rewrite foldl_cons, IH, dict_add_dom, elem_of_cons.
    destruct (d !! w) eqn:Hw; split; intros; try tauto;
      destruct (decide (k = w)); subst; rewrite ?Hw; intuition (eauto; congruence).
Qed.

Lemma foldl_invariant {A} (P : gmap K nat -> Prop) (f : gmap K nat -> A -> gmap K nat) l d :
  (forall d x, x ∈ l -> P d -> P (f d x)) -> P d -> P (foldl f d l).
Proof.
  revert d. induction l as [|x l IH]; intros d Hf Hd; [done|].
  rewrite foldl_cons. apply IH; [intros; apply Hf; [by right|done] | apply Hf; [left|done]].
Qed.

Lemma insert_size_bounded k d : bounded d -> bounded (<[k := size d]> d).
Proof.
  unfold bounded. intros Hb. apply map_Forall_insert_2; [apply size_insert_le|].
  eapply map_Forall_impl; [done|]. simpl. intros _ v Hv.
  pose proof (size_insert_le d k (size d)). lia.
Qed.

Lemma dict_add_mono test ins d k : is_Some (d !! k) -> is_Some (dict_add test ins d !! k).
Proof. rewrite dict_add_dom. auto. Qed.

Lemma dict_add_bounded test ins d : bounded d -> bounded (dict_add test ins d).
Proof. unfold dict_add. destruct (d !! test); [done|]. apply insert_size_bounded. Qed.
(** The inverse of a dictionary, from an index to its key (a reading
    aid, not code of the scripts). *)
Definition ix_to_key (d : gmap K nat) : gmap nat K := list_to_map (prod_swap <$> map_to_list d).

Lemma ix_to_key_lookup d i k : dict_bij d -> ix_to_key d !! i = Some k <-> d !! k = Some i.
Proof.
  intros [_ Hinj]. unfold ix_to_key. rewrite <- elem_of_list_to_map.
  - rewrite list_elem_of_fmap. split.
    + intros ([k' i'] & [= -> ->] & Hin). by apply elem_of_map_to_list in Hin.
    + intros Hk. exists (k, i). split; [done|]. by apply elem_of_map_to_list.
  - rewrite <- list_fmap_compose. apply NoDup_fmap_2_strong; [|apply NoDup_map_to_list].
    intros [k1 i1] [k2 i2] H1 H2 Heq. simpl in Heq. subst i2.
    apply elem_of_map_to_list in H1, H2. f_equal. eauto.
Qed.

(** The distinct elements of [ws] in the order of their first
    occurrence, after those of [acc]. *)
Definition first_occurrences (acc ws : list K) : list K :=
  foldl (fun acc w => if decide (w ∈ acc) then acc else (acc ++ [w])%list) acc ws.

(** [d] numbers the distinct elements of [acc] by their positions. *)
Definition numbers (d : gmap K nat) (acc : list K) : Prop :=
  NoDup acc /\ size d = List.length acc /\ forall k i, d !! k = Some i <-> acc !! i = Some k.

Lemma numbers_empty : numbers ∅ [].
Proof.
  split; [constructor|]. split; [by rewrite map_size_empty|].
  intros k i. rewrite lookup_empty, lookup_nil. done.
Qed.

Lemma dict_add_numbers d acc w :
  numbers d acc -> numbers (dict_add w w d) (if decide (w ∈ acc) then acc else (acc ++ [w])%list).
Proof.
  intros (Hnd & Hsz & Hd). unfold dict_add.
  destruct (d !! w) as [i|] eqn:Hw.
  { rewrite decide_True; [done|]. apply Hd in Hw. by eapply list_elem_of_lookup_2. }
  assert (Hnin : w ∉ acc).
  { intros Hin. apply list_elem_of_lookup in Hin as [i Hi]. apply Hd in Hi. congruence. }
  rewrite decide_False by done. split; [|split].
  - apply NoDup_app. split; [done|]. split; [|apply NoDup_singleton].
    intros x Hx ->%list_elem_of_singleton. done.
  - rewrite map_size_insert_None, length_app by done. simpl. lia.
  - intros k i. rewrite lookup_insert. case_decide as Hk.
    + subst k. split.
      * intros [= <-]. rewrite lookup_app_r by lia. by rewrite Hsz, Nat.sub_diag.
      * intros [Hi|[Hle Hi]]%lookup_app_Some.
        -- exfalso. apply Hnin. by eapply list_elem_of_lookup_2.
        -- apply list_lookup_singleton_Some in Hi as [Hi0 _]. f_equal. lia.
    + rewrite Hd. split; [apply lookup_app_l_Some|].
      intros [Hi|[Hle Hi]]%lookup_app_Some; [done|].
      apply list_lookup_singleton_Some in Hi as [_ <-]. congruence.
Qed.

(** Adding the words of [ws] with [dict_add w w] numbers their first
    occurrences after those already numbered. *)
Lemma foldl_add_same_numbers d acc ws :
  numbers d acc -> numbers (foldl (fun d w => dict_add w w d) d ws) (first_occurrences acc ws).
Proof.
  revert d acc. induction ws as [|w ws IH]; intros d acc Hn; [done|].
  rewrite foldl_cons. apply IH. by apply dict_add_numbers.
Qed.

Lemma first_occurrences_app acc ws1 ws2 :
  first_occurrences acc (ws1 ++ ws2)%list = first_occurrences (first_occurrences acc ws1) ws2.
Proof. apply foldl_app. Qed.

End DictAdd.

#[export] Hint Resolve dict_add_bounded dict_add_same_bij dict_bij_empty bounded_empty : pyds.

(** ** Script 1: [createWordDictionary] *)

Module Script1.
(** A training example: the question and the answer. *)
Definition example := (string * Z)%type.

Definition add_word (d : gmap string nat) (word : string) : gmap string nat :=
  dict_add word word d.

Definition createWordDictionary (data : list example) : gmap string nat :=
  foldl (fun d '(question, _) => foldl add_word d (py_split question)) ∅ data.

Lemma add_word_bij d w : dict_bij d -> dict_bij (add_word d w).
Proof. apply dict_add_same_bij. Qed.

(** Proof of [createWordDictionary_bij], used by the lemmas that follow. *)
Lemma word_dictionary_bij data : dict_bij (createWordDictionary data).
Proof.
  unfold createWordDictionary. apply (foldl_invariant dict_bij); [|apply dict_bij_empty].
  intros d [q a] _ Hd. apply (foldl_invariant dict_bij); [|done]. intros; by apply add_word_bij.
Qed.

(** C10: Script 1's vocabulary gives every word a different index, and the
    indices are exactly [0 .. len(word_to_ix) - 1]. *)
Theorem createWordDictionary_bij data : dict_bij (createWordDictionary data).
Proof. apply word_dictionary_bij. Qed.

Lemma createWordDictionary_keys_from (data : list example) (d : gmap string nat) w :
  is_Some (foldl (fun d '(question, _) => foldl add_word d (py_split question)) d data !! w) <->
  (exists q a, (q, a) ∈ data /\ w ∈ py_split q) \/ is_Some (d !! w).
Proof.
  revert d; induction data as [|[q a] data IH]; intros d.
  - rewrite foldl_nil. setoid_rewrite elem_of_nil. naive_solver.
  - rewrite foldl_cons, IH. unfold add_word. rewrite foldl_add_same_dom.
    setoid_rewrite elem_of_cons. naive_solver.
Qed.

(** The words of the vocabulary are exactly the whitespace-separated
    tokens of the questions. *)
Lemma createWordDictionary_keys (data : list example) w :
  is_Some (createWordDictionary data !! w) <->
  exists q a, (q, a) ∈ data /\ w ∈ py_split q.
Proof.
  unfold createWordDictionary. rewrite createWordDictionary_keys_from, lookup_empty.
  split; [intros [?|[? ?]]; [done|discriminate] | auto].
Qed.

(** The whitespace-separated tokens of the questions, in order. *)
Definition tokens (data : list example) : list string := List.concat (map (fun e => py_split e.1) data).

Lemma word_dictionary_numbers data d acc :
  numbers d acc ->
  numbers (foldl (fun d '(question, _) => foldl add_word d (py_split question)) d data)
          (first_occurrences acc (tokens data)).
Proof.
  revert d acc. induction data as [|[q a] data IH]; intros d acc Hn; [done|].
  rewrite foldl_cons. unfold tokens. cbn [map List.concat fst]. rewrite first_occurrences_app.
  apply IH. by apply foldl_add_same_numbers.
Qed.

(** C11: Script 1's vocabulary numbers the distinct tokens of the questions
    in the order of their first occurrence: [word_to_ix[w] = i] exactly
    when [w] is the [i]-th new word met.  The index of a word therefore
    depends on every question before its first occurrence. *)
Theorem createWordDictionary_first_occurrence data w i :
  createWordDictionary data !! w = Some i <-> first_occurrences [] (tokens data) !! i = Some w.
Proof. apply (word_dictionary_numbers data ∅ [] numbers_empty). Qed.

End Script1.

(** ** The vocabulary interface *)

(** What a vocabulary promises to [prepare_question] and to the
    embedding it indexes: every token of the data it was built from is a
    key, and the indices are a bijection onto [0 .. len-1], the rows of
    an [nn.Embedding(len(d), ...)]. *)
Class Vocabulary (E : Type) := {
  vocab_tokens : E -> list string;
  vocab_build : list E -> gmap string nat;
  vocab_keys : forall data e w, e ∈ data -> w ∈ vocab_tokens e -> is_Some (vocab_build data !! w);
  vocab_bij : forall data, dict_bij (vocab_build data)
}.

Lemma script1_vocab_keys data (e : Script1.example) w :
  e ∈ data -> w ∈ py_split e.1 -> is_Some (Script1.createWordDictionary data !! w).
Proof. destruct e as [q a]. intros He Hw. apply Script1.createWordDictionary_keys. eauto. Qed.

(** Script 1's [createWordDictionary] over [str.split()] tokens is a
    vocabulary. *)
#[export] Instance script1_vocabulary : Vocabulary Script1.example := {|
  vocab_tokens e := py_split e.1;
  vocab_build := Script1.createWordDictionary;
  vocab_keys := script1_vocab_keys;
  vocab_bij := Script1.word_dictionary_bij
|}.

(** ** Script 2: [createQuestionDictionary] and [createAnswerDictionary] *)

(** Keys of the answer dictionary: a float value (a reduced rational, or
    an infinity), a NaN (each [float('nan')] is a distinct key, numbered
    by the [len(d)] at which it was stored), or a string. *)
Inductive akey :=
| KNum (n : Z) (d : positive)
| KInf (neg : bool)
| KNaN (id : nat)
| KStr (s : string).

#[export] Instance akey_eq_dec : EqDecision akey.
Proof. solve_decision. Defined.

#[export] Instance akey_countable : Countable akey.
Proof.
  refine (inj_countable'
    (fun k => match k with
              | KNum n d => inl (inl (n, d)) | KInf b => inl (inr b)
              | KNaN i => inr (inl i) | KStr s => inr (inr s) end)
    (fun x => match x with
              | inl (inl (n, d)) => KNum n d | inl (inr b) => KInf b
              | inr (inl i) => KNaN i | inr (inr s) => KStr s end) _).
  by intros [].
Defined.

Module Script2.
(** A problem: the question, the choices and the index of the correct
    choice. *)
Record problem := mk_problem { question : string; choices : list pyval; ans_index : Z }.

(** [if word not in d: d[word.lower()] = len(d)] *)
Definition add_question_word (d : gmap string nat) (word : string) : gmap string nat :=
  dict_add word (py_lower word) d.

Definition createQuestionDictionary (data : list problem) : gmap string nat :=
  foldl (fun d p => foldl add_question_word d (findall_words (question p))) ∅ data.

(** The key of a float value as a dict key. *)
Definition float_key (f : fval) (len : nat) : akey :=
  match f with
  | FFin q => let q' := Qred q in KNum (Qnum q') (Qden q')
  | FInf b => KInf b
  | FNaN => KNaN len
  end.

(** The key a choice is looked up under ([choice in d]): a number by
    its value, a string as itself. *)
Definition choice_key (v : pyval) : option akey :=
  match v with
  | PyInt _ | PyFloat _ _ =>
      match py_float v with Ok f => Some (float_key f 0) | Exc _ => None end
  | PyStr s => Some (KStr s)
  | PyList _ => None
  end.

Definition add_answer_word (d : gmap akey nat) (word : string) : gmap akey nat :=
  dict_add (KStr word) (KStr (py_lower word)) d.

(** One choice:
<<
    if is_number(choice) and choice not in word_to_ix:
        word_to_ix[float(choice)] = len(word_to_ix)
    elif isinstance(choice, str):
        for word in re.findall(r"[\w']+", choice): ...
>> *)
Definition add_choice (d : gmap akey nat) (choice : pyval) : gmap akey nat :=
  let words := match choice with
               | PyStr s => foldl add_answer_word d (findall_words s)
               | _ => d
               end in
  match py_float choice, choice_key choice with
  | Ok f, Some k =>
      if bool_decide (d !! k = None) then <[float_key f (size d) := size d]> d else words
  | _, _ => words
  end.

Definition createAnswerDictionary (data : list problem) : gmap akey nat :=
  foldl (fun d p => foldl add_choice d (choices p)) ∅ data.

(** *** The question vocabulary *)

(** Every key is stored lowercased. *)
Definition lowercase_keys (d : gmap string nat) : Prop :=
  forall k, is_Some (d !! k) -> py_lower k = k.

Lemma add_question_word_dom d w k :
  lowercase_keys d ->
  is_Some (add_question_word d w !! k) <-> k = py_lower w \/ is_Some (d !! k).
Proof.
  intros Hlow. unfold add_question_word. rewrite dict_add_dom.
  destruct (d !! w) eqn:Hw; [|naive_solver].
  assert (py_lower w = w) as Hl by (apply Hlow; by rewrite Hw).
  split; [tauto|]. intros [->|?]; [rewrite Hl, Hw; eauto|auto].
Qed.

Lemma add_question_word_lower d w : lowercase_keys d -> lowercase_keys (add_question_word d w).
Proof.
  intros Hlow k Hk. apply (add_question_word_dom d w k Hlow) in Hk as [->|Hk].
  - apply py_lower_idem.
  - by apply Hlow.
Qed.

Definition question_step (d : gmap string nat) (p : problem) : gmap string nat :=
  foldl add_question_word d (findall_words (question p)).

Lemma question_step_lower d p : lowercase_keys d -> lowercase_keys (question_step d p).
Proof.
  intros Hd. apply (foldl_invariant lowercase_keys); [|done]. intros; by apply add_question_word_lower.
Qed.

Lemma question_step_dom d p k :
  lowercase_keys d ->
  is_Some (question_step d p !! k) <->
  (exists w, w ∈ findall_words (question p) /\ k = py_lower w) \/ is_Some (d !! k).
Proof.
  unfold question_step. generalize (findall_words (question p)) as ws.
  intros ws. revert d; induction ws as [|w ws IH]; intros d Hd.
  - rewrite foldl_nil. setoid_rewrite elem_of_nil. naive_solver.
  - rewrite foldl_cons, IH, add_question_word_dom by (done || by apply add_question_word_lower).
    setoid_rewrite elem_of_cons. naive_solver.
Qed.

Lemma lowercase_keys_empty : lowercase_keys ∅.
Proof. intros k [? Hk]. by rewrite lookup_empty in Hk. Qed.

(** Proof of [createQuestionDictionary_keys], used by the lemmas that follow. *)
Lemma question_dictionary_keys data k :
  is_Some (createQuestionDictionary data !! k) <->
  exists p w, p ∈ data /\ w ∈ findall_words (question p) /\ k = py_lower w.
Proof.
  unfold createQuestionDictionary. change (fun d p => foldl add_question_word d _) with question_step.
  assert (Hgen : forall (d : gmap string nat), lowercase_keys d ->
    is_Some (foldl question_step d data !! k) <->
    (exists p w, p ∈ data /\ w ∈ findall_words (question p) /\ k = py_lower w) \/ is_Some (d !! k)).
  { induction data as [|p data IH]; intros d Hd.
    - rewrite foldl_nil. setoid_rewrite elem_of_nil. naive_solver.
    - rewrite foldl_cons, IH, question_step_dom by (done || by apply question_step_lower).
      setoid_rewrite elem_of_cons. naive_solver. }
  rewrite Hgen by apply lowercase_keys_empty. rewrite lookup_empty. naive_solver.
Qed.

(** C8: The keys of the question vocabulary are exactly the lowercased
    [[\w']+] words of the questions. *)
Theorem createQuestionDictionary_keys data k :
  is_Some (createQuestionDictionary data !! k) <->
  exists p w, p ∈ data /\ w ∈ findall_words (question p) /\ k = py_lower w.
Proof. apply question_dictionary_keys. Qed.

(** Proof of [createQuestionDictionary_bounded], used by the lemmas that follow. *)
Lemma question_dictionary_bounded data : bounded (createQuestionDictionary data).
Proof.
  unfold createQuestionDictionary. apply (foldl_invariant bounded); [|apply bounded_empty].
  intros d p _ Hd. apply (foldl_invariant bounded); [|done]. intros; by apply dict_add_bounded.
Qed.

(** C12: Every index of the question vocabulary is at most its length; an
    index equal to the length is possible (see [Data.v]). *)
Theorem createQuestionDictionary_bounded data : bounded (createQuestionDictionary data).
Proof. apply question_dictionary_bounded. Qed.

Lemma createQuestionDictionary_snoc data p :
  createQuestionDictionary (data ++ [p]) =
  foldl add_question_word (createQuestionDictionary data) (findall_words (question p)).
Proof. unfold createQuestionDictionary. by rewrite foldl_app. Qed.

(** C9: The bound is reached: when the last word [w] of the data is not a
    key but its lowercase form is, [createQuestionDictionary] stores
    [w.lower()] again with index [len(word_to_ix)] without growing the
    dictionary.  The index equals the length of the vocabulary, one past
    the last row of [nn.Embedding(len(word_to_ix), ...)], and the index
    the lowercase word had before is lost. *)
Theorem createQuestionDictionary_index_eq_len data p ws w :
  findall_words (question p) = ws ++ [w] ->
  foldl add_question_word (createQuestionDictionary data) ws !! w = None ->
  is_Some (foldl add_question_word (createQuestionDictionary data) ws !! py_lower w) ->
  createQuestionDictionary (data ++ [p]) !! py_lower w = Some (size (createQuestionDictionary (data ++ [p]))).
Proof.
  intros Hws Hw [i Hl]. rewrite createQuestionDictionary_snoc, Hws, foldl_app, foldl_cons, foldl_nil.
  set (d := foldl add_question_word (createQuestionDictionary data) ws) in *.
  unfold add_question_word, dict_add. rewrite Hw, lookup_insert_eq, map_size_insert_Some by eauto.
  done.
Qed.

(** C26: When every word of the questions is already lowercase, the test and
    the stored key coincide and the question vocabulary is a bijection
    onto [0 .. len-1], like script 1's. *)
Theorem createQuestionDictionary_bij_lower data :
  Forall (fun p => Forall (fun w => py_lower w = w) (findall_words (question p))) data ->
  dict_bij (createQuestionDictionary data).
Proof.
  intros Hlow. unfold createQuestionDictionary.
  apply (foldl_invariant dict_bij); [|apply dict_bij_empty].
  intros d p Hp Hd. apply (foldl_invariant dict_bij); [|done].
  intros d' w Hw Hd'. unfold add_question_word.
  rewrite (proj1 (Forall_forall _ _) (proj1 (Forall_forall _ _) Hlow p Hp) w Hw).
  by apply dict_add_same_bij.
Qed.

(** *** The answer vocabulary *)

Lemma add_choice_bounded d c : bounded d -> bounded (add_choice d c).
Proof.
  intros Hd. unfold add_choice.
  assert (Hw : bounded (match c with
                        | PyStr s => foldl add_answer_word d (findall_words s)
                        | _ => d end)).
  { destruct c; try done. apply (foldl_invariant bounded); [|done]. intros; by apply dict_add_bounded. }
  destruct (py_float c), (choice_key c); try done.
  case_bool_decide; [by apply insert_size_bounded|done].
Qed.

(** The answer vocabulary is bounded the same way: a number choice
    (line 74) and a word of a string choice (line 79) are stored with
    index [len(d)] only when their key is new, so every index is at
    most [len(d)]. *)
Theorem createAnswerDictionary_bounded data : bounded (createAnswerDictionary data).
Proof.
  unfold createAnswerDictionary. apply (foldl_invariant bounded); [|apply bounded_empty].
  intros d p _ Hd. apply (foldl_invariant bounded); [|done]. intros; by apply add_choice_bounded.
Qed.
(** ** Witness *)

(** Two questions written in lowercase. *)
Definition lower_data : list problem :=
  [mk_problem "add three and five" [] 0; mk_problem "five and five" [] 0].

Lemma createQuestionDictionary_bij_lower_witness :
  Forall (fun p => Forall (fun w => py_lower w = w) (findall_words (question p))) lower_data /\
  dict_bij (createQuestionDictionary lower_data).
Proof.
  assert (Hlow : Forall (fun p => Forall (fun w => py_lower w = w) (findall_words (question p))) lower_data)
    by vm_decide.
  split; [exact Hlow | exact (createQuestionDictionary_bij_lower lower_data Hlow)].
Defined.
(** ** Witness *)

(** The question "add", then the question "Add". *)
Definition w_add_data : list problem := [mk_problem "add" [] 0].
Definition w_Add : problem := mk_problem "Add" [] 0.

Lemma createQuestionDictionary_index_eq_len_witness :
  findall_words (question w_Add) = [] ++ ["Add"%string] /\
  foldl add_question_word (createQuestionDictionary w_add_data) [] !! "Add"%string = None /\
  is_Some (foldl add_question_word (createQuestionDictionary w_add_data) [] !! py_lower "Add") /\
  createQuestionDictionary (w_add_data ++ [w_Add]) !! py_lower "Add" =
    Some (size (createQuestionDictionary (w_add_data ++ [w_Add]))).
Proof.
  assert (H1 : findall_words (question w_Add) = [] ++ ["Add"%string]) by (vm_compute; reflexivity).
  assert (H2 : foldl add_question_word (createQuestionDictionary w_add_data) [] !! "Add"%string = None)
    by (vm_compute; reflexivity).
  assert (H3 : is_Some (foldl add_question_word (createQuestionDictionary w_add_data) [] !! py_lower "Add"))
    by (vm_compute; eexists; reflexivity).
  do 3 (split; [assumption|]). exact (createQuestionDictionary_index_eq_len _ _ _ _ H1 H2 H3).
Defined.
End Script2.
