(* ===== verification/Data.v ===== *)
(** * The hard-coded data of the two scripts

    [Script1Data]: [trainingData], [testData] and [tag_to_ix] of
    [src/algebraicReasoning_oneHot.py] (lines 17-25, 63), and the
    vocabularies built from them (lines 66, 178).  [Script2Data]:
    [trainingData] and [testData] of [src/mathQA_multiRNN.py] (lines
    21-30), [NUM_ANSWERS] (line 32) and the four vocabularies (lines
    81-87).  The vocabularies are evaluated by [vm_compute]. *)

From S2P Require Import Prelude PyStr Vocab.
From Stdlib Require Import String.

Local Open Scope string_scope.

Module Script1Data.
Import Script1.

(** Python concatenates the two adjacent literals of the sixth
    question: "...6 dollars." "How much..." has no space between. *)
Definition trainingData : list example :=
  [("Add 3 and 5", 8%Z); ("Multiply 9 and 2", 18%Z); ("Divide 9 by 3", 3%Z);
   ("John had 3 mangoes then Mary gave him 4 more. How much does he have now?", 7%Z);
   ("Sum 50 and 5", 55%Z);
   ("Adam went to the store with 10 dollars then bought an apple for 6 dollars.How much does he know have?", 4%Z);
   ("Subtract 16 from 30", 14%Z); ("Multiply 2 and 30", 60%Z);
   ("Add 25 and 39", 64%Z); ("5 + 4 + 25", 34%Z)].

Definition testData : list example :=
  [("If Alex had 50 dollars in his account before he deposited 30 dollars. How much does he now have?", 80%Z);
   ("Add 9 and 3", 12%Z); ("Subtract 20 from 64", 34%Z); ("Divide 360 by 4", 90%Z);
   ("Multiply 12 and 3", 36%Z); ("What is 2 by 2 by 2?", 8%Z)].

(** [tag_to_ix = {i: i for i in range(101)}]; only its length is used. *)
Definition tagset_size : nat := 101.

Definition word_to_ix : gmap string nat := createWordDictionary trainingData.
Definition testDataDict : gmap string nat := createWordDictionary testData.
End Script1Data.

Module Script2Data.
Import Script2.

Definition trainingData : list problem :=
  [mk_problem "Add 3 and 5" [PyInt 8; PyFloat 23 1; PyInt 9; PyInt 14] 0;
   mk_problem "Multiply 9 and 2" [PyInt 2; PyInt 9; PyInt 18; PyInt 1] 2;
   mk_problem "Divide 9 by 3" [PyInt 9; PyInt 3; PyFloat 203 1; PyInt 6] 1;
   mk_problem "John had 3 mangoes then Mary gave him 4 more. How much does he have now?"
     [PyStr "John now has 3 mangoes"; PyStr "John now has 7 mangoes";
      PyStr "John now has 3 mangoes"; PyStr "John now has 94 mangoes"] 1;
   mk_problem "Sum 50 and 5" [PyInt 0; PyInt 10; PyInt 505; PyInt 55] 3;
   mk_problem "Adam went to the store with 10 dollars then bought an apple for 6 dollars. How much does he know have?"
     [PyStr "He is left with 4 dollars"; PyStr "He is left with 100 dollars";
      PyStr "He is left with 6 dollars"; PyStr "He is left with 12 dollars"] 0;
   mk_problem "Subtract 16 from 30" [PyInt (-14); PyInt 14; PyInt 46; PyInt 480] 1;
   mk_problem "Multiply 2 and 30" [PyInt 32; PyInt 28; PyInt 30; PyInt 60] 3;
   mk_problem "Add 25 and 39" [PyInt 64; PyInt (-14); PyInt 6; PyInt 45] 0].

Definition testData : list problem :=
  [mk_problem "If Alex had 50 dollars in his account before he deposited 30 dollars. How much does he now have?"
     [PyStr "He now has a total of 80 dollars"; PyStr "His account has 30 dollars";
      PyStr "His account balance is currently 5 dollars"; PyStr "530 dollars"] 0;
   mk_problem "Add 9 and 3" [PyInt 12; PyInt 60; PyInt 27; PyFloat (-99) 1] 0;
   mk_problem "Subtract 20 from 64" [PyFloat 1966 2; PyInt 34; PyStr "The result is 15"; PyFloat 955 2] 1;
   mk_problem "Divide 360 by 4" [PyStr "It is 90"; PyFloat 59 1; PyInt 16; PyInt 364] 0;
   mk_problem "Multiply 12 and 3" [PyFloat 123 1; PyFloat 312 2; PyFloat 23 1; PyInt 36] 3;
   mk_problem "What is 2 by 2 by 2?"
     [PyStr "The result is 6"; PyStr "The result is 4"; PyStr "The result is 8";
      PyStr "The result is 222"] 2].

(** [NUM_ANSWERS = len(trainingData[0][1])] *)
Definition NUM_ANSWERS : nat := List.length (choices (List.hd (mk_problem "" [] 0) trainingData)).

Definition train_question_word_to_ix : gmap string nat := createQuestionDictionary trainingData.
Definition test_question_word_to_ix : gmap string nat := createQuestionDictionary testData.
Definition train_answer_word_to_ix : gmap akey nat := createAnswerDictionary trainingData.
Definition test_answer_word_to_ix : gmap akey nat := createAnswerDictionary testData.
End Script2Data.

(** ** Facts of the data *)

Module Script1Facts.
Import Script1 Script1Data.

(** Every target answer of both data sets is a class of the 101-way
    output ([NLLLoss] needs [0 <= target < len(tag_to_ix)]). *)
Example targets_in_tagset :
  Forall (fun e : example => (0 <= e.2 < Z.of_nat tagset_size)%Z) (trainingData ++ testData).
Proof. vm_decide. Qed.

(** The test questions are encoded with [testDataDict], built from the
    test data alone: its indices stay within the training embedding
    ([len(word_to_ix)] rows), but the same word has another index, so
    the trained model reads different words ("Add" is 0 in training and
    18 in test). *)
Example test_vocabulary_shifted :
  map_Forall (fun _ v => v < size word_to_ix) testDataDict /\
  word_to_ix !! "Add" = Some 0 /\ testDataDict !! "Add" = Some 18.
Proof. split; [vm_decide | vm_compute; auto]. Qed.
End Script1Facts.

Module Script2Facts.
Import Script2 Script2Data.

(** The training question vocabulary gives "add", "multiply" and "25"
    one index, 44, and "how" and "know" one index, 39: "Add 3 and 5" and
    "Multiply 3 and 5" reach the question RNN as the same sequence. *)
Example train_question_collisions :
  train_question_word_to_ix !! "add" = Some 44 /\
  train_question_word_to_ix !! "multiply" = Some 44 /\
  train_question_word_to_ix !! "25" = Some 44 /\
  train_question_word_to_ix !! "how" = Some 39 /\
  train_question_word_to_ix !! "know" = Some 39.
Proof. vm_compute. auto 10. Qed.

(** The answer vocabulary collides too: "john" with "94", "he" with
    "12". *)
Example train_answer_collisions :
  train_answer_word_to_ix !! KStr "john" = Some 16 /\
  train_answer_word_to_ix !! KStr "94" = Some 16 /\
  train_answer_word_to_ix !! KStr "he" = Some 29 /\
  train_answer_word_to_ix !! KStr "12" = Some 29.
Proof. vm_compute. auto 10. Qed.

(** The test vocabularies fit in the training embeddings, but index
    other words ("add" is 44 in training, 17 in test). *)
Example test_vocabularies_shifted :
  map_Forall (fun _ v => v < size train_question_word_to_ix) test_question_word_to_ix /\
  map_Forall (fun _ v => v < size train_answer_word_to_ix) test_answer_word_to_ix /\
  test_question_word_to_ix !! "add" = Some 17.
Proof. split; [vm_decide | split; [vm_decide | vm_compute; done]]. Qed.

Example NUM_ANSWERS_value : NUM_ANSWERS = 4.
Proof. reflexivity. Qed.
End Script2Facts.
