(* ===== verification/Predict.v ===== *)
(** * [is_accurate]: from per-choice scores to a predicted choice

    [is_accurate(predicted_tags, ans_index)] of [src/mathQA_multiRNN.py]
    (lines 228-251).  Row [i] of [predicted_tags] is the log-softmax
    pair [(s0, s1)] of answer model [i]: [s1] scores "choice [i] is the
    correct answer".  A row is a candidate when [s1 > s0]; the predicted
    choice is the first candidate with the largest [s1].  The scores are
    rationals (float32 rounding is not modelled; a NaN can never enter
    [max_ones], since both comparisons with it are false). *)

From S2P Require Import Prelude.
From Stdlib Require Import QArith Qminmax.

Local Open Scope nat_scope.
#[local] Set Warnings "-clear-no-such-hyp".

(** A row of [predicted_tags]: the scores of tags 0 and 1. *)
Definition row := (Q * Q)%type.

(** The floor [-100] of [max_ones]. *)
Definition floor : Q := (-100)%Q.

(** One iteration of
<<
    max_ones = [-100]*len(predicted_tags)
    for i, tag_scores in enumerate(predicted_tags):
        if tag_scores[1] > tag_scores[0]:
            max_ones[i] = tag_scores[1]
>> *)
Definition max_ones_step (acc : list Q) (ir : nat * row) : list Q :=
  let '(i, r) := ir in
  if Qlt_le_dec r.1 r.2 then <[i := r.2]> acc else acc.

Definition max_ones (rows : list row) : list Q :=
  foldl max_ones_step (replicate (length rows) floor) (zip (seq 0 (length rows)) rows).

(** [max(l)]: ValueError on an empty list; otherwise the first element
    and then any later element strictly greater replaces it. *)
Definition py_max (l : list Q) : pyres Q :=
  match l with
  | [] => Exc ValueError
  | x :: r => Ok (foldl (fun best y => if Qlt_le_dec best y then y else best) x r)
  end.

(** [l.index(v)]: the first position holding a value equal to [v]. *)
Fixpoint py_list_index (l : list Q) (v : Q) : pyres nat :=
  match l with
  | [] => Exc ValueError
  | x :: r => if Qeq_dec x v then Ok 0 else (n <- py_list_index r v ;; Ok (S n))
  end.

(** [is_accurate] returns [(max_one == ans_index, max_one)]. *)
Definition is_accurate (predicted_tags : list row) (ans_index : Z) : pyres (bool * nat) :=
  let m := max_ones predicted_tags in
  mx <- py_max m ;;
  max_one <- py_list_index m mx ;;
  Ok (Z.eqb (Z.of_nat max_one) ans_index, max_one).

(** ** Specification *)

(** The score a row contributes: [s1] if the row is a candidate, the
    floor otherwise. *)
Definition cand_score (r : row) : Q := if Qlt_le_dec r.1 r.2 then r.2 else floor.

(** [i] is the first position of a maximum of [l]. *)
Definition first_argmax (l : list Q) (i : nat) : Prop :=
  exists x, l !! i = Some x /\
    (forall j y, l !! j = Some y -> (y <= x)%Q) /\
    (forall j y, j < i -> l !! j = Some y -> (y < x)%Q).

(** ** Lemmas *)

Lemma max_ones_step_length acc ir : length (max_ones_step acc ir) = length acc.
Proof. destruct ir as [i r]. unfold max_ones_step. destruct (Qlt_le_dec _ _); [apply length_insert|done]. Qed.

Lemma cand_score_cand r : (r.1 < r.2)%Q -> cand_score r = r.2.
Proof. unfold cand_score. destruct (Qlt_le_dec _ _) as [|H]; [done|]. intros. exfalso. by apply (Qlt_not_le r.1 r.2). Qed.

Lemma cand_score_not r : (r.2 <= r.1)%Q -> cand_score r = floor.
Proof. unfold cand_score. destruct (Qlt_le_dec _ _) as [H|]; [|done]. intros. exfalso. by apply (Qlt_not_le r.1 r.2). Qed.

(** The loop after the rows [pre] have been visited. *)
Lemma max_ones_go pre rs :
  foldl max_ones_step (map cand_score pre ++ replicate (length rs) floor)
        (zip (seq (length pre) (length rs)) rs) = map cand_score (pre ++ rs).
Proof.
  revert pre. induction rs as [|r rs IH]; intros pre.
  - by rewrite !app_nil_r.
  - replace (pre ++ r :: rs) with ((pre ++ [r]) ++ rs) by (by rewrite <- app_assoc).
    rewrite <- (IH (pre ++ [r])), length_app. cbn [length seq zip replicate].
    rewrite foldl_cons, Nat.add_1_r. f_equal.
    rewrite map_app, <- app_assoc. cbn [map app]. unfold max_ones_step.
    destruct (Qlt_le_dec r.1 r.2) as [Hc|Hc].
    + rewrite cand_score_cand by done.
      rewrite insert_app_r_alt by (rewrite length_map; lia).
      by rewrite length_map, Nat.sub_diag.
    + by rewrite cand_score_not.
Qed.

(** Proof of [max_ones_map], used by the lemmas that follow. *)
Lemma max_ones_loop rows : max_ones rows = map cand_score rows.
Proof. unfold max_ones. apply (max_ones_go []). Qed.

Lemma foldl_max_spec (x : Q) r :
  let m := foldl (fun best y => if Qlt_le_dec best y then y else best) x r in
  (m = x \/ m ∈ r) /\ (x <= m)%Q /\ (forall y, y ∈ r -> (y <= m)%Q).
Proof.
  revert x. induction r as [|y r IH]; intros x; simpl.
  - split; [auto|]. split; [apply Qle_refl|]. intros y Hy%elem_of_nil. done.
  - destruct (Qlt_le_dec x y) as [Hxy|Hxy].
    + destruct (IH y) as (Hin & Hle & Hall). split; [set_solver|split].
      * apply Qlt_le_weak in Hxy. eapply Qle_trans; eauto.
      * intros z [->|Hz]%elem_of_cons; auto.
    + destruct (IH x) as (Hin & Hle & Hall). split; [set_solver|split]; [done|].
      intros z [->|Hz]%elem_of_cons; auto. eapply Qle_trans; eauto.
Qed.

(** C28: The loop computes the candidate scores, row by row. *)
Theorem max_ones_map rows : max_ones rows = map cand_score rows.
Proof. apply max_ones_loop. Qed.

(** [max(l)] is an element of [l] and bounds every element. *)
Lemma py_max_spec l m :
  py_max l = Ok m -> m ∈ l /\ forall y, y ∈ l -> (y <= m)%Q.
Proof.
  destruct l as [|x r]; simpl; [discriminate|]. intros [= <-].
  destruct (foldl_max_spec x r) as (Hin & Hle & Hall).
  split; [destruct Hin as [->|]; set_solver|].
  intros y [->|Hy]%elem_of_cons; auto.
Qed.

Lemma py_max_nonempty l : l <> [] -> exists m, py_max l = Ok m.
Proof. destruct l; [done|]. simpl. eauto. Qed.

(** [l.index(v)] is the first position of a value equal to [v]. *)
Lemma py_list_index_spec l v i :
  py_list_index l v = Ok i ->
  exists x, l !! i = Some x /\ (x == v)%Q /\ forall j y, j < i -> l !! j = Some y -> ~ (y == v)%Q.
Proof.
  revert i. induction l as [|x l IH]; intros i; simpl; [discriminate|].
  destruct (Qeq_dec x v) as [Hx|Hx].
  - intros [= <-]. exists x. split; [done|]. split; [done|]. intros j y Hj. lia.
  - destruct (py_list_index l v) as [n|] eqn:Hn; simpl; [|discriminate].
    intros [= <-]. destruct (IH n eq_refl) as (y & Hy & Hyv & Hfirst).
    exists y. split; [done|]. split; [done|].
    intros [|j] z Hj Hz; simpl in Hz; [congruence|]. apply (Hfirst j); [lia|done].
Qed.

Lemma py_list_index_found l v : v ∈ l -> exists i, py_list_index l v = Ok i.
Proof.
  induction l as [|x l IH]; simpl; [intros ?%elem_of_nil; done|].
  intros Hv. destruct (Qeq_dec x v); [eauto|].
  apply elem_of_cons in Hv as [->|Hv]; [exfalso; apply n; apply Qeq_refl|].
  destruct (IH Hv) as [i ->]. simpl. eauto.
Qed.

(** A first position of a maximum is unique. *)
Lemma first_argmax_unique l i j : first_argmax l i -> first_argmax l j -> i = j.
Proof.
  intros (x & Hx & Hmx & Hfx) (y & Hy & Hmy & Hfy).
  destruct (Nat.lt_trichotomy i j) as [Hij|[Hij|Hij]]; [|done|]; exfalso.
  - specialize (Hfy i x Hij Hx). specialize (Hmx j y Hy). by apply (Qlt_not_le x y).
  - specialize (Hfx j y Hij Hy). specialize (Hmy i x Hx). by apply (Qlt_not_le y x).
Qed.

(** ** Theorems *)

(** Proof of [is_accurate_spec], used by the lemmas that follow. *)
Lemma is_accurate_argmax rows ans_index :
  rows <> [] ->
  exists i, is_accurate rows ans_index = Ok (Z.eqb (Z.of_nat i) ans_index, i) /\
            first_argmax (map cand_score rows) i.
Proof.
  intros Hne. unfold is_accurate. rewrite max_ones_loop.
  destruct (py_max_nonempty (map cand_score rows)) as [m Hm];
    [by intros ?%map_eq_nil|].
  destruct (py_max_spec _ _ Hm) as [Hin Hall].
  destruct (py_list_index_found _ _ Hin) as [i Hi].
  rewrite Hm, py_bind_Ok, Hi, py_bind_Ok. exists i. split; [done|].
  destruct (py_list_index_spec _ _ _ Hi) as (x & Hx & Hxm & Hfirst).
  exists x. split; [done|]. split.
  - intros j y Hy. apply Qle_trans with m; [apply Hall; by eapply list_elem_of_lookup_2|].
    apply Qle_lteq. right. by apply Qeq_sym.
  - intros j y Hj Hy. apply Qlt_le_trans with m; [|apply Qle_lteq; right; by apply Qeq_sym].
    destruct (proj1 (Qle_lteq y m) (Hall y ltac:(by eapply list_elem_of_lookup_2))) as [|Heq];
      [done|]. exfalso. by apply (Hfirst j y).
Qed.

(** C1: [is_accurate] refines its specification: on a non-empty matrix it
    returns the first row whose candidate score is maximal, and whether
    that row is [ans_index]. *)
Theorem is_accurate_spec rows ans_index :
  rows <> [] ->
  exists i, is_accurate rows ans_index = Ok (Z.eqb (Z.of_nat i) ans_index, i) /\
            first_argmax (map cand_score rows) i.
Proof. apply is_accurate_argmax. Qed.

Lemma first_argmax_all_floor rows :
  rows <> [] -> Forall (fun r : row => (r.2 <= r.1)%Q) rows ->
  first_argmax (map cand_score rows) 0.
Proof.
  intros Hne Hall. destruct rows as [|r rs]; [done|].
  exists floor. inversion Hall as [|? ? Hr Hrs]; subst. simpl.
  rewrite cand_score_not by done. split; [done|]. split; [|intros; lia].
  intros [|j] y Hy; simpl in Hy; [injection Hy as <-; apply Qle_refl|].
  apply list_lookup_fmap_Some in Hy as (r' & Hy & Hr'). subst y.
  rewrite cand_score_not; [apply Qle_refl|].
  rewrite Forall_lookup in Hrs. by apply (Hrs j).
Qed.

(** Proof of [is_accurate_none_confident], used by the lemmas that follow. *)
Lemma is_accurate_floor rows ans_index :
  rows <> [] -> Forall (fun r : row => (r.2 <= r.1)%Q) rows ->
  is_accurate rows ans_index = Ok (Z.eqb 0 ans_index, 0).
Proof.
  intros Hne Hall. destruct (is_accurate_argmax rows ans_index Hne) as (i & Hi & Harg).
  rewrite (first_argmax_unique _ _ _ Harg (first_argmax_all_floor rows Hne Hall)) in Hi.
  exact Hi.
Qed.

(** C2: When no answer model prefers tag 1 ([s1 <= s0] in every row), the
    prediction falls back to choice 0, and it counts as correct exactly
    when the correct choice is 0: the script prints [answers[0]] as the
    predicted answer instead of "Model doesn't think any of the answers
    is correct". *)
Theorem is_accurate_none_confident rows ans_index :
  rows <> [] -> Forall (fun r : row => (r.2 <= r.1)%Q) rows ->
  is_accurate rows ans_index = Ok (Z.eqb 0 ans_index, 0).
Proof. apply is_accurate_floor. Qed.

(** C27: When some row prefers tag 1 with a score above the floor [-100], the
    predicted row prefers tag 1 too, and its [s1] is the largest among
    the rows that prefer tag 1. *)
Theorem is_accurate_confident rows ans_index b i k rk :
  rows !! k = Some rk -> (rk.1 < rk.2)%Q -> (floor < rk.2)%Q ->
  is_accurate rows ans_index = Ok (b, i) ->
  exists ri, rows !! i = Some ri /\ (ri.1 < ri.2)%Q /\
    forall j rj, rows !! j = Some rj -> (rj.1 < rj.2)%Q -> (rj.2 <= ri.2)%Q.
Proof.
  intros Hk Hck Hfk Hacc.
  assert (Hne : rows <> []) by (intros ->; done).
  destruct (is_accurate_argmax rows ans_index Hne) as (i' & Hi' & x & Hx & Hmax & _).
  rewrite Hacc in Hi'. injection Hi' as _ <-.
  apply list_lookup_fmap_Some in Hx as (ri & -> & Hri).
  assert (Hk' : map cand_score rows !! k = Some (cand_score rk))
    by (apply list_lookup_fmap_Some; eauto).
  pose proof (Hmax k _ Hk') as Hmk. rewrite cand_score_cand in Hmk by done.
  exists ri. split; [done|].
  destruct (Qlt_le_dec ri.1 ri.2) as [Hci|Hci].
  - split; [done|]. intros j rj Hj Hcj. rewrite <- (cand_score_cand ri) by done.
    rewrite <- (cand_score_cand rj) by done.
    apply (Hmax j). apply list_lookup_fmap_Some; eauto.
  - exfalso. rewrite cand_score_not in Hmk by done.
    apply (Qlt_not_le floor rk.2); done.
Qed.

(** The predicted index names a row, and the flag is its comparison
    with [ans_index]. *)
Lemma is_accurate_result rows ans_index b i :
  is_accurate rows ans_index = Ok (b, i) ->
  i < length rows /\ b = Z.eqb (Z.of_nat i) ans_index.
Proof.
  intros Hacc. destruct rows as [|r rs]; [discriminate|].
  destruct (is_accurate_argmax (r :: rs) ans_index ltac:(done)) as (i' & Hi' & x & Hx & _).
  rewrite Hacc in Hi'. injection Hi' as -> <-. split; [|done].
  apply lookup_lt_Some in Hx. by rewrite length_map in Hx.
Qed.

Lemma is_accurate_empty ans_index : is_accurate [] ans_index = Exc ValueError.
Proof. reflexivity. Qed.

(** ** Witnesses *)

(** Three rows: row 0 prefers tag 0, rows 1 and 2 prefer tag 1 with
    [s1 = -0.1] and [s1 = -0.2]. *)
Definition rows_ex : list row :=
  [((-1#2)%Q, (-2#1)%Q); ((-3#1)%Q, (-1#10)%Q); ((-2#1)%Q, (-1#5)%Q)].

(** Two rows that both prefer tag 0. *)
Definition rows_none : list row := [((-1#2)%Q, (-2#1)%Q); ((-1#3)%Q, (-3#2)%Q)].

Lemma is_accurate_spec_witness :
  rows_ex <> [] /\
  exists i, is_accurate rows_ex 1 = Ok (Z.eqb (Z.of_nat i) 1, i) /\ first_argmax (map cand_score rows_ex) i.
Proof. split; [discriminate | apply is_accurate_spec; discriminate]. Defined.

Lemma is_accurate_none_confident_witness :
  rows_none <> [] /\ Forall (fun r : row => (r.2 <= r.1)%Q) rows_none /\
  is_accurate rows_none 2 = Ok (Z.eqb 0 2, 0).
Proof.
  assert (Hne : rows_none <> []) by discriminate.
  assert (Hall : Forall (fun r : row => (r.2 <= r.1)%Q) rows_none)
    by (repeat constructor; vm_compute; discriminate).
  split; [exact Hne|]. split; [exact Hall|]. apply is_accurate_none_confident; assumption.
Defined.

Lemma is_accurate_confident_witness :
  rows_ex !! 2 = Some ((-2#1)%Q, (-1#5)%Q) /\ ((-2#1) < (-1#5))%Q /\ (floor < (-1#5))%Q /\
  is_accurate rows_ex 1 = Ok (true, 1) /\
  exists ri, rows_ex !! 1 = Some ri /\ (ri.1 < ri.2)%Q /\
    forall j rj, rows_ex !! j = Some rj -> (rj.1 < rj.2)%Q -> (rj.2 <= ri.2)%Q.
Proof.
  assert (Hk : rows_ex !! 2 = Some ((-2#1)%Q, (-1#5)%Q)) by reflexivity.
  assert (Hc : ((-2#1) < (-1#5))%Q) by reflexivity.
  assert (Hf : (floor < (-1#5))%Q) by reflexivity.
  assert (Hacc : is_accurate rows_ex 1 = Ok (true, 1)) by (vm_compute; reflexivity).
  do 4 (split; [assumption|]). exact (is_accurate_confident rows_ex 1 true 1 2 _ Hk Hc Hf Hacc).
Defined.

