(* ===== verification/Layers.v ===== *)
(** * The PyTorch layers whose semantics the scripts fix

    Script 1 builds its embedding as the identity matrix
    ([self.word_embeddings.weight.data = torch.eye(vocab_size)], lines
    92-93 of [src/algebraicReasoning_oneHot.py]), scores the last LSTM
    output with [nn.Linear(hidden_dim, tagset_size)] (line 100) followed
    by [F.log_softmax] (line 121) and reads the answer with
    [torch.max(tag_scores, 1)] (lines 171 and 182).  These are exact
    except for the log-sum-exp of [log_softmax], which is irrational in
    general: it is the one operation of the class [LogSumExp], whose law
    is the property of log-sum-exp the development needs (it bounds
    every entry from above). *)

From S2P Require Import Prelude Predict.
From Stdlib Require Import QArith Lqa.

Local Open Scope nat_scope.

(** Row [i] of [torch.eye(n)]. *)
Definition one_hot (n i : nat) : list Q := map (fun j => if Nat.eqb j i then 1%Q else 0%Q) (seq 0 n).

(** [nn.Embedding(n, n)] with the identity as weights: row [i], and
    IndexError when [i] is not below [n]. *)
Definition eye_embedding (n i : nat) : pyres (list Q) :=
  if decide (i < n) then Ok (one_hot n i) else Exc IndexError.

Definition dot (u v : list Q) : Q := foldr Qplus 0%Q (zip_with Qmult u v).

(** [nn.Linear]: [y = W x + b], one output per row of [W]. *)
Definition nn_linear (W : list (list Q)) (b : list Q) (x : list Q) : list Q :=
  zip_with (fun w bi => (dot w x + bi)%Q) W b.

(** [log(sum(exp(x)))], bounded below by every entry. *)
Class LogSumExp := {
  lse : list Q -> Q;
  lse_ge : forall l x, x ∈ l -> (x <= lse l)%Q
}.

(** [F.log_softmax(x)]: [x_i - log(sum_j exp(x_j))]. *)
Definition log_softmax `{LogSumExp} (x : list Q) : list Q := map (fun v => v - lse x)%Q x.

(** [value, index = torch.max(scores, 1)]: the position of the first
    maximal score. *)
Definition argmax (scores : list Q) : pyres nat :=
  mx <- py_max scores ;; py_list_index scores mx.

(** [F.relu]: every negative entry becomes 0. *)
Definition relu (v : list Q) : list Q := map (fun x => if Qlt_le_dec 0 x then x else 0%Q) v.

(** [torch.zeros(n)] (a row of a [torch.zeros(MAX_LENGTH, n)] matrix, or
    the [(1, 1, n)] tensor of [initHidden]). *)
Definition zeros (n : nat) : list Q := replicate n 0%Q.

(** [nn.Linear(hidden_size, 2)]: two rows of weights and two biases. *)
Definition linear2 (W : list Q * list Q) (b : row) (x : list Q) : row :=
  (dot W.1 x + b.1, dot W.2 x + b.2)%Q.

(** [nn.LogSoftmax()] on a row of two scores. *)
Definition log_softmax2 `{LogSumExp} (z : row) : row :=
  (z.1 - lse [z.1; z.2], z.2 - lse [z.1; z.2])%Q.

(** ** Lemmas *)

Lemma length_one_hot n i : length (one_hot n i) = n.
Proof. unfold one_hot. by rewrite length_map, length_seq. Qed.

Lemma length_linear W b x : length (nn_linear W b x) = Nat.min (length W) (length b).
Proof. apply length_zip_with. Qed.

Lemma length_log_softmax `{LogSumExp} x : length (log_softmax x) = length x.
Proof. apply length_map. Qed.

(** Subtracting the same constant keeps every comparison. *)
Lemma py_max_shift (c : Q) l :
  py_max (map (fun v => v - c)%Q l) = (m <- py_max l ;; Ok (m - c)%Q).
Proof.
  destruct l as [|x r]; [done|]. cbn [map py_max py_bind]. f_equal.
  revert x. induction r as [|y r IH]; intros x; [done|]. cbn [map foldl].
  rewrite <- IH. f_equal.
  destruct (Qlt_le_dec (x - c) (y - c)), (Qlt_le_dec x y); first [done | exfalso; lra].
Qed.

Lemma py_list_index_shift (c : Q) l v :
  py_list_index (map (fun x => x - c)%Q l) (v - c)%Q = py_list_index l v.
Proof.
  induction l as [|x l IH]; [done|]. cbn [map py_list_index]. rewrite IH.
  destruct (Qeq_dec (x - c) (v - c)), (Qeq_dec x v); first [done | exfalso; lra].
Qed.

Lemma argmax_shift (c : Q) l : argmax (map (fun v => v - c)%Q l) = argmax l.
Proof.
  unfold argmax. rewrite py_max_shift.
  destruct (py_max l) as [m|]; [|done]. simpl. apply py_list_index_shift.
Qed.

(** [torch.max] answers the same on the log-softmax scores as on the
    raw [tag_space]: [log_softmax] is a shift by one constant. *)
Theorem argmax_log_softmax `{LogSumExp} x : argmax (log_softmax x) = argmax x.
Proof. apply argmax_shift. Qed.

Lemma linear2_nn_linear W b x :
  nn_linear [W.1; W.2] [b.1; b.2] x = [(linear2 W b x).1; (linear2 W b x).2].
Proof. reflexivity. Qed.

Lemma log_softmax2_log_softmax `{LogSumExp} z :
  log_softmax [z.1; z.2] = [(log_softmax2 z).1; (log_softmax2 z).2].
Proof. reflexivity. Qed.

(** A row of [LogSoftmax] prefers tag 0 (or ties) exactly when the
    logits do. *)
Lemma log_softmax2_unconfident `{LogSumExp} z :
  ((log_softmax2 z).2 <= (log_softmax2 z).1)%Q <-> (z.2 <= z.1)%Q.
Proof. simpl. split; intros; lra. Qed.

(** ** A bound to run examples with *)

(** The largest entry and 0: it satisfies the law of [LogSumExp]
    (log-sum-exp itself lies above the largest entry).  By
    [argmax_log_softmax] the index [torch.max] returns does not depend
    on the bound chosen, so examples run with this one say what the
    script answers. *)
Definition max_entry (l : list Q) : Q := foldr (fun x m => if Qlt_le_dec m x then x else m) 0%Q l.

Lemma max_entry_ge l x : x ∈ l -> (x <= max_entry l)%Q.
Proof.
  induction l as [|y l IH]; [by intros ?%elem_of_nil|]. intros [->|Hx]%elem_of_cons; simpl.
  - destruct (Qlt_le_dec (max_entry l) y); lra.
  - specialize (IH Hx). destruct (Qlt_le_dec (max_entry l) y); lra.
Qed.

Definition max_entry_lse : LogSumExp := {| lse := max_entry; lse_ge := max_entry_ge |}.
