(* ===== verification/Prepare.v ===== *)
(** * Turning words into index lists

    [prepare_question] of script 1 (lines 68-78) and [prepare_data] of
    script 2 (lines 89-101), with the dictionary choice of
    [process_answer] (lines 210-217).  A missing key is the KeyError the
    Python lookup raises; [torch.LongTensor] and [autograd.Variable] only
    wrap the index list. *)

From S2P Require Import Prelude PyStr Vocab Data.
From Stdlib Require Import Ascii String.

Local Open Scope nat_scope.
#[local] Set Warnings "-clear-no-such-hyp".

Module Script1Prep.
Import Script1.

(** [idxs = [to_ix[w] for w in seq]] *)
Definition prepare_question (seq : list string) (to_ix : gmap string nat) : pyres (list nat) :=
  py_mapM (py_getitem to_ix) seq.

(** Reading indices back into tokens with the inverse dictionary. *)
Definition decode (d : gmap string nat) (idxs : list nat) : option (list string) :=
  mapM (fun i => ix_to_key d !! i) idxs.

(** *** Against the vocabulary interface *)

Section VocabularyClient.
Context {E : Type} `{!Vocabulary E}.

(** The tokens of an element of the data the vocabulary was built from
    are all found, each at an index below [len(d)]: [prepare_question]
    raises no KeyError and the embedding no IndexError. *)
Lemma prepare_tokens (data : list E) e :
  e ∈ data ->
  exists idxs, prepare_question (vocab_tokens e) (vocab_build data) = Ok idxs /\
    Forall2 (fun w i => vocab_build data !! w = Some i) (vocab_tokens e) idxs /\
    Forall (fun i => i < size (vocab_build data)) idxs.
Proof.
  intros He. set (d := vocab_build data).
  destruct (py_mapM_all_ok (py_getitem d) (vocab_tokens e)) as [idxs Hidxs].
  { intros w Hw. destruct (vocab_keys data e w He Hw) as [i Hi].
    unfold py_getitem. fold d in Hi. by rewrite Hi. }
  exists idxs. split; [done|].
  assert (H2 : Forall2 (fun w i => d !! w = Some i) (vocab_tokens e) idxs).
  { eapply Forall2_impl; [by apply py_mapM_Ok|]. intros w i. apply py_getitem_Ok. }
  split; [done|].
  apply Forall_forall. intros i Hi.
  apply list_elem_of_lookup in Hi as [n Hn].
  destruct (Forall2_lookup_r _ _ _ _ _ H2 Hn) as (w & _ & Hw).
  apply (proj2 (proj1 (vocab_bij data) i)). eauto.
Qed.

(** Decoding the indices gives the tokens back. *)
Lemma prepare_decode (data : list E) e :
  e ∈ data ->
  exists idxs, prepare_question (vocab_tokens e) (vocab_build data) = Ok idxs /\
    decode (vocab_build data) idxs = Some (vocab_tokens e).
Proof.
  intros He. destruct (prepare_tokens data e He) as (idxs & Hp & H2 & _).
  exists idxs. split; [done|]. unfold decode. apply mapM_Some, Forall2_flip.
  eapply Forall2_impl; [exact H2|]. intros w i Hw. by apply ix_to_key_lookup; [apply vocab_bij|].
Qed.
End VocabularyClient.

(** Script 1's vocabulary, through [script1_vocabulary]. *)
Lemma prepare_question_found (data : list example) q a :
  (q, a) ∈ data ->
  exists idxs, prepare_question (py_split q) (createWordDictionary data) = Ok idxs /\
    Forall2 (fun w i => createWordDictionary data !! w = Some i) (py_split q) idxs /\
    Forall (fun i => i < size (createWordDictionary data)) idxs.
Proof. exact (prepare_tokens data (q, a)). Qed.

(** C29: Encoding a question of the data with script 1's vocabulary loses
    nothing: the inverse dictionary reads its indices back into its
    tokens. *)
Theorem prepare_question_roundtrip (data : list example) q a :
  (q, a) ∈ data ->
  exists idxs, prepare_question (py_split q) (createWordDictionary data) = Ok idxs /\
    decode (createWordDictionary data) idxs = Some (py_split q).
Proof. exact (prepare_decode data (q, a)). Qed.

(** ** Witness *)

Definition w_examples : list example := [("How many apples"%string, 3%Z); ("How many pears"%string, 4%Z)].

Lemma prepare_question_roundtrip_witness :
  ("How many pears"%string, 4%Z) ∈ w_examples /\
  exists idxs, prepare_question (py_split "How many pears") (createWordDictionary w_examples) = Ok idxs /\
    decode (createWordDictionary w_examples) idxs = Some (py_split "How many pears").
Proof.
  assert (Hin : ("How many pears"%string, 4%Z) ∈ w_examples) by vm_decide.
  split; [exact Hin | exact (prepare_question_roundtrip w_examples _ _ Hin)].
Defined.
End Script1Prep.

Module Script2Prep.
Import Script2.

Section PrepareData.
Context `{Countable K} (kstr : string -> K) (kval : pyval -> option K).

(** [to_ix[re.sub(r'[^\w\s]','', w).lower()]] *)
Definition prepare_word (to_ix : gmap K nat) (w : pyval) : pyres nat :=
  match w with
  | PyStr s => py_getitem to_ix (kstr (py_lower (strip_punct s)))
  | _ => Exc TypeError
  end.

(**
<<
if is_number(seq):
    idxs = [to_ix[seq]]
else:
    idxs = [to_ix[re.sub(r'[^\w\s]','', w).lower()] for w in seq]
>>
    [kval] is the key a value is looked up under ([None]: a key no
    entry of the dictionary equals). *)
Definition prepare_data (seq : pyval) (to_ix : gmap K nat) : pyres (list nat) :=
  if is_number seq then
    match kval seq with
    | Some k => i <- py_getitem to_ix k ;; Ok [i]
    | None => Exc KeyError
    end
  else
    match seq with
    | PyList ws => py_mapM (prepare_word to_ix) ws
    | PyStr s => py_mapM (fun c => prepare_word to_ix (PyStr (String c EmptyString))) (list_ascii_of_string s)
    | _ => Exc TypeError
    end.
End PrepareData.

(** Lookup keys of the question dictionary (keys are strings). *)
Definition str_key (v : pyval) : option string :=
  match v with PyStr s => Some s | _ => None end.

(** [prepare_data(question.split(), to_ix)] of [process_question]. *)
Definition prepare_question (question : string) (to_ix : gmap string nat) : pyres (list nat) :=
  prepare_data (fun s => s) str_key (PyList (map PyStr (py_split question))) to_ix.

(** The four branches of [process_answer] (lines 210-217): a number
    goes in whole, anything else is split; [is_training] picks the
    training or the test answer dictionary. *)
Definition prepare_answer (answer : pyval) (is_training : bool)
    (train_ix test_ix : gmap akey nat) : pyres (list nat) :=
  let split_answer := match answer with
                      | PyStr s => Ok (PyList (map PyStr (py_split s)))
                      | _ => Exc AttributeError
                      end in
  if is_number answer && is_training then prepare_data KStr choice_key answer train_ix
  else if is_number answer && negb is_training then prepare_data KStr choice_key answer test_ix
  else if negb (is_number answer) && negb is_training then
    (seq <- split_answer ;; prepare_data KStr choice_key seq test_ix)
  else (seq <- split_answer ;; prepare_data KStr choice_key seq train_ix).

(** A whitespace token is clean when its only [[\w']] run is the token
    with its punctuation removed (no apostrophe, no inner punctuation,
    at least one word character). *)
Definition clean_token (w : string) : bool := bool_decide (findall_words w = [strip_punct w]).

Lemma clean_token_in_findall q w :
  w ∈ py_split q -> clean_token w = true -> strip_punct w ∈ findall_words q.
Proof.
  intros Hw Hc. apply bool_decide_eq_true_1 in Hc.
  rewrite findall_words_split. apply list_elem_of_In, in_concat.
  exists (findall_words w). split; [apply in_map, list_elem_of_In, Hw|].
  rewrite Hc. by left.
Qed.

(** C22: A question whose tokens are all clean is turned into one index per
    token, each at most [len] of the question vocabulary it was built
    into (the bound of [createQuestionDictionary_bounded]). *)
Theorem prepare_data_question_in_vocab (data : list problem) p :
  p ∈ data -> Forall (fun w => clean_token w = true) (py_split (question p)) ->
  exists idxs, prepare_question (question p) (createQuestionDictionary data) = Ok idxs /\
    List.length idxs = List.length (py_split (question p)) /\
    Forall (fun i => i <= size (createQuestionDictionary data)) idxs.
Proof.
  intros Hp Hclean. set (d := createQuestionDictionary data).
  assert (Hkey : forall w, w ∈ py_split (question p) -> is_Some (d !! py_lower (strip_punct w))).
  { intros w Hw. apply question_dictionary_keys. exists p, (strip_punct w).
    split; [done|]. split; [|done]. apply clean_token_in_findall; [done|].
    by apply (proj1 (Forall_forall _ _) Hclean). }
  destruct (py_mapM_all_ok (prepare_word (fun s => s) d) (map PyStr (py_split (question p))))
    as [idxs Hidxs].
  { intros x (w & -> & Hw)%list_elem_of_fmap. simpl. unfold py_getitem.
    by destruct (Hkey w Hw) as [i ->]. }
  exists idxs. unfold prepare_question, prepare_data. rewrite is_number_list. split; [done|].
  split; [by rewrite (py_mapM_length _ _ _ Hidxs), length_map|].
  apply py_mapM_Ok in Hidxs. apply Forall_forall. intros i Hi.
  apply list_elem_of_lookup in Hi as [n Hn].
  destruct (Forall2_lookup_r _ _ _ _ _ Hidxs Hn) as (x & Hx & Hxi).
  apply list_lookup_fmap_Some in Hx as (w & -> & _). simpl in Hxi.
  apply py_getitem_Ok in Hxi. by apply (question_dictionary_bounded data _ _ Hxi).
Qed.
(** A loop whose every exception is [E] raises [E] when one step fails. *)
Lemma py_mapM_Exc_only {A B} (f : A -> pyres B) l (E : py_error) :
  (forall x e, x ∈ l -> f x = Exc e -> e = E) -> (exists x, x ∈ l /\ is_ok (f x) = false) -> py_mapM f l = Exc E.
Proof.
  intros Honly Hx. apply py_mapM_not_ok in Hx.
  destruct (py_mapM f l) as [ys|e] eqn:Hm; [discriminate|].
  destruct (py_mapM_Exc_elem f l e Hm) as (x & Hxl & Hfx). by rewrite (Honly x e Hxl Hfx).
Qed.

(** A token whose key is missing makes the question raise KeyError. *)
Lemma prepare_question_missing q (d : gmap string nat) w :
  w ∈ py_split q -> d !! py_lower (strip_punct w) = None -> prepare_question q d = Exc KeyError.
Proof.
  intros Hw Hn. unfold prepare_question, prepare_data. rewrite is_number_list.
  apply py_mapM_Exc_only.
  - intros x e0 (w' & -> & _)%list_elem_of_fmap. simpl. unfold py_getitem.
      destruct (d !! py_lower (strip_punct w')); congruence.
  - exists (PyStr w). split; [by apply list_elem_of_fmap; eauto|]. simpl. unfold py_getitem. by rewrite Hn.
Qed.

(** C23: [prepare_data] on a question raises KeyError exactly when one of its
    whitespace tokens, with [re.sub] applied and lowercased, is not a
    key of the dictionary; no other exception is possible. *)
Theorem prepare_question_keyerror q (d : gmap string nat) :
  prepare_question q d = Exc KeyError <-> exists w, w ∈ py_split q /\ d !! py_lower (strip_punct w) = None.
Proof.
  split.
  - unfold prepare_question, prepare_data. rewrite is_number_list.
    intros (x & Hx & Hfx)%py_mapM_Exc_elem. apply list_elem_of_fmap in Hx as (w & -> & Hw).
    simpl in Hfx. unfold py_getitem in Hfx. destruct (d !! _) eqn:E; [discriminate|]. eauto.
  - intros (w & Hw & Hn). by apply (prepare_question_missing q d w).
Qed.

(** The empty string is never a key of the question vocabulary: its keys
    are lowercased non-empty runs. *)
Lemma question_dictionary_no_empty data : createQuestionDictionary data !! EmptyString = None.
Proof.
  apply eq_None_not_Some. intros (p & w & _ & Hw & Hk)%question_dictionary_keys.
  pose proof (proj1 (Forall_forall _ _) (runs_tokens is_word_or_apos (question p)) w Hw) as Ht.
  destruct w as [|c w']; [discriminate|]. discriminate Hk.
Qed.

(** C24: A whitespace token with no word character ("+", "-", "?") loses
    every character to [re.sub]; the empty string is never a key of
    [createQuestionDictionary], so the question raises KeyError, even
    with the vocabulary built from this very question. *)
Theorem prepare_question_punct_keyerror data q w :
  w ∈ py_split q -> strip_punct w = EmptyString ->
  prepare_question q (createQuestionDictionary data) = Exc KeyError.
Proof.
  intros Hw Hs. apply (prepare_question_missing _ _ w Hw). rewrite Hs. apply question_dictionary_no_empty.
Qed.

(** An answer vocabulary without string keys. *)
Definition no_str_keys (d : gmap akey nat) : Prop := forall s, d !! KStr s = None.

Lemma float_key_not_str f n s : float_key f n <> KStr s.
Proof. by destruct f. Qed.

(** A number or a numeric string is stored under its float value: it
    adds no string key. *)
Lemma add_choice_no_str d c : is_number c = true -> no_str_keys d -> no_str_keys (add_choice d c).
Proof.
  unfold is_number. intros Hn Hd s. unfold add_choice.
  destruct (py_float c) as [f|] eqn:Hf; [|discriminate].
  assert (Hins : <[float_key f (size d) := size d]> d !! KStr s = None)
    by (rewrite lookup_insert_ne; [apply Hd | apply float_key_not_str]).
  destruct c as [z|m e|s'|l]; cbn [choice_key]; rewrite ?Hf.
  - case_bool_decide; [apply Hins|apply Hd].
  - case_bool_decide; [apply Hins|apply Hd].
  - rewrite bool_decide_true by apply Hd. apply Hins.
  - discriminate.
Qed.

(** C25: A numeric string choice ("4") is stored under its float value
    (line 74) but looked up as the string itself (line 97): with an
    answer vocabulary built from numbers and numeric strings, preparing
    a numeric string choice always raises KeyError. *)
Theorem prepare_numeric_string_keyerror data s test_ix :
  Forall (fun p => Forall (fun c => is_number c = true) (choices p)) data ->
  is_number (PyStr s) = true ->
  prepare_answer (PyStr s) true (createAnswerDictionary data) test_ix = Exc KeyError.
Proof.
  intros Hdata Hs. assert (Hno : no_str_keys (createAnswerDictionary data)).
  { unfold createAnswerDictionary. apply (foldl_invariant no_str_keys); [|intros k; apply lookup_empty].
    intros d p Hp Hd. apply (foldl_invariant no_str_keys); [|done].
    intros d' c Hc Hd'. apply add_choice_no_str; [|done].
    exact (proj1 (Forall_forall _ _) (proj1 (Forall_forall _ _) Hdata p Hp) c Hc). }
  unfold prepare_answer. rewrite Hs. cbn [andb negb]. unfold prepare_data. rewrite Hs.
  cbn [choice_key]. unfold py_getitem. by rewrite Hno.
Qed.

(** ** Witness *)

Definition w_problems : list problem := [mk_problem "Add 2 and 3." [PyInt 5; PyInt 6] 0].

Lemma prepare_data_question_in_vocab_witness :
  mk_problem "Add 2 and 3." [PyInt 5; PyInt 6] 0 ∈ w_problems /\
  Forall (fun w => clean_token w = true) (py_split "Add 2 and 3.") /\
  exists idxs, prepare_question "Add 2 and 3." (createQuestionDictionary w_problems) = Ok idxs /\
    List.length idxs = List.length (py_split "Add 2 and 3.") /\
    Forall (fun i => i <= size (createQuestionDictionary w_problems)) idxs.
Proof.
  assert (Hin : mk_problem "Add 2 and 3." [PyInt 5; PyInt 6] 0 ∈ w_problems) by (left).
  assert (Hc : Forall (fun w => clean_token w = true) (py_split "Add 2 and 3.")) by vm_decide.
  do 2 (split; [assumption|]).
  exact (prepare_data_question_in_vocab w_problems _ Hin Hc).
Defined.
End Script2Prep.

Module PrepareFacts.
Import Script2 Script2Prep Script2Data.
Local Open Scope string_scope.

(** An apostrophe is kept by [re.findall(r"[\w']+")] but removed by
    [re.sub(r'[^\w\s]', '')]: "what's" is stored, "whats" is looked up,
    and the question raises KeyError with the vocabulary built from it
    (an instance of [prepare_question_keyerror]). *)
Lemma apostrophe_question_keyerror :
  prepare_question "What's 2 by 2?"
    (createQuestionDictionary [mk_problem "What's 2 by 2?" [PyInt 4] 0]) = Exc KeyError.
Proof. vm_compute. reflexivity. Qed.

(** The question removed from the training data (comment at line 26). *)
Definition plus_problem : problem := mk_problem "5 + 4 + 25" [PyInt 3; PyInt 20; PyInt 34; PyInt 5] 2.

Lemma prepare_question_punct_keyerror_witness :
  "+" ∈ py_split "5 + 4 + 25" /\ strip_punct "+" = EmptyString /\
  prepare_question "5 + 4 + 25" (createQuestionDictionary [plus_problem]) = Exc KeyError.
Proof.
  assert (Hw : "+" ∈ py_split "5 + 4 + 25") by vm_decide.
  assert (Hs : strip_punct "+" = EmptyString) by reflexivity.
  split; [exact Hw|]. split; [exact Hs|].
  exact (prepare_question_punct_keyerror [plus_problem] _ _ Hw Hs).
Defined.

(** A problem whose choices are the numeric string "4" and the number 5. *)
Definition four_problem : problem := mk_problem "Add 2 and 2" [PyStr "4"; PyInt 5] 0.

Lemma prepare_numeric_string_keyerror_witness :
  Forall (fun p => Forall (fun c => is_number c = true) (choices p)) [four_problem] /\
  is_number (PyStr "4") = true /\
  prepare_answer (PyStr "4") true (createAnswerDictionary [four_problem]) ∅ = Exc KeyError.
Proof.
  assert (Hd : Forall (fun p => Forall (fun c => is_number c = true) (choices p)) [four_problem]) by vm_decide.
  assert (Hs : is_number (PyStr "4") = true) by reflexivity.
  split; [exact Hd|]. split; [exact Hs|].
  exact (prepare_numeric_string_keyerror [four_problem] _ ∅ Hd Hs).
Defined.

(** On the data of the script every question and every choice is
    prepared without an exception, with the training dictionaries in
    training and the test dictionaries in test. *)
Example prepare_data_of_script_ok :
  Forall (fun p => is_ok (prepare_question (question p) train_question_word_to_ix) = true /\
                   Forall (fun c => is_ok (prepare_answer c true train_answer_word_to_ix test_answer_word_to_ix) = true)
                          (choices p)) trainingData /\
  Forall (fun p => is_ok (prepare_question (question p) test_question_word_to_ix) = true /\
                   Forall (fun c => is_ok (prepare_answer c false train_answer_word_to_ix test_answer_word_to_ix) = true)
                          (choices p)) testData.
Proof. vm_decide. Qed.
End PrepareFacts.
