(* ===== verification/Rnn.v ===== *)
(** * The recurrent loops

    Script 2: [QuestionRNN.forward], [AnswerRNN.forward] (lines 147-198),
    [process_question] (lines 103-129) and [process_answer] (lines
    200-225).  Script 1: [LSTMmath.forward] (lines 86-122) with its
    hidden state kept in [self.hidden], over the layers of [Layers.v].

    Vectors are lists of rationals.  In script 2 the records
    [QuestionRNN] and [AnswerRNN] carry the sizes, [n_layers], the rows
    of the embedding, the GRU step and the weights of [output2tag]; the
    rest is modelled: [initHidden] as [zeros], [F.relu] before each GRU
    step of the answer model, [output2tag] as the affine map [linear2]
    and [nn.LogSoftmax] as [log_softmax2].  In script 1 only the LSTM
    cell and the weights are parameters; [LSTMmath.__init__] raises
    TypeError on the [None] size of line 125.  What is modelled is what
    the scripts do with the layers: the order of the calls, which hidden
    state each call receives, the [n_layers] loop, the [MAX_LENGTH]
    output buffer, the range check of [nn.Embedding] (IndexError), and
    the variable [softmax_layer] that is unbound when no word was read. *)

From S2P Require Import Prelude PyStr Vocab Predict Layers Prepare.
From Stdlib Require Import QArith.

Local Open Scope nat_scope.

(** [nn.Embedding(n, d)(i)]: row [i] of the table, IndexError when [i]
    is not below [n]. *)
Definition embed {V} (n : nat) (table : nat -> V) (i : nat) : pyres V :=
  if decide (i < n) then Ok (table i) else Exc IndexError.

(** [for i in range(n_layers): output, hidden = step(output, hidden)] *)
Fixpoint layers {V H} (n : nat) (step : V -> H -> V * H) (o : V) (h : H) : V * H :=
  match n with
  | 0 => (o, h)
  | S n' => let '(o', h') := step o h in layers n' step o' h'
  end.

Module Script2Rnn.
Import Script2 Script2Prep.

(** [MAX_LENGTH = 25]: rows of [question_outputs]. *)
Definition MAX_LENGTH : nat := 25.

(** [QuestionRNN(input_size, hidden_size)]: the rows of its
    [nn.Embedding(input_size, hidden_size)] and the step of its
    [nn.GRU(hidden_size, hidden_size)] (random initial weights, kept as
    they are), and [n_layers].  Outputs and hidden states are vectors
    of rationals. *)
Record QuestionRNN := mkQuestionRNN {
  q_input_size : nat;
  q_hidden_size : nat;
  q_embedding : nat -> list Q;
  q_gru : list Q -> list Q -> list Q * list Q;
  q_n_layers : nat
}.

(** [AnswerRNN(input_size, hidden_size)]: the same, and the weights and
    biases of [output2tag = nn.Linear(HIDDEN_DIM, 2)]. *)
Record AnswerRNN := mkAnswerRNN {
  a_input_size : nat;
  a_hidden_size : nat;
  a_embedding : nat -> list Q;
  a_gru : list Q -> list Q -> list Q * list Q;
  a_n_layers : nat;
  a_out_W : list Q * list Q;
  a_out_b : row
}.

(** [QuestionRNN.initHidden()]: [torch.zeros(1, 1, hidden_size)]. *)
Definition q_initHidden (m : QuestionRNN) : list Q := zeros (q_hidden_size m).

(** [AnswerRNN.initHidden()] (never called by the script). *)
Definition a_initHidden (m : AnswerRNN) : list Q := zeros (a_hidden_size m).

Section Models.
Context `{!LogSumExp}.

(** [QuestionRNN.forward] *)
Definition question_forward (m : QuestionRNN) (input : nat) (hidden : list Q) : pyres (list Q * list Q) :=
  embedded <- embed (q_input_size m) (q_embedding m) input ;;
  Ok (layers (q_n_layers m) (q_gru m) embedded hidden).

(** [AnswerRNN.forward]: [F.relu] before the GRU in every layer, then
    [softmax_layer = self.softmax(self.output2tag(output[0]))]. *)
Definition answer_forward (m : AnswerRNN) (input : nat) (hidden : list Q) : pyres (row * list Q) :=
  embedded <- embed (a_input_size m) (a_embedding m) input ;;
  let '(output, hidden') := layers (a_n_layers m) (fun o h => a_gru m (relu o) h) embedded hidden in
  Ok (log_softmax2 (linear2 (a_out_W m) (a_out_b m) output), hidden').

(** The loop of [process_question] from word [k] on: feed one index,
    store the output at [question_outputs[k]]. *)
Fixpoint question_loop (m : QuestionRNN) (idxs : list nat) (k : nat)
    (outputs : list (list Q)) (hidden : list Q) : pyres (list (list Q) * list Q) :=
  match idxs with
  | [] => Ok (outputs, hidden)
  | i :: rest =>
      oh <- question_forward m i hidden ;;
      outputs' <- py_setitem outputs k oh.1 ;;
      question_loop m rest (S k) outputs' oh.2
  end.

(** [process_question(question, question_model, is_training)] *)
Definition process_question (question : string) (m : QuestionRNN) (is_training : bool)
    (train_ix test_ix : gmap string nat) : pyres (list (list Q) * list Q) :=
  let question_hidden := q_initHidden m in
  let question_outputs := replicate MAX_LENGTH (zeros (q_hidden_size m)) in
  question_in <- prepare_question question (if is_training then train_ix else test_ix) ;;
  question_loop m question_in 0 question_outputs question_hidden.

(** The loop of [process_answer]: [softmax_layer] holds the scores of
    the last word read, [None] before the first one. *)
Fixpoint answer_loop (m : AnswerRNN) (idxs : list nat) (softmax_layer : option row)
    (hidden : list Q) : pyres (option row * list Q) :=
  match idxs with
  | [] => Ok (softmax_layer, hidden)
  | i :: rest =>
      sh <- answer_forward m i hidden ;;
      answer_loop m rest (Some sh.1) sh.2
  end.

(** [process_answer(answer, answer_model, question_final_hidden,
    is_training)]: the answer model starts from the question's last
    hidden state; [return softmax_layer] raises UnboundLocalError
    when the answer has no word. *)
Definition process_answer (answer : pyval) (m : AnswerRNN) (question_final_hidden : list Q)
    (is_training : bool) (train_ix test_ix : gmap akey nat) : pyres row :=
  answer_in <- prepare_answer answer is_training train_ix test_ix ;;
  sh <- answer_loop m answer_in None question_final_hidden ;;
  match sh.1 with
  | Some softmax_layer => Ok softmax_layer
  | None => Exc UnboundLocalError
  end.

(** ** The recurrences the loops compute *)

(** The outputs of the question GRU over [idxs] and its last hidden
    state. *)
Fixpoint run_question (m : QuestionRNN) (idxs : list nat) (h : list Q) : list (list Q) * list Q :=
  match idxs with
  | [] => ([], h)
  | i :: rest =>
      let '(o, h1) := layers (q_n_layers m) (q_gru m) (q_embedding m i) h in
      let '(os, h2) := run_question m rest h1 in (o :: os, h2)
  end.

(** The score rows of the answer GRU over [idxs] and its last hidden
    state. *)
Fixpoint run_answer (m : AnswerRNN) (idxs : list nat) (h : list Q) : list row * list Q :=
  match idxs with
  | [] => ([], h)
  | i :: rest =>
      let '(o, h1) := layers (a_n_layers m) (fun o h => a_gru m (relu o) h) (a_embedding m i) h in
      let '(rs, h2) := run_answer m rest h1 in (log_softmax2 (linear2 (a_out_W m) (a_out_b m) o) :: rs, h2)
  end.

Lemma question_loop_spec m idxs k outputs h :
  Forall (fun i => i < q_input_size m) idxs -> k + length idxs <= length outputs ->
  question_loop m idxs k outputs h =
    Ok (take k outputs ++ (run_question m idxs h).1 ++ drop (k + length idxs) outputs,
        (run_question m idxs h).2).
Proof.
  revert k outputs h. induction idxs as [|i rest IH]; intros k outputs h Hin Hlen; simpl.
  - by rewrite Nat.add_0_r, take_drop.
  - inversion Hin as [|? ? Hi Hrest]; subst. simpl in Hlen.
    unfold question_forward, embed. rewrite decide_True by done. simpl.
    destruct (layers _ _ _ _) as [o h1] eqn:Hl. simpl.
    rewrite py_setitem_Ok by lia. simpl.
    rewrite IH by first [done | rewrite length_insert; lia].
    destruct (run_question m rest h1) as [os h2]. simpl.
    rewrite (take_S_r _ _ o) by (apply list_lookup_insert_eq; lia).
    rewrite take_insert_ge, drop_insert_lt by lia.
    rewrite <- app_assoc. simpl. by rewrite Nat.add_succ_r.
Qed.

Lemma question_loop_ok m idxs k outputs h :
  k <= length outputs ->
  is_ok (question_loop m idxs k outputs h) = true <->
  Forall (fun i => i < q_input_size m) idxs /\ k + length idxs <= length outputs.
Proof.
  revert k outputs h. induction idxs as [|i rest IH]; intros k outputs h Hk; simpl.
  - split; [intros _; split; [constructor|lia] | done].
  - rewrite is_ok_bind. unfold question_forward, embed.
    destruct (decide (i < q_input_size m)) as [Hi|Hi]; simpl.
    + destruct (layers _ _ _ _) as [o h1]. split.
      * intros (? & [= <-] & Hok). apply is_ok_bind in Hok as (outs & Hset & Hok).
        unfold py_setitem in Hset. destruct (decide (k < length outputs)); [|discriminate].
        injection Hset as <-. apply IH in Hok as [Hrest Hlen]; [|rewrite length_insert; lia].
        rewrite length_insert in Hlen. split; [by constructor|lia].
      * intros [Hall Hlen]. inversion Hall; subst. eexists; split; [done|].
        rewrite py_setitem_Ok by lia. simpl. apply IH; rewrite ?length_insert; [lia|split; [done|lia]].
    + split; [intros (? & ? & _); discriminate|]. intros [Hall _]. inversion Hall. lia.
Qed.

Lemma answer_loop_spec m idxs prev h :
  Forall (fun i => i < a_input_size m) idxs ->
  answer_loop m idxs prev h =
    Ok (match last (run_answer m idxs h).1 with Some r => Some r | None => prev end,
        (run_answer m idxs h).2).
Proof.
  revert prev h. induction idxs as [|i rest IH]; intros prev h Hin; simpl; [done|].
  inversion Hin as [|? ? Hi Hrest]; subst.
  unfold answer_forward, embed. rewrite decide_True by done. simpl.
  destruct (layers _ _ _ _) as [o h1]. simpl. rewrite IH by done.
  destruct (run_answer m rest h1) as [rs h2]. simpl. destruct rs; simpl; [done|].
  destruct (last (r :: rs)) eqn:E; [done|]. by apply last_None in E.
Qed.

(** ** Theorems *)

(** C13: [process_question] refines the GRU recurrence: with every index
    inside the embedding and at most [MAX_LENGTH] words, it returns the
    outputs of [run_question] from [initHidden] padded with zero rows,
    and the last hidden state. *)
Theorem process_question_spec question m (is_training : bool) (train_ix test_ix : gmap string nat) (idxs : list nat) :
  prepare_question question (if is_training then train_ix else test_ix) = Ok idxs ->
  Forall (fun i => i < q_input_size m) idxs -> length idxs <= MAX_LENGTH ->
  process_question question m is_training train_ix test_ix =
    Ok ((run_question m idxs (q_initHidden m)).1 ++ replicate (MAX_LENGTH - length idxs) (zeros (q_hidden_size m)),
        (run_question m idxs (q_initHidden m)).2).
Proof.
  intros Hprep Hin Hlen. unfold process_question. rewrite Hprep, py_bind_Ok.
  rewrite question_loop_spec by (rewrite ?length_replicate; done).
  by rewrite take_0, drop_replicate.
Qed.

(** C14: [process_question] raises exactly when an index is outside the
    embedding ([nn.Embedding] IndexError) or the question has more than
    [MAX_LENGTH = 25] words ([question_outputs[25]] IndexError). *)
Theorem process_question_ok question m (is_training : bool) (train_ix test_ix : gmap string nat) (idxs : list nat) :
  prepare_question question (if is_training then train_ix else test_ix) = Ok idxs ->
  is_ok (process_question question m is_training train_ix test_ix) = true <->
  Forall (fun i => i < q_input_size m) idxs /\ length idxs <= MAX_LENGTH.
Proof.
  intros Hprep. unfold process_question. rewrite Hprep, py_bind_Ok.
  rewrite question_loop_ok, length_replicate by (rewrite length_replicate; lia). done.
Qed.

(** Proof of [process_answer_spec], used by the lemmas that follow. *)
Lemma process_answer_run answer m question_final_hidden (is_training : bool) (train_ix test_ix : gmap akey nat) (idxs : list nat) :
  prepare_answer answer is_training train_ix test_ix = Ok idxs ->
  Forall (fun i => i < a_input_size m) idxs ->
  process_answer answer m question_final_hidden is_training train_ix test_ix =
    match last (run_answer m idxs question_final_hidden).1 with
    | Some r => Ok r
    | None => Exc UnboundLocalError
    end.
Proof.
  intros Hprep Hin. unfold process_answer. rewrite Hprep, py_bind_Ok.
  rewrite answer_loop_spec by done. simpl. by destruct (last _).
Qed.

(** C15: [process_answer] refines the answer GRU started from the question's
    last hidden state: it returns the score row of the last word, and
    raises UnboundLocalError when the answer has no word. *)
Theorem process_answer_spec answer m question_final_hidden (is_training : bool) (train_ix test_ix : gmap akey nat) (idxs : list nat) :
  prepare_answer answer is_training train_ix test_ix = Ok idxs ->
  Forall (fun i => i < a_input_size m) idxs ->
  process_answer answer m question_final_hidden is_training train_ix test_ix =
    match last (run_answer m idxs question_final_hidden).1 with
    | Some r => Ok r
    | None => Exc UnboundLocalError
    end.
Proof. apply process_answer_run. Qed.

(** The row [answer_loop] ends with is the one it started with or the
    output layer followed by [LogSoftmax] on some GRU output. *)
Lemma answer_loop_rows m idxs prev h r h' :
  answer_loop m idxs prev h = Ok (Some r, h') ->
  prev = Some r \/ exists o, r = log_softmax2 (linear2 (a_out_W m) (a_out_b m) o).
Proof.
  revert prev h. induction idxs as [|i rest IH]; intros prev h; simpl; [intros [= -> _]; by left|].
  intros (sh & Hf & Hl)%py_bind_Ok_inv. destruct (IH _ _ Hl) as [[= <-]|Ho]; [|by right].
  right. revert Hf. unfold answer_forward. intros (e & _ & Hf)%py_bind_Ok_inv.
  destruct (layers _ _ _ _) as [o h1]. simpl in Hf. injection Hf as <-. eauto.
Qed.

(** Every row [process_answer] returns comes out of the answer model's
    [output2tag] and [LogSoftmax]. *)
Lemma process_answer_row answer m question_final_hidden (is_training : bool) (train_ix test_ix : gmap akey nat) r :
  process_answer answer m question_final_hidden is_training train_ix test_ix = Ok r ->
  exists o, r = log_softmax2 (linear2 (a_out_W m) (a_out_b m) o).
Proof.
  unfold process_answer. intros (idxs & _ & (sh & Hl & Hr)%py_bind_Ok_inv)%py_bind_Ok_inv.
  destruct sh as [[r'|] h']; simpl in Hr; [injection Hr as ->|discriminate].
  by destruct (answer_loop_rows _ _ _ _ _ _ Hl) as [[=]|?].
Qed.

Lemma run_answer_length m idxs h : length (run_answer m idxs h).1 = length idxs.
Proof.
  revert h. induction idxs as [|i rest IH]; intros h; simpl; [done|].
  destruct (layers _ _ _ _) as [o h1]. specialize (IH h1).
  destruct (run_answer m rest h1). simpl in *. by rewrite IH.
Qed.

(** An answer read into a non-empty list of indices inside the embedding
    gives a score row. *)
Lemma process_answer_ok answer m question_final_hidden (is_training : bool) (train_ix test_ix : gmap akey nat) (idxs : list nat) :
  prepare_answer answer is_training train_ix test_ix = Ok idxs -> idxs <> [] ->
  Forall (fun i => i < a_input_size m) idxs ->
  exists r, process_answer answer m question_final_hidden is_training train_ix test_ix = Ok r.
Proof.
  intros Hp Hne Hin. rewrite (process_answer_run _ _ _ _ _ _ idxs Hp Hin).
  destruct (last _) as [r|] eqn:Hl; [eauto|].
  apply last_None, (f_equal length) in Hl. rewrite run_answer_length in Hl.
  destruct idxs; [done|discriminate].
Qed.

Lemma question_loop_length m idxs k outputs h outputs' h' :
  question_loop m idxs k outputs h = Ok (outputs', h') -> length outputs' = length outputs.
Proof.
  revert k outputs h. induction idxs as [|i rest IH]; intros k outputs h; simpl; [congruence|].
  intros (oh & _ & (outs & Hset & Hrest)%py_bind_Ok_inv)%py_bind_Ok_inv.
  apply IH in Hrest. apply py_setitem_Ok_inv in Hset as [_ ->]. by rewrite Hrest, length_insert.
Qed.

(** C16: [question_outputs] keeps its shape: whenever [process_question]
    returns, the outputs have [MAX_LENGTH] rows, whatever the length of
    the question. *)
Theorem process_question_outputs_length question m (is_training : bool) (train_ix test_ix : gmap string nat) outputs h :
  process_question question m is_training train_ix test_ix = Ok (outputs, h) ->
  length outputs = MAX_LENGTH.
Proof.
  unfold process_question. intros (idxs & _ & Hloop)%py_bind_Ok_inv.
  apply question_loop_length in Hloop. by rewrite Hloop, length_replicate.
Qed.
End Models.

(** ** Witnesses *)

(** A one-word vocabulary, a question model with one embedding row and
    hidden size 0, and an answer model whose output layer prefers tag 0;
    [log_softmax] bounded by the largest entry. *)
#[local] Existing Instance max_entry_lse.

Definition w_question_ix : gmap string nat := <["a"%string := 0]> ∅.
Definition w_answer_ix : gmap akey nat := <[KNum 1 1 := 0]> ∅.
Definition w_question_model : QuestionRNN :=
  mkQuestionRNN 1 0 (fun _ => []) (fun _ h => ([], h)) 1.
Definition w_answer_model : AnswerRNN :=
  mkAnswerRNN 1 0 (fun _ => []) (fun _ h => ([], h)) 1 ([], []) (0%Q, (-1)%Q).

Lemma process_question_spec_witness :
  prepare_question "a" w_question_ix = Ok [0] /\ Forall (fun i => i < 1) [0] /\ length [0] <= MAX_LENGTH /\
  process_question "a" w_question_model true w_question_ix ∅ =
    Ok ((run_question w_question_model [0] (q_initHidden w_question_model)).1 ++
          replicate (MAX_LENGTH - length [0]) (zeros (q_hidden_size w_question_model)),
        (run_question w_question_model [0] (q_initHidden w_question_model)).2).
Proof.
  assert (Hp : prepare_question "a" w_question_ix = Ok [0]) by (vm_compute; reflexivity).
  assert (Hf : Forall (fun i => i < 1) [0]) by (repeat constructor).
  assert (Hl : length [0] <= MAX_LENGTH) by (unfold MAX_LENGTH; simpl; lia).
  do 3 (split; [assumption|]).
  exact (process_question_spec "a" w_question_model true w_question_ix ∅ [0] Hp Hf Hl).
Defined.

Lemma process_question_ok_witness :
  prepare_question "a a" w_question_ix = Ok [0; 0] /\
  (is_ok (process_question "a a" w_question_model false ∅ w_question_ix) = true <->
   Forall (fun i => i < q_input_size w_question_model) [0; 0] /\ length [0; 0] <= MAX_LENGTH).
Proof.
  assert (Hp : prepare_question "a a" w_question_ix = Ok [0; 0]) by (vm_compute; reflexivity).
  split; [exact Hp|].
  exact (process_question_ok "a a" w_question_model false ∅ w_question_ix [0; 0] Hp).
Defined.

Lemma process_question_outputs_length_witness :
  process_question "a" w_question_model true w_question_ix ∅ = Ok (replicate 25 [], []) /\
  length (replicate 25 (@nil Q)) = MAX_LENGTH.
Proof.
  assert (Hp : process_question "a" w_question_model true w_question_ix ∅ = Ok (replicate 25 [], []))
    by (vm_compute; reflexivity).
  split; [exact Hp | exact (process_question_outputs_length _ _ _ _ _ _ _ Hp)].
Defined.

Lemma process_answer_spec_witness :
  prepare_answer (PyInt 1) true w_answer_ix ∅ = Ok [0] /\ Forall (fun i => i < 1) [0] /\
  process_answer (PyInt 1) w_answer_model [] true w_answer_ix ∅ =
    match last (run_answer w_answer_model [0] []).1 with
    | Some r => Ok r
    | None => Exc UnboundLocalError
    end.
Proof.
  assert (Hp : prepare_answer (PyInt 1) true w_answer_ix ∅ = Ok [0]) by (vm_compute; reflexivity).
  assert (Hf : Forall (fun i => i < 1) [0]) by (repeat constructor).
  do 2 (split; [assumption|]).
  exact (process_answer_spec (PyInt 1) w_answer_model [] true w_answer_ix ∅ [0] Hp Hf).
Defined.
End Script2Rnn.

Module Script1Rnn.
Section LSTMmath.
Context {H : Type} `{!LogSumExp}.
(** One step of [nn.LSTM(vocab_size, hidden_dim)]: an input row and the
    hidden state [(h, c)] give the output of the step and the new
    state.  The weights of the cell are in the step. *)
Context (lstm_cell : list Q -> H -> list Q * H).
(** The weights and the bias of [hidden2tag = nn.Linear(hidden_dim,
    tagset_size)], and [init_hidden()]. *)
Context (W : list (list Q)) (b : list Q) (init_hidden : H).

(** The module's state: [self.hidden] and the embedding size
    [vocab_size] (the one-hot table [torch.eye(vocab_size)]). *)
Record state := mkState { hidden : H; vocab_size : nat }.

(** [LSTMmath(embedding_dim, hidden_dim, vocab_size, tagset_size)]:
    [nn.Embedding(vocab_size, vocab_size)] with [torch.eye(vocab_size)]
    as weights, the LSTM, [hidden2tag] and [self.hidden = init_hidden()].
    The layers take their sizes as integers: [None] (line 125) raises
    TypeError in the first of them.  The weights are the parameters. *)
Definition LSTMmath_init (vocab_size : option nat) : pyres state :=
  match vocab_size with
  | Some n => Ok (mkState init_hidden n)
  | None => Exc TypeError
  end.

(** [init_hidden()] assigned to [self.hidden]. *)
Definition reset (st : state) : state := mkState init_hidden (vocab_size st).

(** [nn.LSTM] over a sequence: the cell word by word, collecting the
    outputs of the steps. *)
Fixpoint run_lstm (xs : list (list Q)) (h : H) : list (list Q) * H :=
  match xs with
  | [] => ([], h)
  | x :: xs' => let '(o, h1) := lstm_cell x h in
                let '(os, h2) := run_lstm xs' h1 in (o :: os, h2)
  end.

(** [forward(question)]: embed every index (IndexError outside the
    table), run the LSTM from [self.hidden] and store its new state in
    [self.hidden], take the output of the last word
    ([lstm_out[len(question)-1]]), and score it with [hidden2tag] and
    [log_softmax].  PyTorch rejects an empty sequence (RuntimeError). *)
Definition forward (st : state) (question : list nat) : pyres (list Q * state) :=
  embeds <- py_mapM (eye_embedding (vocab_size st)) question ;;
  match embeds with
  | [] => Exc RuntimeError
  | _ => let '(lstm_out, h') := run_lstm embeds (hidden st) in
         last_out <- py_index lstm_out (length question - 1) ;;
         Ok (log_softmax (nn_linear W b last_out), mkState h' (vocab_size st))
  end.

(** Running the LSTM over two sequences one after the other is running
    it over their concatenation. *)
Lemma run_lstm_app xs ys h :
  run_lstm (xs ++ ys) h =
    ((run_lstm xs h).1 ++ (run_lstm ys (run_lstm xs h).2).1, (run_lstm ys (run_lstm xs h).2).2).
Proof.
  revert h. induction xs as [|x xs IH]; intros h; simpl; [by destruct (run_lstm ys h)|].
  destruct (lstm_cell x h) as [o h1]. rewrite IH.
  destruct (run_lstm xs h1) as [os h2]. simpl. by destruct (run_lstm ys h2).
Qed.

Lemma run_lstm_length xs h : length (run_lstm xs h).1 = length xs.
Proof.
  revert h. induction xs as [|x xs IH]; intros h; simpl; [done|].
  destruct (lstm_cell x h) as [o h1]. specialize (IH h1).
  destruct (run_lstm xs h1). simpl in *. by rewrite IH.
Qed.

Lemma eye_embedding_all n question :
  Forall (fun i => i < n) question -> py_mapM (eye_embedding n) question = Ok (map (one_hot n) question).
Proof.
  induction 1 as [|i q Hi _ IH]; [done|]. cbn [py_mapM map]. unfold eye_embedding at 1.
  rewrite decide_True by done. by rewrite py_bind_Ok, IH, py_bind_Ok.
Qed.

(** [forward] on a non-empty question whose indices are inside the
    one-hot table runs the LSTM over the one-hot rows from
    [self.hidden], scores its last output, keeps the table and stores
    the LSTM's new hidden state. *)
Lemma forward_spec st question :
  question <> [] -> Forall (fun i => i < vocab_size st) question ->
  exists out, last (run_lstm (map (one_hot (vocab_size st)) question) (hidden st)).1 = Some out /\
  forward st question =
    Ok (log_softmax (nn_linear W b out),
        mkState (run_lstm (map (one_hot (vocab_size st)) question) (hidden st)).2 (vocab_size st)).
Proof.
  intros Hne Hall. unfold forward. rewrite eye_embedding_all, py_bind_Ok by done.
  pose proof (run_lstm_length (map (one_hot (vocab_size st)) question) (hidden st)) as Hlen.
  rewrite length_map in Hlen.
  destruct (run_lstm _ _) as [outs h'] eqn:Hr. simpl in Hlen |- *.
  destruct (last outs) as [out|] eqn:Hl.
  2: { apply last_None in Hl. subst outs. destruct question; simpl in Hlen; [done|discriminate]. }
  exists out. split; [done|].
  rewrite last_lookup, Hlen, <- Nat.sub_1_r in Hl.
  destruct question as [|i q]; [done|]. cbn [map].
  by rewrite (proj2 (py_index_Ok _ _ _) Hl), py_bind_Ok.
Qed.
End LSTMmath.
End Script1Rnn.
