(* ===== verification/Train.v ===== *)
(** * Training and evaluation loops

    Script 2: [create_models] (lines 253-271), [train_one_AnswerRNN]
    (lines 274-304), [train] (lines 307-336) and [test] (lines 339-368).
    Script 1: the training loop (lines 135-163) and the two evaluation
    loops (lines 166-187).

    A gradient step ([zero_grad], [loss.backward()], [optimizer.step()])
    is a parameter: plain SGD keeps no optimizer state, so the models
    after a step are a function of the models and the example.  The
    gradient-norm lists of [train] only feed a commented-out plot and
    are not modelled. *)

From S2P Require Import Prelude PyStr Vocab Data Predict Layers Prepare Rnn.
From Stdlib Require Import QArith.

Local Open Scope nat_scope.
#[local] Set Warnings "-clear-no-such-hyp".

Module Script2Train.
Import Script2 Script2Prep Script2Rnn Script2Data.

Section Training.
Context `{!LogSumExp}.
(** The dictionaries the functions read as globals. *)
Context (train_q test_q : gmap string nat) (train_a test_a : gmap akey nat).
(** [QuestionRNN(n, HIDDEN_DIM)] and the [i]-th [AnswerRNN(n, HIDDEN_DIM)]
    (random initial weights). *)
Context (new_question_model : nat -> QuestionRNN) (new_answer_model : nat -> nat -> AnswerRNN).
(** One step of both optimizers after [loss.backward()]. *)
Context (sgd_step : QuestionRNN -> AnswerRNN -> string -> pyval -> nat ->
                    QuestionRNN * AnswerRNN).

(** [create_models()] *)
Definition create_models : QuestionRNN * list (AnswerRNN) :=
  (new_question_model (size train_q),
   map (fun i => new_answer_model i (size train_a)) (seq 0 NUM_ANSWERS)).

(** [train_one_AnswerRNN]: the question and the choice go forward (their
    exceptions propagate), then both models take a step. *)
Definition train_one_AnswerRNN (answer_model : AnswerRNN) (question_model : QuestionRNN)
    (question : string) (choice : pyval) (true_tag : nat) : pyres (QuestionRNN * AnswerRNN) :=
  qo <- process_question question question_model true train_q test_q ;;
  predicted_tags <- process_answer choice answer_model qo.2 true train_a test_a ;;
  Ok (sgd_step question_model answer_model question choice true_tag).

(** [true_tag = 1 if correct_choice_index == j else 0] *)
Definition true_tag (p : problem) (j : nat) : nat :=
  if Z.eqb (ans_index p) (Z.of_nat j) then 1 else 0.

(** The body of the innermost loop of [train], for answer model [j]. *)
Definition train_example (j : nat) (st : QuestionRNN * list (AnswerRNN)) (p : problem) :
    pyres (QuestionRNN * list (AnswerRNN)) :=
  am <- py_index st.2 j ;;
  choice <- py_index (choices p) j ;;
  r <- train_one_AnswerRNN am st.1 (question p) choice (true_tag p j) ;;
  ams <- py_setitem st.2 j r.2 ;;
  Ok (r.1, ams).

(** [for _ in range(n_epochs): for ... in training_data: ...] for [j]. *)
Definition train_phase (training_data : list problem) (n_epochs : nat)
    (st : QuestionRNN * list (AnswerRNN)) (j : nat) :=
  py_foldM (fun st _ => py_foldM (train_example j) st training_data) st (seq 0 n_epochs).

(** [train(training_data, n_epochs)] *)
Definition train (training_data : list problem) (n_epochs : nat) :=
  py_foldM (train_phase training_data n_epochs) create_models (seq 0 NUM_ANSWERS).

Lemma train_example_frame j st p st' :
  train_example j st p = Ok st' ->
  length st'.2 = length st.2 /\ forall k, k <> j -> st'.2 !! k = st.2 !! k.
Proof.
  unfold train_example. intros (am & _ & H1)%py_bind_Ok_inv.
  apply py_bind_Ok_inv in H1 as (choice & _ & H2).
  apply py_bind_Ok_inv in H2 as (r & _ & H3).
  apply py_bind_Ok_inv in H3 as (ams & (_ & ->)%py_setitem_Ok_inv & [= <-]).
  simpl. split; [apply length_insert|].
  intros k Hk. by apply list_lookup_insert_ne.
Qed.

(** C20: Phase [j] of [train] changes answer model [j] only: every other
    answer model, and the number of models, is as before the phase. *)
Theorem train_phase_frame training_data n_epochs st j st' :
  train_phase training_data n_epochs st j = Ok st' ->
  length st'.2 = length st.2 /\ forall k, k <> j -> st'.2 !! k = st.2 !! k.
Proof.
  set (P := fun st' : QuestionRNN * list (AnswerRNN) =>
              length st'.2 = length st.2 /\ forall k, k <> j -> st'.2 !! k = st.2 !! k).
  apply (py_foldM_invariant P); [|split; done].
  intros s e s' _ HP Hs'. apply (py_foldM_invariant P (train_example j) s training_data s'); [|done|done].
  intros s1 p s2 _ [Hl1 Hk1] Hs2. apply train_example_frame in Hs2 as [Hl2 Hk2].
  split; [congruence|]. intros k Hk. by rewrite Hk2, Hk1.
Qed.

(** An answer model that never prefers tag 1: its [output2tag] gives
    tag 0 at least the score of tag 1 on every GRU output. *)
Definition never_confident (m : AnswerRNN) : Prop :=
  forall o, ((linear2 (a_out_W m) (a_out_b m) o).2 <= (linear2 (a_out_W m) (a_out_b m) o).1)%Q.

(** [train] keeps the answer models never confident when
    [create_models] builds them so and the optimizer step keeps them
    so. *)
Lemma train_never_confident training_data n_epochs st :
  (forall i n, never_confident (new_answer_model i n)) ->
  (forall q a s c t, never_confident a -> never_confident (sgd_step q a s c t).2) ->
  train training_data n_epochs = Ok st -> Forall never_confident st.2.
Proof.
  intros Hnew Hstep. set (P := fun st : QuestionRNN * list (AnswerRNN) => Forall never_confident st.2).
  unfold train. apply (py_foldM_invariant P).
  - intros s j s' _ Hs. unfold train_phase. apply (py_foldM_invariant P); [|done].
    intros s1 _ s2 _ Hs1. apply (py_foldM_invariant P); [|done].
    intros s3 p s4 _ Hs3. unfold train_example.
    intros (am & Ham & (c & _ & (r & Hr & (ams & Hset & [= <-])%py_bind_Ok_inv)%py_bind_Ok_inv)%py_bind_Ok_inv)%py_bind_Ok_inv.
    apply py_setitem_Ok_inv in Hset as [_ ->]. apply Forall_insert; [done|].
    unfold train_one_AnswerRNN in Hr.
    apply py_bind_Ok_inv in Hr as (qo & _ & (pt & _ & [= <-])%py_bind_Ok_inv).
    apply Hstep. apply py_index_Ok in Ham. by eapply Forall_lookup_1.
  - unfold P, create_models. cbn [snd]. apply Forall_forall. intros a Ha. apply list_elem_of_In, in_map_iff in Ha as (i & <- & _). apply Hnew.
Qed.

(** A problem whose correct index names one of the [NUM_ANSWERS] choices
    is a positive example for exactly one answer model; any other index
    makes it a negative example for all four. *)
Theorem true_tag_positive_count p :
  length (filter (fun j => true_tag p j = 1) (seq 0 NUM_ANSWERS)) =
  if (0 <=? ans_index p)%Z && (ans_index p <? Z.of_nat NUM_ANSWERS)%Z then 1 else 0.
Proof.
  unfold true_tag. change NUM_ANSWERS with 4. cbn [seq Z.of_nat Pos.of_succ_nat Pos.succ].
  generalize (ans_index p) as a. intros a.
  assert (a = 0 \/ a = 1 \/ a = 2 \/ a = 3 \/ (a < 0 \/ 4 <= a))%Z
    as [->|[->|[->|[->|Ha]]]] by lia; try reflexivity.
  assert (Hn : forall k, (0 <= k < 4)%Z -> (a =? k)%Z = false) by (intros; apply Z.eqb_neq; lia).
  rewrite !filter_cons, filter_nil. cbn [Z.of_nat Pos.of_succ_nat Pos.succ].
  rewrite !Hn by lia. rewrite !decide_False by lia.
  change (Z.of_nat 4) with 4%Z. replace ((0 <=? a) && (a <? 4))%Z with false; [reflexivity|].
  symmetry. apply andb_false_iff. destruct Ha; [left; apply Z.leb_gt | right; apply Z.ltb_ge]; lia.
Qed.

(** ** [test] *)

(** What the [try]/[except] around the final [print] shows for a
    problem: the predicted choice, or the message that no answer was
    chosen. *)
Inductive report :=
| Predicted (correct predicted : pyval)
| NoAnswer (correct : pyval).

(** [predicted_tags[i] = process_answer(answer, answer_models[i], ...)] *)
Definition answers_step (answer_models : list (AnswerRNN)) (last_hidden : list Q) (is_training : bool)
    (predicted_tags : list row) (ia : nat * pyval) : pyres (list row) :=
  am <- py_index answer_models ia.1 ;;
  r <- process_answer ia.2 am last_hidden is_training train_a test_a ;;
  py_setitem predicted_tags ia.1 r.

(** The [try] evaluates [answers[ans_index]] then
    [answers[predicted_index]]; the [except] evaluates
    [answers[ans_index]] again, so an IndexError there propagates. *)
Definition report_of (answers : list pyval) (ans_index : Z) (predicted_index : nat) : pyres report :=
  match py_index_z answers ans_index with
  | Exc e => Exc e
  | Ok c =>
      match py_index answers predicted_index with
      | Ok a => Ok (Predicted c a)
      | Exc _ => Ok (NoAnswer c)
      end
  end.

(** The loop state of [test]: [sumAccuracy], what was printed, and the
    one [predicted_tags] matrix shared by all the problems. *)
Record test_state := mkTestState {
  sumAccuracy : nat;
  reports : list report;
  predicted_tags : list row
}.

(** One problem of [test]. *)
Definition test_step (question_model : QuestionRNN) (answer_models : list (AnswerRNN))
    (is_training : bool) (st : test_state) (p : problem) : pyres test_state :=
  qo <- process_question (question p) question_model is_training train_q test_q ;;
  tags <- py_foldM (answers_step answer_models qo.2 is_training) (predicted_tags st)
                   (zip (seq 0 (length (choices p))) (choices p)) ;;
  acc <- is_accurate tags (ans_index p) ;;
  rep <- report_of (choices p) (ans_index p) acc.2 ;;
  Ok (mkTestState (sumAccuracy st + (if acc.1 then 1 else 0)) (reports st ++ [rep]) tags).

(** [predicted_tags = autograd.Variable(torch.zeros(NUM_ANSWERS, 2))] *)
Definition zeros_tags : list row := replicate NUM_ANSWERS (0%Q, 0%Q).

(** [test(question_model, answer_models, data, is_training)]: the number
    of correct predictions and the printed reports. *)
Definition test (question_model : QuestionRNN) (answer_models : list (AnswerRNN))
    (data : list problem) (is_training : bool) : pyres (nat * list report) :=
  st <- py_foldM (test_step question_model answer_models is_training) (mkTestState 0 [] zeros_tags) data ;;
  Ok (sumAccuracy st, reports st).

Definition is_predicted (r : report) : Prop :=
  match r with Predicted _ _ => True | NoAnswer _ => False end.

(** ** Theorems about [test] *)

Lemma answers_loop_frame answer_models last_hidden is_training (answers : list pyval) tags tags' :
  py_foldM (answers_step answer_models last_hidden is_training) tags
           (zip (seq 0 (length answers)) answers) = Ok tags' ->
  length tags' = length tags /\ forall i, length answers <= i -> tags' !! i = tags !! i.
Proof.
  apply (py_foldM_invariant (fun t => length t = length tags /\
           forall i, length answers <= i -> t !! i = tags !! i)); [|done].
  intros t [i a] t' Hin [Hl Hk]. unfold answers_step. simpl.
  intros (am & _ & (r & _ & Hset)%py_bind_Ok_inv)%py_bind_Ok_inv.
  apply elem_of_zip_l, elem_of_seq in Hin.
  unfold py_setitem in Hset. destruct (decide (i < length t)); [|discriminate].
  injection Hset as <-. split; [by rewrite length_insert|].
  intros k Hk'. rewrite list_lookup_insert_ne by lia. by apply Hk.
Qed.

(** Proof of [test_step_stale_rows], used by the lemmas that follow. *)
Lemma test_step_rows question_model answer_models is_training st p st' :
  test_step question_model answer_models is_training st p = Ok st' ->
  length (predicted_tags st') = length (predicted_tags st) /\
  forall i, length (choices p) <= i -> predicted_tags st' !! i = predicted_tags st !! i.
Proof.
  unfold test_step. intros (qo & _ & (tags & Htags & H3)%py_bind_Ok_inv)%py_bind_Ok_inv.
  apply py_bind_Ok_inv in H3 as (acc & _ & (rep & _ & [= <-])%py_bind_Ok_inv). simpl.
  by apply answers_loop_frame in Htags.
Qed.

(** C5: The matrix is shared across problems: the rows of a problem's
    matrix past its number of choices are those left by the previous
    problems, and [is_accurate] reads them. *)
Theorem test_step_stale_rows question_model answer_models is_training st p st' :
  test_step question_model answer_models is_training st p = Ok st' ->
  length (predicted_tags st') = length (predicted_tags st) /\
  forall i, length (choices p) <= i -> predicted_tags st' !! i = predicted_tags st !! i.
Proof. apply test_step_rows. Qed.

(** When the matrix has as many rows as the problem has choices, the
    predicted index always names a choice: the [except] branch ("Model
    doesn't think any of the answers is correct") is never taken. *)
Theorem test_step_predicted question_model answer_models is_training st p st' :
  length (predicted_tags st) = length (choices p) ->
  test_step question_model answer_models is_training st p = Ok st' ->
  exists r, reports st' = reports st ++ [r] /\ is_predicted r.
Proof.
  intros Hlen Hstep. pose proof (test_step_rows _ _ _ _ _ _ Hstep) as [Hl _].
  revert Hstep. unfold test_step.
  intros (qo & _ & (tags & Htags & H3)%py_bind_Ok_inv)%py_bind_Ok_inv.
  apply py_bind_Ok_inv in H3 as ([b i] & Hacc & (rep & Hrep & [= <-])%py_bind_Ok_inv).
  exists rep. split; [done|]. simpl in *.
  apply is_accurate_result in Hacc as [Hi _].
  apply answers_loop_frame in Htags as [Hlt _].
  unfold report_of in Hrep. destruct (py_index_z _ _) as [c|]; [|discriminate].
  destruct (py_index (choices p) i) eqn:Hix; [by injection Hrep as <-|].
  exfalso. destruct e; try (unfold py_index in Hix; destruct (choices p !! i); discriminate).
  apply py_index_Exc in Hix. lia.
Qed.

(** C7: When every problem has [NUM_ANSWERS] choices, as in the script's
    data, every printed report names a predicted choice. *)
Theorem test_all_predicted question_model answer_models data is_training sum reps :
  Forall (fun p => length (choices p) = NUM_ANSWERS) data ->
  test question_model answer_models data is_training = Ok (sum, reps) ->
  Forall is_predicted reps.
Proof.
  intros Hfull. unfold test. intros (st & Hst & [= _ <-])%py_bind_Ok_inv.
  enough (Hinv : length (predicted_tags st) = NUM_ANSWERS /\ Forall is_predicted (reports st))
    by apply Hinv.
  revert Hst. apply (py_foldM_invariant (fun st => length (predicted_tags st) = NUM_ANSWERS /\
                                                   Forall is_predicted (reports st))).
  - intros st1 p st2 Hp [Hl Hall] Hstep.
    pose proof (test_step_rows _ _ _ _ _ _ Hstep) as [Hl2 _].
    destruct (test_step_predicted _ _ _ _ _ _ ltac:(rewrite Hl; symmetry; exact (proj1 (Forall_forall _ _) Hfull p Hp)) Hstep)
      as (r & Hr & Hpr).
    split; [congruence|]. rewrite Hr. apply Forall_app; split; [done|]. by constructor.
  - split; [apply length_replicate | constructor].
Qed.

(** [test] reports once per problem and counts at most one correct
    prediction per problem. *)
Theorem test_counts question_model answer_models data is_training sum reps :
  test question_model answer_models data is_training = Ok (sum, reps) ->
  length reps = length data /\ sum <= length data.
Proof.
  unfold test. intros (st & Hst & [= <- <-])%py_bind_Ok_inv.
  enough (Hgen : forall st0 st', py_foldM (test_step question_model answer_models is_training) st0 data = Ok st' ->
            length (reports st') = length (reports st0) + length data /\
            sumAccuracy st' <= sumAccuracy st0 + length data)
    by (destruct (Hgen _ _ Hst) as [H1 H2]; simpl in *; lia).
  clear Hst. induction data as [|p data IH]; intros st0 st' Hf; simpl in Hf.
  - injection Hf as <-. simpl. lia.
  - apply py_bind_Ok_inv in Hf as (st1 & Hstep & Hrest).
    destruct (IH _ _ Hrest) as [H1 H2].
    revert Hstep. unfold test_step.
    intros (qo & _ & (tags & _ & H3)%py_bind_Ok_inv)%py_bind_Ok_inv.
    apply py_bind_Ok_inv in H3 as (acc & _ & (rep & _ & [= <-])%py_bind_Ok_inv).
    simpl in *. rewrite length_app in H1. simpl in H1. destruct acc.1; simpl in *; lia.
Qed.

(** Every row the answer loop writes into [predicted_tags] is one answer
    model's [output2tag] followed by [LogSoftmax]: a property of all
    such rows holds of the whole matrix when it holds of the old rows. *)
Lemma answers_loop_rows (P : row -> Prop) answer_models last_hidden is_training (answers : list pyval) tags tags' :
  (forall m o, m ∈ answer_models -> P (log_softmax2 (linear2 (a_out_W m) (a_out_b m) o))) ->
  Forall P tags ->
  py_foldM (answers_step answer_models last_hidden is_training) tags
           (zip (seq 0 (length answers)) answers) = Ok tags' ->
  Forall P tags'.
Proof.
  intros HP. apply py_foldM_invariant. intros t [i a] t' _ Ht. unfold answers_step. simpl.
  intros (am & Ham & (r & Hr & Hset)%py_bind_Ok_inv)%py_bind_Ok_inv.
  apply py_setitem_Ok_inv in Hset as [_ ->]. apply Forall_insert; [done|].
  apply process_answer_row in Hr as [o ->]. apply HP.
  apply py_index_Ok in Ham. by eapply list_elem_of_lookup_2.
Qed.


Lemma test_step_unconfident question_model answer_models is_training st p st' :
  Forall never_confident answer_models ->
  predicted_tags st <> [] -> Forall (fun r : row => (r.2 <= r.1)%Q) (predicted_tags st) ->
  test_step question_model answer_models is_training st p = Ok st' ->
  predicted_tags st' <> [] /\ Forall (fun r : row => (r.2 <= r.1)%Q) (predicted_tags st') /\
  sumAccuracy st' = sumAccuracy st + (if Z.eqb 0 (ans_index p) then 1 else 0).
Proof.
  intros Hm Hne Hall Hstep. pose proof (test_step_rows _ _ _ _ _ _ Hstep) as [Hl _].
  revert Hstep Hl. unfold test_step.
  intros (qo & _ & (tags & Htags & H3)%py_bind_Ok_inv)%py_bind_Ok_inv.
  apply py_bind_Ok_inv in H3 as (acc & Hacc & (rep & _ & [= <-])%py_bind_Ok_inv). simpl. intros Hl.
  assert (Htags' : Forall (fun r : row => (r.2 <= r.1)%Q) tags).
  { eapply answers_loop_rows; [|exact Hall|exact Htags].
    intros m o Hm'. apply log_softmax2_unconfident. by apply (proj1 (Forall_forall _ _) Hm m Hm'). }
  assert (Hne' : tags <> []) by (intros ->; destruct (predicted_tags st); done).
  rewrite is_accurate_floor in Hacc by done. injection Hacc as <-. done.
Qed.

(** With answer models that never prefer tag 1, every row of the matrix
    prefers tag 0 or ties, so each problem is predicted as choice 0 and
    counts exactly when its correct index is 0. *)
Lemma test_loop_unconfident question_model answer_models is_training data st0 st' :
  Forall never_confident answer_models ->
  predicted_tags st0 <> [] -> Forall (fun r : row => (r.2 <= r.1)%Q) (predicted_tags st0) ->
  py_foldM (test_step question_model answer_models is_training) st0 data = Ok st' ->
  sumAccuracy st' = sumAccuracy st0 + length (filter (fun p => ans_index p = 0%Z) data).
Proof.
  intros Hm. revert st0. induction data as [|p data IH]; intros st0 Hne Hall Hf; simpl in Hf.
  - injection Hf as <-. simpl. lia.
  - apply py_bind_Ok_inv in Hf as (st1 & Hstep & Hrest).
    destruct (test_step_unconfident _ _ _ _ _ _ Hm Hne Hall Hstep) as (Hne1 & Hall1 & Hs1).
    rewrite (IH _ Hne1 Hall1 Hrest), Hs1, filter_cons.
    case_decide as Hp.
    + rewrite Hp, Z.eqb_refl. cbn [length]. lia.
    + rewrite (proj2 (Z.eqb_neq 0 (ans_index p))) by congruence. lia.
Qed.

Lemma zeros_tags_unconfident :
  zeros_tags <> [] /\ Forall (fun r : row => (r.2 <= r.1)%Q) zeros_tags.
Proof.
  split; [unfold zeros_tags; intros Hz; vm_compute in Hz; discriminate|].
  apply Forall_replicate. apply Qle_refl.
Qed.

(** With answer models that never prefer tag 1, [test] credits every
    problem whose correct index is 0 and no other. *)
Lemma test_unconfident_accuracy question_model answer_models data is_training sum reps :
  Forall never_confident answer_models ->
  test question_model answer_models data is_training = Ok (sum, reps) ->
  sum = length (filter (fun p => ans_index p = 0%Z) data).
Proof.
  intros Hm. unfold test. intros (st & Hst & [= <- _])%py_bind_Ok_inv.
  destruct zeros_tags_unconfident as [Hne Hall].
  by rewrite (test_loop_unconfident _ _ _ _ (mkTestState 0 [] zeros_tags) _ Hm Hne Hall Hst).
Qed.

(** C6: A confident row left in [predicted_tags] by an earlier problem, past
    the choices of the current one, whose tag-1 score beats every fresh
    row's candidate score, makes [is_accurate] pick a nonexistent
    choice: the problem is counted wrong and the [except] branch prints
    "Model doesn't think any of the answers is correct". *)
Theorem test_step_stale_noanswer question_model answer_models is_training st p st' k (rk : row) :
  test_step question_model answer_models is_training st p = Ok st' ->
  length (choices p) <= k -> predicted_tags st !! k = Some rk -> (rk.1 < rk.2)%Q ->
  (forall i ri, i < length (choices p) -> predicted_tags st' !! i = Some ri -> (cand_score ri < rk.2)%Q) ->
  sumAccuracy st' = sumAccuracy st /\ exists c, reports st' = reports st ++ [NoAnswer c].
Proof.
  intros Hstep Hk Hrk Hc. pose proof (test_step_rows _ _ _ _ _ _ Hstep) as [_ Hframe].
  specialize (Hframe k Hk). rewrite Hrk in Hframe.
  revert Hstep Hframe. unfold test_step.
  intros (qo & _ & (tags & _ & H3)%py_bind_Ok_inv)%py_bind_Ok_inv.
  apply py_bind_Ok_inv in H3 as ([b i] & Hacc & (rep & Hrep & [= <-])%py_bind_Ok_inv).
  simpl. intros Hframe Hfresh.
  assert (Hne : tags <> []) by (intros ->; done).
  destruct (is_accurate_argmax tags (ans_index p) Hne) as (i' & Hi' & x & Hx & Hmax & _).
  rewrite Hacc in Hi'. injection Hi' as -> <-.
  assert (Hki : length (choices p) <= i).
  { destruct (Nat.le_gt_cases (length (choices p)) i) as [|Hlt]; [done|exfalso].
    apply list_lookup_fmap_Some in Hx as (ri & -> & Hri).
    pose proof (Hmax k (cand_score rk) ltac:(apply list_lookup_fmap_Some; eauto)) as Hle.
    rewrite cand_score_cand in Hle by done.
    exact (Qlt_not_le _ _ (Hfresh i ri Hlt Hri) Hle). }
  unfold report_of in Hrep. destruct (py_index_z (choices p) (ans_index p)) as [c|] eqn:Hz; [|discriminate].
  cbn [snd] in Hrep. rewrite (proj2 (py_index_Exc _ _) Hki) in Hrep. injection Hrep as <-.
  apply py_index_z_Ok_lt in Hz.
  rewrite (proj2 (Z.eqb_neq _ _)) by lia. split; [simpl; lia | eauto].
Qed.

(** C21: [NUM_ANSWERS] comes from the first training problem, and [train]
    reads [choices[j]] for every [j < NUM_ANSWERS]: it completes only
    when every problem has at least [NUM_ANSWERS] choices. *)
Theorem train_needs_all_choices training_data n_epochs st :
  0 < n_epochs -> train training_data n_epochs = Ok st ->
  Forall (fun p => NUM_ANSWERS <= length (choices p)) training_data.
Proof.
  intros Hn Htrain. apply Forall_forall. intros p Hp.
  assert (HN : NUM_ANSWERS = 4) by (vm_compute; reflexivity).
  unfold train in Htrain.
  destruct (py_foldM_Ok_visit _ _ _ _ (NUM_ANSWERS - 1) Htrain) as (s1 & s2 & Hph);
    [apply elem_of_seq; lia|].
  unfold train_phase in Hph.
  destruct (py_foldM_Ok_visit _ _ _ _ 0 Hph) as (s3 & s4 & He); [apply elem_of_seq; lia|].
  destruct (py_foldM_Ok_visit _ _ _ _ p He) as (s5 & s6 & Hex); [done|].
  unfold train_example in Hex. apply py_bind_Ok_inv in Hex as (am & _ & (c & Hc & _)%py_bind_Ok_inv).
  apply py_index_Ok, lookup_lt_Some in Hc. lia.
Qed.
End Training.
End Script2Train.

Module Script2TrainFacts.
Import Script2 Script2Rnn Script2Train Script2Data.
Local Open Scope string_scope.

(** Models with hidden size 0: the output layer of an answer model only
    adds its bias, so the model scores every word with the log-softmax
    of that bias.  [log_softmax] is bounded by the largest entry. *)
#[local] Existing Instance max_entry_lse.

Definition unit_question_model (n : nat) : QuestionRNN :=
  mkQuestionRNN n 0 (fun _ => []) (fun _ h => ([], h)) 1.

Definition const_answer_model (n : nat) (r : row) : AnswerRNN :=
  mkAnswerRNN n 0 (fun _ => []) (fun _ h => ([], h)) 1 ([], []) r.

(** A problem with four choices whose answer is the fourth, then a
    problem with three choices whose answer is the first. *)
Definition p_full : problem := mk_problem "a" [PyInt 1; PyInt 2; PyInt 3; PyInt 4] 3.
Definition p_short : problem := mk_problem "b" [PyInt 1; PyInt 2; PyInt 3] 0.

(** Answer models 0-2 prefer tag 0, answer model 3 prefers tag 1. *)
Definition stale_models : list (AnswerRNN) :=
  [const_answer_model 50 (0, -1)%Q; const_answer_model 50 (0, -1)%Q;
   const_answer_model 50 (0, -1)%Q; const_answer_model 50 (-1, 0)%Q].

Definition run_test (data : list problem) : pyres (nat * list report) :=
  test (createQuestionDictionary data) ∅ (createAnswerDictionary data) ∅
       (unit_question_model 50) stale_models data true.

(** ** Witnesses *)

Definition w_data : list problem := [p_full; p_short].

(** [test_step] of [run_test] on one problem. *)
Definition w_step (st : test_state) (p : problem) : pyres test_state :=
  test_step (createQuestionDictionary w_data) ∅ (createAnswerDictionary w_data) ∅
            (unit_question_model 50) stale_models true st p.

(** The matrix after the full problem: row 3 holds answer model 3's row. *)
Definition w_rows : list row := [(0, -1); (0, -1); (0, -1); (-1, 0)]%Q.
Definition w_st1 : test_state := mkTestState 1 [Predicted (PyInt 4) (PyInt 4)] w_rows.
Definition w_st2 : test_state :=
  mkTestState 1 [Predicted (PyInt 4) (PyInt 4); NoAnswer (PyInt 1)] w_rows.

Lemma test_step_stale_rows_witness :
  w_step w_st1 p_short = Ok w_st2 /\
  length (predicted_tags w_st2) = length (predicted_tags w_st1) /\
  forall i, length (choices p_short) <= i -> predicted_tags w_st2 !! i = predicted_tags w_st1 !! i.
Proof.
  assert (Hs : w_step w_st1 p_short = Ok w_st2) by (vm_compute; reflexivity).
  split; [exact Hs|]. exact (test_step_stale_rows _ _ _ _ _ _ _ _ _ _ Hs).
Defined.

Lemma test_all_predicted_witness :
  Forall (fun p => length (choices p) = NUM_ANSWERS) [p_full] /\
  run_test [p_full] = Ok (1, [Predicted (PyInt 4) (PyInt 4)]) /\
  Forall is_predicted [Predicted (PyInt 4) (PyInt 4)].
Proof.
  assert (Hf : Forall (fun p => length (choices p) = NUM_ANSWERS) [p_full]) by vm_decide.
  assert (Ht : run_test [p_full] = Ok (1, [Predicted (PyInt 4) (PyInt 4)])) by (vm_compute; reflexivity).
  do 2 (split; [assumption|]). exact (test_all_predicted _ _ _ _ _ _ _ _ _ _ Hf Ht).
Defined.

(** After the full problem, row 3 of the matrix holds answer model 3's
    confident row; the short problem's fresh rows prefer tag 0. *)
Lemma test_step_stale_noanswer_witness :
  w_step w_st1 p_short = Ok w_st2 /\ length (choices p_short) <= 3 /\
  predicted_tags w_st1 !! 3 = Some ((-1)%Q, 0%Q) /\ ((-1) < 0)%Q /\
  (forall i ri, i < length (choices p_short) -> predicted_tags w_st2 !! i = Some ri -> (cand_score ri < 0)%Q) /\
  sumAccuracy w_st2 = sumAccuracy w_st1 /\ exists c, reports w_st2 = (reports w_st1 ++ [NoAnswer c])%list.
Proof.
  assert (Hs : w_step w_st1 p_short = Ok w_st2) by (vm_compute; reflexivity).
  assert (Hk : length (choices p_short) <= 3) by vm_decide.
  assert (Hrk : predicted_tags w_st1 !! 3 = Some ((-1)%Q, 0%Q)) by reflexivity.
  assert (Hc : ((-1) < 0)%Q) by reflexivity.
  assert (Hf : forall i ri, i < length (choices p_short) -> predicted_tags w_st2 !! i = Some ri ->
                 (cand_score ri < 0)%Q).
  { intros i ri Hi Hri. vm_compute in Hi.
    destruct i as [|[|[|i]]]; [..|lia]; vm_compute in Hri; injection Hri as <-; reflexivity. }
  do 5 (split; [assumption|]).
  exact (test_step_stale_noanswer _ _ _ _ _ _ _ _ _ _ 3 ((-1)%Q, 0%Q) Hs Hk Hrk Hc Hf).
Defined.

(** Four epochs of training on the full problem complete. *)
Definition w_full_train : pyres (QuestionRNN * list (AnswerRNN)) :=
  train (createQuestionDictionary [p_full]) ∅ (createAnswerDictionary [p_full]) ∅
        unit_question_model (fun _ n => const_answer_model n (0, 0)%Q) (fun q a _ _ _ => (q, a)) [p_full] 4.

Definition w_full_models : QuestionRNN * list (AnswerRNN) :=
  match w_full_train with Ok st => st | Exc _ => (unit_question_model 0, []) end.

Lemma train_needs_all_choices_witness :
  0 < 4 /\ w_full_train = Ok w_full_models /\
  Forall (fun p => NUM_ANSWERS <= length (choices p)) [p_full].
Proof.
  assert (Hn : 0 < 4) by lia.
  assert (Ht : w_full_train = Ok w_full_models) by (vm_compute; reflexivity).
  split; [exact Hn|]. split; [exact Ht|].
  exact (train_needs_all_choices _ _ _ _ _ _ _ _ _ _ Hn Ht).
Defined.

(** Training answer model 0 with a step that adds a layer to it. *)
Definition w_sgd (q : QuestionRNN) (a : AnswerRNN) (_ : string) (_ : pyval) (_ : nat) :=
  (q, mkAnswerRNN (a_input_size a) (a_hidden_size a) (a_embedding a) (a_gru a) (S (a_n_layers a))
                  (a_out_W a) (a_out_b a)).

Definition w_models : QuestionRNN * list (AnswerRNN) :=
  create_models (createQuestionDictionary w_data) (createAnswerDictionary w_data)
                unit_question_model (fun _ n => const_answer_model n (0, 0)%Q).

Definition w_phase (st : QuestionRNN * list (AnswerRNN)) :=
  train_phase (createQuestionDictionary w_data) ∅ (createAnswerDictionary w_data) ∅
              w_sgd w_data 2 st 0.

Definition w_trained : QuestionRNN * list (AnswerRNN) :=
  match w_phase w_models with Ok st => st | Exc _ => w_models end.

Lemma train_phase_frame_witness :
  w_phase w_models = Ok w_trained /\
  length w_trained.2 = length w_models.2 /\ forall k, k <> 0 -> w_trained.2 !! k = w_models.2 !! k.
Proof.
  assert (Hp : w_phase w_models = Ok w_trained) by (vm_compute; reflexivity).
  split; [exact Hp|]. exact (train_phase_frame _ _ _ _ _ _ _ _ _ _ Hp).
Defined.
End Script2TrainFacts.

Module Script1Train.
Import Script1 Script1Prep Script1Rnn.

Section Training1.
Context {P H : Type} `{!LogSumExp}.
(** The LSTM cell and the weights and bias of [hidden2tag] under the
    parameters [P] of [model1], and [init_hidden()]. *)
Context (lstm_cell : P -> list Q -> H -> list Q * H) (W : P -> list (list Q)) (b : P -> list Q).
Context (init_hidden : H).
(** [loss.backward(); optimizer.step()] for one example, from the
    parameters, the word indices and the target. *)
Context (sgd1 : P -> list nat -> Z -> P).

(** [nn.NLLLoss()(tag_scores, targets)]: the target must index the
    scores. *)
Definition nll_check (scores : list Q) (target : Z) : pyres unit :=
  if (0 <=? target)%Z && (target <? Z.of_nat (length scores))%Z then Ok tt else Exc IndexError.

(** One iteration of the training loop (lines 138-163): the hidden state
    is reset before the forward pass. *)
Definition train_step (word_to_ix : gmap string nat) (ps : P * state) (e : example) : pyres (P * state) :=
  let st0 := reset init_hidden ps.2 in
  sentence_in <- prepare_question (py_split e.1) word_to_ix ;;
  r <- forward (lstm_cell ps.1) (W ps.1) (b ps.1) st0 sentence_in ;;
  _ <- nll_check r.1 e.2 ;;
  Ok (sgd1 ps.1 sentence_in e.2, r.2).

(** [for epoch in range(1): for sentence, tags in trainingData: ...] *)
Definition train_loop (word_to_ix : gmap string nat) (ps : P * state) (data : list example) :=
  py_foldM (fun ps _ => py_foldM (train_step word_to_ix) ps data) ps (seq 0 1).

(** One iteration of an evaluation loop (lines 169-172, 180-183): the
    hidden state is not reset. *)
Definition eval_step (to_ix : gmap string nat) (params : P) (acc : nat * state) (e : example) :
    pyres (nat * state) :=
  inputs <- prepare_question (py_split e.1) to_ix ;;
  r <- forward (lstm_cell params) (W params) (b params) acc.2 inputs ;;
  index <- argmax r.1 ;;
  Ok (acc.1 + (if Z.eqb (Z.of_nat index) e.2 then 1 else 0), r.2).

Definition evaluate (to_ix : gmap string nat) (params : P) (st : state) (data : list example) :=
  py_foldM (eval_step to_ix params) (0, st) data.

(** Lines 135-187, from [model1]: one epoch of training, the evaluation
    on the training data, and the evaluation on the test data with the
    test vocabulary, continuing from the hidden state left by the first
    evaluation.  Returns the two numbers of correct answers. *)
Definition script1_main (params0 : P) (model1 : state) (trainingData testData : list example) :
    pyres (nat * nat) :=
  let word_to_ix := createWordDictionary trainingData in
  ps <- train_loop word_to_ix (params0, model1) trainingData ;;
  r1 <- evaluate word_to_ix ps.1 ps.2 trainingData ;;
  let testDataDict := createWordDictionary testData in
  r2 <- evaluate testDataDict ps.1 r1.2 testData ;;
  Ok (r1.1, r2.1).

(** The script from line 66 on: the vocabulary, [model1] (line 124),
    [model2 = LSTMmath(EMBEDDING_DIM, HIDDEN_DIM, None, 4)] (line 125),
    then lines 135-187. *)
Definition script1 (params0 : P) (trainingData testData : list example) : pyres (nat * nat) :=
  let word_to_ix := createWordDictionary trainingData in
  model1 <- LSTMmath_init init_hidden (Some (size word_to_ix)) ;;
  model2 <- LSTMmath_init init_hidden None ;;
  script1_main params0 model1 trainingData testData.

(** ** Theorems *)

(** C19: Training resets [self.hidden] before every example (line 147): a
    training step does not depend on the hidden state left by earlier
    steps. *)
Theorem train_step_history_free word_to_ix params st1 st2 e :
  vocab_size st1 = vocab_size st2 ->
  train_step word_to_ix (params, st1) e = train_step word_to_ix (params, st2) e.
Proof. intros Hv. unfold train_step, reset. simpl. by rewrite Hv. Qed.

(** With [hidden2tag = nn.Linear(hidden_dim, 101)], every forward pass
    gives 101 scores. *)
Lemma scores_length params x :
  length (W params) = 101 /\ length (b params) = 101 ->
  length (log_softmax (nn_linear (W params) (b params) x)) = 101.
Proof. intros [HW Hb]. by rewrite length_log_softmax, length_linear, HW, Hb. Qed.

(** The question of an example of [data] is prepared into a non-empty
    list of indices inside the vocabulary of [data]. *)
Lemma prepare_nonempty_in_vocab (data : list example) q a :
  (q, a) ∈ data -> py_split q <> [] ->
  exists idxs, prepare_question (py_split q) (createWordDictionary data) = Ok idxs /\
    idxs <> [] /\ Forall (fun i => i < size (createWordDictionary data)) idxs.
Proof.
  intros Hq Hne. destruct (prepare_question_found data q a Hq) as (idxs & Hp & H2 & Hb).
  exists idxs. split; [done|]. split; [|done].
  intros ->. apply Forall2_length in H2. destruct (py_split q); [done|discriminate].
Qed.

(** Proof of [train_loop_ok], used by the lemmas that follow. *)
Lemma train_loop_runs params h (data : list example) :
  (forall p, length (W p) = 101 /\ length (b p) = 101) ->
  Forall (fun e : example => py_split e.1 <> [] /\ (0 <= e.2 < 101)%Z) data ->
  exists r, train_loop (createWordDictionary data)
              (params, mkState h (size (createWordDictionary data))) data = Ok r /\
            vocab_size r.2 = size (createWordDictionary data).
Proof.
  intros H101 Hdata. set (d := createWordDictionary data).
  assert (Hgen : forall l ps, (forall e, e ∈ l -> e ∈ data) -> vocab_size ps.2 = size d ->
            exists r, py_foldM (train_step d) ps l = Ok r /\ vocab_size r.2 = size d).
  { induction l as [|[q a] l IH]; intros [params' st] Hsub Hv; simpl in *; [eauto|].
    assert (Hin : (q, a) ∈ data) by (apply Hsub; left).
    pose proof (proj1 (Forall_forall _ _) Hdata _ Hin) as [Hne Ha]; simpl in Hne, Ha.
    destruct (prepare_nonempty_in_vocab data q a Hin Hne) as (idxs & Hp & Hne' & Hb).
    unfold train_step at 1. cbn [fst snd]. fold d in Hp, Hb. rewrite Hp, py_bind_Ok.
    destruct (forward_spec (lstm_cell params') (W params') (b params') (reset init_hidden st) idxs Hne')
      as (out & _ & ->); [simpl; by rewrite Hv|].
    rewrite py_bind_Ok. cbn [fst snd].
    unfold nll_check. rewrite scores_length by done.
    replace ((0 <=? a)%Z && (a <? Z.of_nat 101)%Z) with true
      by (symmetry; apply andb_true_iff; split; [apply Z.leb_le | apply Z.ltb_lt]; lia).
    simpl. apply IH; [intros; apply Hsub; by right | done]. }
  destruct (Hgen data (params, mkState h (size d)) (fun e He => He)) as (r & Hr & Hv); [reflexivity|].
  exists r. unfold train_loop. cbn [seq py_foldM]. by rewrite Hr.
Qed.

(** C30: One epoch of training on [data] with the vocabulary of [data] never
    raises, when every question has a word, every target is one of the
    101 classes, and the output layer has 101 scores. *)
Theorem train_loop_ok params h (data : list example) :
  (forall p, length (W p) = 101 /\ length (b p) = 101) ->
  Forall (fun e : example => py_split e.1 <> [] /\ (0 <= e.2 < 101)%Z) data ->
  exists r, train_loop (createWordDictionary data)
              (params, mkState h (size (createWordDictionary data))) data = Ok r /\
            vocab_size r.2 = size (createWordDictionary data).
Proof. apply train_loop_runs. Qed.

Lemma argmax_ok scores : scores <> [] -> exists i, argmax scores = Ok i.
Proof.
  intros Hne. unfold argmax. destruct (py_max_nonempty scores Hne) as [m Hm].
  rewrite Hm, py_bind_Ok. apply py_list_index_found, (py_max_spec _ _ Hm).
Qed.

(** An evaluation loop never raises when every question is prepared into
    a non-empty list of indices inside the model's one-hot table and the
    output layer gives some scores; the table is unchanged. *)
Lemma evaluate_ok to_ix params st (data : list example) :
  length (W params) = 101 /\ length (b params) = 101 ->
  (forall e, e ∈ data -> exists idxs, prepare_question (py_split e.1) to_ix = Ok idxs /\
                          idxs <> [] /\ Forall (fun i => i < vocab_size st) idxs) ->
  exists r, evaluate to_ix params st data = Ok r /\ vocab_size r.2 = vocab_size st.
Proof.
  intros Hscores Hdata. unfold evaluate. generalize 0 as n.
  enough (Hgen : forall st' n, vocab_size st' = vocab_size st ->
            exists r, py_foldM (eval_step to_ix params) (n, st') data = Ok r /\ vocab_size r.2 = vocab_size st)
    by (intros n; by apply Hgen).
  induction data as [|e data IH]; intros st' n Hv; simpl; [eauto|].
  destruct (Hdata e ltac:(left)) as (idxs & Hp & Hne & Hb).
  unfold eval_step at 1. cbn [fst snd]. rewrite Hp, py_bind_Ok.
  destruct (forward_spec (lstm_cell params) (W params) (b params) st' idxs Hne)
    as (out & _ & ->); [by rewrite Hv|].
  rewrite py_bind_Ok. cbn [fst snd].
  destruct (argmax_ok (log_softmax (nn_linear (W params) (b params) out))) as [i ->].
  { intros Hnil. pose proof (scores_length params out Hscores) as Hl. by rewrite Hnil in Hl. }
  simpl. apply IH; [intros; apply Hdata; by right | done].
Qed.

(** C17: The evaluation loops never reset [self.hidden]: they run the LSTM
    over all the questions as one sequence, and leave [self.hidden] at
    the state the cell reaches from the initial one over the
    concatenated questions.  The scores of a question therefore depend
    on every question evaluated before it. *)
Theorem evaluate_hidden_stream to_ix params st data idxss :
  0 < length (W params) -> 0 < length (b params) ->
  Forall2 (fun (e : example) idxs => prepare_question (py_split e.1) to_ix = Ok idxs /\ idxs <> []) data idxss ->
  Forall (fun i => i < vocab_size st) (concat idxss) ->
  exists n, evaluate to_ix params st data =
    Ok (n, mkState (run_lstm (lstm_cell params) (map (one_hot (vocab_size st)) (concat idxss)) (hidden st)).2
                   (vocab_size st)).
Proof.
  intros HW Hb Hdata. unfold evaluate. generalize 0 as n0. revert st.
  induction Hdata as [|e idxs data idxss [Hp Hne] Hrest IH]; intros st n0 Hin; simpl; [by exists n0; destruct st|].
  apply Forall_app in Hin as [Hin1 Hin2].
  unfold eval_step at 1. cbn [fst snd]. rewrite Hp, py_bind_Ok.
  destruct (forward_spec (lstm_cell params) (W params) (b params) st idxs Hne Hin1) as (out & _ & ->).
  rewrite py_bind_Ok. cbn [fst snd].
  destruct (argmax_ok (log_softmax (nn_linear (W params) (b params) out))) as [i ->].
  { rewrite <- length_zero_iff_nil, length_log_softmax, length_linear. lia. }
  rewrite py_bind_Ok. cbn [fst snd].
  destruct (IH (mkState (run_lstm (lstm_cell params) (map (one_hot (vocab_size st)) idxs) (hidden st)).2
                        (vocab_size st)) (n0 + (if Z.eqb (Z.of_nat i) e.2 then 1 else 0)) Hin2) as [n Hn].
  exists n. rewrite py_bind_Ok, Hn. by rewrite map_app, run_lstm_app.
Qed.
End Training1.

Lemma script1_training_data_ok :
  Forall (fun e : example => py_split e.1 <> [] /\ (0 <= e.2 < 101)%Z) Script1Data.trainingData.
Proof. vm_decide. Qed.

Lemma script1_test_data_nonempty : Forall (fun e : example => py_split e.1 <> []) Script1Data.testData.
Proof. vm_decide. Qed.

Lemma script1_test_vocab_fits :
  size (createWordDictionary Script1Data.testData) <= size (createWordDictionary Script1Data.trainingData).
Proof. vm_decide. Qed.

Section Script1Run.
Context {P H : Type} `{!LogSumExp}.
Context (lstm_cell : P -> list Q -> H -> list Q * H) (W : P -> list (list Q)) (b : P -> list Q).
Context (init_hidden : H) (sgd1 : P -> list nat -> Z -> P).

(** C18: From [model1] on, for any LSTM cell and any [hidden2tag] layer
    with the 101 rows of [tag_to_ix], lines 135-187 of script 1 run to
    the end on its data: training, evaluation on the training data, and
    evaluation on the test data (whose vocabulary, 36 words, fits in the
    49 rows of the one-hot table). *)
Theorem script1_runs params0 :
  (forall p, length (W p) = 101 /\ length (b p) = 101) ->
  is_ok (script1_main lstm_cell W b init_hidden sgd1 params0
           (mkState init_hidden (size (createWordDictionary Script1Data.trainingData)))
           Script1Data.trainingData Script1Data.testData) = true.
Proof.
  intros H101. unfold script1_main.
  destruct (train_loop_runs lstm_cell W b init_hidden sgd1 params0 init_hidden Script1Data.trainingData H101)
    as (ps & Hps & Hv); [apply script1_training_data_ok|].
  rewrite Hps, py_bind_Ok.
  destruct (evaluate_ok lstm_cell W b (createWordDictionary Script1Data.trainingData) ps.1 ps.2
              Script1Data.trainingData (H101 ps.1)) as (r1 & Hr1 & Hv1).
  { intros [q a] He. rewrite Hv. cbn [fst]. apply (prepare_nonempty_in_vocab _ q a); [done|].
    exact (proj1 (proj1 (Forall_forall _ _) script1_training_data_ok _ He)). }
  rewrite Hr1, py_bind_Ok.
  destruct (evaluate_ok lstm_cell W b (createWordDictionary Script1Data.testData) ps.1 r1.2
              Script1Data.testData (H101 ps.1)) as (r2 & Hr2 & _).
  { intros [q a] He. destruct (prepare_nonempty_in_vocab Script1Data.testData q a He) as (idxs & Hp & Hn & Hb).
    - exact (proj1 (Forall_forall _ _) script1_test_data_nonempty _ He).
    - exists idxs. split; [done|]. split; [done|]. eapply Forall_impl; [exact Hb|]. intros i Hi.
      rewrite Hv1, Hv. eapply Nat.lt_le_trans; [exact Hi | exact script1_test_vocab_fits]. }
  by rewrite Hr2.
Qed.

End Script1Run.

(** ** Witnesses *)

(** An LSTM cell whose output is the number of words it has read, two
    scores, and the question "x" twice. *)
Definition w_count_cell (_ : unit) (_ : list Q) (h : nat) : list Q * nat := ([inject_Z (Z.of_nat h)], S h).
Definition w_W2 (_ : unit) : list (list Q) := [[-1]; [1]]%Q.
Definition w_b2 (_ : unit) : list Q := [1#2; 0]%Q.
Definition w_xx : list example := [("x"%string, 0%Z); ("x"%string, 0%Z)].

Lemma evaluate_hidden_stream_witness :
  0 < length (w_W2 tt) /\ 0 < length (w_b2 tt) /\
  Forall2 (fun (e : example) idxs => prepare_question (py_split e.1) (createWordDictionary w_xx) = Ok idxs /\
                                     idxs <> []) w_xx [[0]; [0]] /\
  Forall (fun i => i < vocab_size (mkState 0 1)) (concat [[0]; [0]]) /\
  exists n, @evaluate _ _ max_entry_lse w_count_cell w_W2 w_b2 (createWordDictionary w_xx) tt (mkState 0 1) w_xx =
    Ok (n, mkState (run_lstm (w_count_cell tt) (map (one_hot (vocab_size (mkState 0 1))) (concat [[0]; [0]]))
                             (hidden (mkState 0 1))).2 (vocab_size (mkState 0 1))).
Proof.
  assert (HW : 0 < length (w_W2 tt)) by (simpl; lia).
  assert (Hb : 0 < length (w_b2 tt)) by (simpl; lia).
  assert (Hd : Forall2 (fun (e : example) idxs =>
                 prepare_question (py_split e.1) (createWordDictionary w_xx) = Ok idxs /\ idxs <> [])
                 w_xx [[0]; [0]])
    by (repeat constructor; first [vm_compute; reflexivity | discriminate]).
  assert (Hin : Forall (fun i => i < vocab_size (mkState 0 1)) (concat [[0]; [0]])) by vm_decide.
  do 4 (split; [assumption|]).
  exact (@evaluate_hidden_stream _ _ max_entry_lse w_count_cell w_W2 w_b2 _ tt _ _ _ HW Hb Hd Hin).
Defined.

(** An LSTM cell over the one-point parameters with a counter as hidden
    state, a [hidden2tag] layer with 101 rows, and plain SGD that leaves
    the parameters. *)
Definition w_cell (_ : unit) (_ : list Q) (h : nat) : list Q * nat := ([1%Q], S h).
Definition w_W (_ : unit) : list (list Q) := repeat [1%Q] 101.
Definition w_b (_ : unit) : list Q := repeat 0%Q 101.
Definition w_sgd1 (p : unit) (_ : list nat) (_ : Z) : unit := p.
Definition w_examples : list example := [("How many apples"%string, 3%Z); ("Add 2 and 3"%string, 5%Z)].

Lemma train_step_history_free_witness :
  vocab_size (mkState 0 7) = vocab_size (mkState 5 7) /\
  @train_step _ _ max_entry_lse w_cell w_W w_b 0 w_sgd1 (createWordDictionary w_examples)
    (tt, mkState 0 7) ("Add 2 and 3"%string, 5%Z) =
  @train_step _ _ max_entry_lse w_cell w_W w_b 0 w_sgd1 (createWordDictionary w_examples)
    (tt, mkState 5 7) ("Add 2 and 3"%string, 5%Z).
Proof.
  assert (Hv : vocab_size (mkState 0 7) = vocab_size (mkState 5 7)) by reflexivity.
  split; [exact Hv|]. exact (@train_step_history_free _ _ max_entry_lse _ _ _ _ _ _ _ _ _ _ Hv).
Defined.

Lemma train_loop_ok_witness :
  (forall p, length (w_W p) = 101 /\ length (w_b p) = 101) /\
  Forall (fun e : example => py_split e.1 <> [] /\ (0 <= e.2 < 101)%Z) w_examples /\
  exists r, @train_loop _ _ max_entry_lse w_cell w_W w_b 0 w_sgd1 (createWordDictionary w_examples)
              (tt, mkState 0 (size (createWordDictionary w_examples))) w_examples = Ok r /\
            vocab_size r.2 = size (createWordDictionary w_examples).
Proof.
  assert (H101 : forall p, length (w_W p) = 101 /\ length (w_b p) = 101) by (intros; split; reflexivity).
  assert (Hd : Forall (fun e : example => py_split e.1 <> [] /\ (0 <= e.2 < 101)%Z) w_examples) by vm_decide.
  do 2 (split; [assumption|]). exact (@train_loop_ok _ _ max_entry_lse _ _ _ _ _ _ _ _ H101 Hd).
Defined.

Lemma script1_runs_witness :
  (forall p, length (w_W p) = 101 /\ length (w_b p) = 101) /\
  is_ok (@script1_main _ _ max_entry_lse w_cell w_W w_b 0 w_sgd1 tt
           (mkState 0 (size (createWordDictionary Script1Data.trainingData)))
           Script1Data.trainingData Script1Data.testData) = true.
Proof.
  assert (H101 : forall p, length (w_W p) = 101 /\ length (w_b p) = 101) by (intros; split; reflexivity).
  split; [exact H101 | exact (@script1_runs _ _ max_entry_lse w_cell w_W w_b 0 w_sgd1 tt H101)].
Defined.
End Script1Train.
