(* ===== verification/Script2Run.v ===== *)
(** * Script 2 from end to end

    The module-level lines 377-381 of [src/mathQA_multiRNN.py]:
    [train(trainingData, 10)], then [test] on the training data and on
    the test data with the trained models.  The vocabularies are the four
    global dictionaries of lines 81-87; the models, their construction
    and the optimizer step stay parameters.

    The main theorem says the script terminates normally on its data for
    every model implementation whose embeddings have the sizes the
    script asks for: no KeyError, no IndexError of an embedding, of
    [question_outputs], of [answer_models] or of [predicted_tags], no
    UnboundLocalError, no ValueError of [max].  The data facts it needs
    are checked by evaluation ([problem_fits]); the rest is proved for
    any models.  A second theorem follows the never-confident answer
    models through [train] and both calls of [test]: the script credits
    them with exactly the problems whose correct index is 0. *)

From S2P Require Import Prelude PyStr Vocab Data Predict Layers Prepare Rnn Train.
From Stdlib Require Import QArith.

Local Open Scope nat_scope.
#[local] Set Warnings "-clear-no-such-hyp".

Module Script2Run.
Import Script2 Script2Prep Script2Rnn Script2Data Script2Train.

(** ** What a problem needs for the script to go through *)

(** The question is read into indices below [n] (the rows of the
    question embedding), at most [MAX_LENGTH] of them. *)
Definition question_fits (d : gmap string nat) (n : nat) (q : string) : bool :=
  match prepare_question q d with
  | Ok idxs => forallb (fun i => i <? n) idxs && (List.length idxs <=? MAX_LENGTH)
  | Exc _ => false
  end.

(** A choice is read into a non-empty list of indices below [n]. *)
Definition answer_fits (is_training : bool) (n : nat) (c : pyval) : bool :=
  match prepare_answer c is_training train_answer_word_to_ix test_answer_word_to_ix with
  | Ok idxs => forallb (fun i => i <? n) idxs && negb (bool_decide (idxs = []))
  | Exc _ => false
  end.

(** A problem of the training ([is_training]) or test data: its question
    and choices fit the embeddings of the models built by
    [create_models], it has [NUM_ANSWERS] choices and its correct index
    names one of them. *)
Definition problem_fits (is_training : bool) (p : problem) : bool :=
  question_fits (if is_training then train_question_word_to_ix else test_question_word_to_ix)
                (size train_question_word_to_ix) (question p) &&
  (List.length (choices p) =? NUM_ANSWERS) &&
  forallb (answer_fits is_training (size train_answer_word_to_ix)) (choices p) &&
  is_ok (py_index_z (choices p) (ans_index p)).

Lemma problem_fits_spec (is_training : bool) p :
  problem_fits is_training p = true ->
  question_fits (if is_training then train_question_word_to_ix else test_question_word_to_ix)
                (size train_question_word_to_ix) (question p) = true /\
  List.length (choices p) = NUM_ANSWERS /\
  (forall c, c ∈ choices p -> answer_fits is_training (size train_answer_word_to_ix) c = true) /\
  exists c, py_index_z (choices p) (ans_index p) = Ok c.
Proof.
  unfold problem_fits. rewrite !andb_true_iff, Nat.eqb_eq, forallb_forall, is_ok_Ok.
  intros (((Hq & Hl) & Ha) & Hi). do 2 (split; [done|]). split; [|done].
  intros c Hc. apply Ha, list_elem_of_In, Hc.
Qed.

Lemma forallb_ltb_Forall (l : list nat) n :
  forallb (fun i => i <? n) l = true -> Forall (fun i => i < n) l.
Proof.
  intros Hl. apply Forall_forall. intros i Hi. apply Nat.ltb_lt.
  exact (proj1 (forallb_forall _ _) Hl i (proj1 (list_elem_of_In _ _) Hi)).
Qed.

(** Every problem of the script's data fits, checked by evaluation. *)
Lemma training_problems_fit : Forall (fun p => problem_fits true p = true) trainingData.
Proof. vm_decide. Qed.

Lemma test_problems_fit : Forall (fun p => problem_fits false p = true) testData.
Proof. vm_decide. Qed.

Section Run.
Context `{!LogSumExp}.
Context (new_question_model : nat -> QuestionRNN) (new_answer_model : nat -> nat -> AnswerRNN).
Context (sgd_step : QuestionRNN -> AnswerRNN -> string -> pyval -> nat ->
                    QuestionRNN * AnswerRNN).

(** [question_model, answer_models = train(trainingData, 10)],
    [accuracy1 = test(..., trainingData, True)],
    [accuracy2 = test(..., testData)]. *)
Definition script2 (n_epochs : nat) : pyres ((nat * list report) * (nat * list report)) :=
  models <- train train_question_word_to_ix test_question_word_to_ix
                  train_answer_word_to_ix test_answer_word_to_ix
                  new_question_model new_answer_model sgd_step trainingData n_epochs ;;
  accuracy1 <- test train_question_word_to_ix test_question_word_to_ix
                    train_answer_word_to_ix test_answer_word_to_ix models.1 models.2 trainingData true ;;
  accuracy2 <- test train_question_word_to_ix test_question_word_to_ix
                    train_answer_word_to_ix test_answer_word_to_ix models.1 models.2 testData false ;;
  Ok (accuracy1, accuracy2).

(** The models of the script keep the sizes of their embeddings: the
    constructors build embeddings of the size they are given, and an
    optimizer step changes weights, not shapes. *)
Hypothesis new_question_model_size : forall n, q_input_size (new_question_model n) = n.
Hypothesis new_answer_model_size : forall i n, a_input_size (new_answer_model i n) = n.
Hypothesis sgd_step_sizes : forall q a s c t,
  q_input_size (sgd_step q a s c t).1 = q_input_size q /\
  a_input_size (sgd_step q a s c t).2 = a_input_size a.

#[local] Abbreviation TQ := train_question_word_to_ix.
#[local] Abbreviation TEQ := test_question_word_to_ix.
#[local] Abbreviation TA := train_answer_word_to_ix.
#[local] Abbreviation TEA := test_answer_word_to_ix.

(** The models built by [create_models] and kept by [train]. *)
Definition models_fit (st : QuestionRNN * list (AnswerRNN)) : Prop :=
  q_input_size st.1 = size TQ /\ List.length st.2 = NUM_ANSWERS /\
  Forall (fun a => a_input_size a = size TA) st.2.

Lemma question_runs (is_training : bool) (qm : QuestionRNN) q :
  q_input_size qm = size TQ -> question_fits (if is_training then TQ else TEQ) (size TQ) q = true ->
  exists r, process_question q qm is_training TQ TEQ = Ok r.
Proof.
  intros Hs Hf. unfold question_fits in Hf.
  destruct (prepare_question q (if is_training then TQ else TEQ)) as [idxs|] eqn:Hp; [|discriminate].
  apply andb_true_iff in Hf as [Hin Hlen%Nat.leb_le].
  apply is_ok_Ok. unfold process_question. rewrite Hp, py_bind_Ok.
  apply question_loop_ok; rewrite length_replicate; [lia|]. rewrite Hs.
  split; [by apply forallb_ltb_Forall | lia].
Qed.

Lemma answer_runs (is_training : bool) (am : AnswerRNN) (h : list Q) c :
  a_input_size am = size TA -> answer_fits is_training (size TA) c = true ->
  exists r, process_answer c am h is_training TA TEA = Ok r.
Proof.
  intros Hs Hf. unfold answer_fits in Hf.
  destruct (prepare_answer c is_training TA TEA) as [idxs|] eqn:Hp; [|discriminate].
  apply andb_true_iff in Hf as [Hin Hne].
  apply (process_answer_ok c am h is_training TA TEA idxs Hp).
  - intros ->. by compute in Hne.
  - rewrite Hs. by apply forallb_ltb_Forall.
Qed.

(** One step of [train] succeeds and keeps the model sizes. *)
Lemma train_example_runs j st p :
  j < NUM_ANSWERS -> problem_fits true p = true -> models_fit st ->
  exists st', train_example TQ TEQ TA TEA sgd_step j st p = Ok st' /\
              models_fit st'.
Proof.
  intros Hj Hp (Hq & Hl & Ha). destruct (problem_fits_spec true p Hp) as (Hqf & Hlc & Haf & _).
  destruct (lookup_lt_is_Some_2 st.2 j) as [am Ham]; [lia|].
  destruct (lookup_lt_is_Some_2 (choices p) j) as [c Hc]; [lia|].
  destruct (question_runs true st.1 (question p) Hq Hqf) as [qo Hqo].
  destruct (answer_runs true am qo.2 c (Forall_lookup_1 _ _ _ _ Ha Ham)
              (Haf c (list_elem_of_lookup_2 _ _ _ Hc))) as [r Hr].
  unfold train_example, train_one_AnswerRNN.
  rewrite (proj2 (py_index_Ok _ _ _) Ham), py_bind_Ok, (proj2 (py_index_Ok _ _ _) Hc), py_bind_Ok.
  rewrite Hqo, py_bind_Ok, Hr, !py_bind_Ok, py_setitem_Ok, py_bind_Ok by (simpl; lia).
  eexists; split; [reflexivity|].
  destruct (sgd_step_sizes st.1 am (question p) c (true_tag p j)) as [Hs1 Hs2].
  unfold models_fit; cbn [fst snd]. split; [by rewrite Hs1|]. split; [by rewrite length_insert|].
  apply Forall_insert; [done|]. rewrite Hs2. exact (Forall_lookup_1 _ _ _ _ Ha Ham).
Qed.

(** [train] on the script's data succeeds, whatever the number of
    epochs, and its models keep their sizes. *)
Lemma train_runs n_epochs :
  exists st, train TQ TEQ TA TEA new_question_model new_answer_model sgd_step
               trainingData n_epochs = Ok st /\ models_fit st.
Proof.
  unfold train. apply (py_foldM_ok models_fit).
  - intros st j Hj%elem_of_seq Hst. unfold train_phase.
    apply (py_foldM_ok models_fit); [|done]. intros st' e _ Hst'.
    apply (py_foldM_ok models_fit); [|done]. intros st'' p Hp Hst''.
    apply train_example_runs; [lia | | done].
    exact (proj1 (Forall_forall _ _) training_problems_fit p Hp).
  - unfold models_fit, create_models; cbn [fst snd].
    split; [apply new_question_model_size|]. split; [by rewrite length_map, length_seq|].
    apply Forall_map, Forall_forall. intros i _. apply new_answer_model_size.
Qed.

(** One problem of [test] succeeds and keeps the [NUM_ANSWERS] rows of
    [predicted_tags]. *)
Lemma test_step_runs (qm : QuestionRNN) (ams : list (AnswerRNN)) (is_training : bool) st p :
  models_fit (qm, ams) -> problem_fits is_training p = true ->
  List.length (predicted_tags st) = NUM_ANSWERS ->
  exists st', test_step TQ TEQ TA TEA qm ams is_training st p = Ok st' /\
              List.length (predicted_tags st') = NUM_ANSWERS.
Proof.
  intros (Hq & Hl & Ha) Hp Ht. cbn [fst snd] in Hq, Hl, Ha.
  destruct (problem_fits_spec is_training p Hp) as (Hqf & Hlc & Haf & c & Hc).
  destruct (question_runs is_training qm (question p) Hq Hqf) as [qo Hqo].
  destruct (py_foldM_ok (fun tags : list row => List.length tags = NUM_ANSWERS)
              (answers_step TA TEA ams qo.2 is_training) (predicted_tags st)
              (zip (seq 0 (List.length (choices p))) (choices p))) as (tags & Htags & Htl); [|done|].
  { intros tags [i a] Hia Htl.
    pose proof (elem_of_zip_l _ _ _ _ Hia) as Hi%elem_of_seq.
    destruct (lookup_lt_is_Some_2 ams i) as [am Ham]; [lia|].
    destruct (answer_runs is_training am qo.2 a (Forall_lookup_1 _ _ _ _ Ha Ham)
                (Haf a (elem_of_zip_r _ _ _ _ Hia))) as [r Hr].
    unfold answers_step. cbn [fst snd].
    rewrite (proj2 (py_index_Ok _ _ _) Ham), py_bind_Ok, Hr, py_bind_Ok, py_setitem_Ok by lia.
    eexists; split; [reflexivity|]. by rewrite length_insert. }
  destruct (is_accurate_argmax tags (ans_index p)) as (i & Hacc & _).
  { intros ->. rewrite Script2Facts.NUM_ANSWERS_value in Htl. discriminate. }
  unfold test_step. rewrite Hqo, py_bind_Ok, Htags, py_bind_Ok, Hacc, py_bind_Ok.
  unfold report_of. rewrite Hc. cbn [fst snd].
  destruct (py_index (choices p) i); rewrite py_bind_Ok; eexists; (split; [reflexivity|done]).
Qed.

Lemma test_runs (qm : QuestionRNN) (ams : list (AnswerRNN)) data (is_training : bool) :
  models_fit (qm, ams) -> Forall (fun p => problem_fits is_training p = true) data ->
  exists r, test TQ TEQ TA TEA qm ams data is_training = Ok r.
Proof.
  intros Hfit Hd. unfold test.
  destruct (py_foldM_ok (fun st => List.length (predicted_tags st) = NUM_ANSWERS)
              (test_step TQ TEQ TA TEA qm ams is_training)
              (mkTestState 0 [] zeros_tags) data) as (st & -> & _).
  - intros st p Hp Hst. apply test_step_runs; [done | | done].
    exact (proj1 (Forall_forall _ _) Hd p Hp).
  - apply length_replicate.
  - rewrite py_bind_Ok. eauto.
Qed.

(** C3: Script 2 terminates normally on its data: training for any
    number of epochs (the script uses 10) and the two test runs raise no
    exception, for every implementation of the layers whose embeddings
    have the sizes the script gives them. *)
Theorem script2_runs n_epochs :
  exists accuracy1 accuracy2, script2 n_epochs = Ok (accuracy1, accuracy2).
Proof.
  destruct (train_runs n_epochs) as ([qm ams] & Hst & Hfit).
  destruct (test_runs qm ams trainingData true Hfit training_problems_fit) as [r1 Hr1].
  destruct (test_runs qm ams testData false Hfit test_problems_fit) as [r2 Hr2].
  unfold script2. rewrite Hst, py_bind_Ok. cbn [fst snd]. rewrite Hr1, py_bind_Ok, Hr2, py_bind_Ok. eauto.
Qed.

(** C4: A model whose answer RNNs never prefer tag 1 (so built by
    [create_models], and kept so by the optimizer) is credited by the
    script, on both data sets, with exactly the problems whose correct
    index is 0: [is_accurate] falls back to choice 0 instead of choosing
    no answer, and [sumAccuracy] counts it. *)
Theorem script2_unconfident_accuracy n_epochs :
  (forall i n, never_confident (new_answer_model i n)) ->
  (forall q a s c t, never_confident a -> never_confident (sgd_step q a s c t).2) ->
  exists r1 r2, script2 n_epochs = Ok (r1, r2) /\
    r1.1 = List.length (filter (fun p => ans_index p = 0%Z) trainingData) /\
    r2.1 = List.length (filter (fun p => ans_index p = 0%Z) testData).
Proof.
  intros Hnew Hstep.
  destruct (train_runs n_epochs) as ([qm ams] & Hst & Hfit).
  pose proof (train_never_confident _ _ _ _ _ _ _ _ _ _ Hnew Hstep Hst) as Hnc. cbn [snd] in Hnc.
  destruct (test_runs qm ams trainingData true Hfit training_problems_fit) as [[s1 reps1] Hr1].
  destruct (test_runs qm ams testData false Hfit test_problems_fit) as [[s2 reps2] Hr2].
  exists (s1, reps1), (s2, reps2). unfold script2. rewrite Hst, py_bind_Ok. cbn [fst snd].
  rewrite Hr1, py_bind_Ok, Hr2, py_bind_Ok. split; [done|].
  split; eapply test_unconfident_accuracy; eassumption.
Qed.
End Run.

(** ** The accuracies of a model that never answers *)

#[local] Existing Instance max_entry_lse.


(** Answer models whose score rows never prefer tag 1 (both log-softmax
    scores equal) and an optimizer that changes nothing. *)
Definition w_answer_model (_ : nat) (n : nat) : AnswerRNN :=
  Script2TrainFacts.const_answer_model n (0, 0)%Q.

Definition w_no_step (q : QuestionRNN) (a : AnswerRNN) (_ : string) (_ : pyval) (_ : nat) :=
  (q, a).


(** ** Witness *)

(** Models over the one-point types, and an optimizer step that adds a
    layer to the answer model it trains. *)
Lemma script2_runs_witness :
  (forall n, q_input_size (Script2TrainFacts.unit_question_model n) = n) /\
  (forall i n, a_input_size (w_answer_model i n) = n) /\
  (forall q a s c t, q_input_size (Script2TrainFacts.w_sgd q a s c t).1 = q_input_size q /\
                     a_input_size (Script2TrainFacts.w_sgd q a s c t).2 = a_input_size a) /\
  exists accuracy1 accuracy2,
    script2 Script2TrainFacts.unit_question_model w_answer_model
            Script2TrainFacts.w_sgd 10 = Ok (accuracy1, accuracy2).
Proof.
  assert (Hq : forall n, q_input_size (Script2TrainFacts.unit_question_model n) = n) by reflexivity.
  assert (Ha : forall i n, a_input_size (w_answer_model i n) = n) by reflexivity.
  assert (Hs : forall q a s c t, q_input_size (Script2TrainFacts.w_sgd q a s c t).1 = q_input_size q /\
                                 a_input_size (Script2TrainFacts.w_sgd q a s c t).2 = a_input_size a)
    by (intros; split; reflexivity).
  do 3 (split; [assumption|]).
  exact (script2_runs _ _ _ Hq Ha Hs 10).
Defined.
(** Three of the nine training problems and three of the six test
    problems have 0 as their correct index. *)
Lemma answer_zero_counts :
  List.length (filter (fun p => ans_index p = 0%Z) trainingData) = 3 /\
  List.length (filter (fun p => ans_index p = 0%Z) testData) = 3.
Proof. split; vm_compute; reflexivity. Qed.

Lemma script2_unconfident_accuracy_witness :
  (forall i n, never_confident (w_answer_model i n)) /\
  (forall q a s c t, never_confident a -> never_confident (w_no_step q a s c t).2) /\
  exists r1 r2, script2 Script2TrainFacts.unit_question_model w_answer_model w_no_step 10 = Ok (r1, r2) /\
    r1.1 = List.length (filter (fun p => ans_index p = 0%Z) trainingData) /\
    r2.1 = List.length (filter (fun p => ans_index p = 0%Z) testData).
Proof.
  assert (Hq : forall n, q_input_size (Script2TrainFacts.unit_question_model n) = n) by reflexivity.
  assert (Ha : forall i n, a_input_size (w_answer_model i n) = n) by reflexivity.
  assert (Hs : forall q a s c t, q_input_size (w_no_step q a s c t).1 = q_input_size q /\
                                 a_input_size (w_no_step q a s c t).2 = a_input_size a)
    by (intros; split; reflexivity).
  assert (Hnc : forall i n, never_confident (w_answer_model i n))
    by (intros i n o; apply Qle_refl).
  assert (Hst : forall q a s c t, never_confident a -> never_confident (w_no_step q a s c t).2)
    by (intros q a s c t Ha'; exact Ha').
  split; [exact Hnc|]. split; [exact Hst|].
  exact (script2_unconfident_accuracy _ _ _ Hq Ha Hs 10 Hnc Hst).
Defined.
End Script2Run.
